(** * EmailSender: a shallow embedding of [send_email.py] and [custom_logger.py]

    The development follows the two source files of the repository:

    - [custom_logger.py]: the class [CustomLogger] with its three leveled
      operations [error], [info] and [debug];
    - [send_email.py]: [get_secrets], [send_email], [test_send_email] and the
      body of the [__main__] block.

    Python values are modelled as follows.  A [str] is a [string] whose
    characters are the code points U+0000 to U+00FF; a [bytes] object is a
    [string] as well, one character per byte.  A [pathlib.Path] is a record of
    its anchor and its components.  The file system is a finite map from paths
    to the contents of regular files, which are told apart by the spelling
    of their paths; reading a file in binary mode returns the stored
    characters, and reading it in text mode returns them with the line
    endings translated as Python does ([\r\n] and [\r] are read as [\n]).
    The functions of the program run in a state-and-exception monad over a
    [World] that holds the file system, the standard output, the SMTP
    traffic and the behaviour of the external collaborators (clock, SMTP
    server, MIME serialiser, traceback printer).

    The logger writes where the source writes: to the standard output, or by
    appending to its log file in the same file system that the program reads
    its secrets, message and attachment files from.  The serialiser of the
    [email] package is a collaborator that can refuse a message.
    Directories, permissions and character encodings are outside the model:
    a path names a regular file or nothing, every file that the program
    opens for writing can be opened (a missing one is created), and text
    files are written with [\n] as on a POSIX system. *)

From Stdlib Require Import String Ascii List Bool Arith NArith ZArith Lia.
From stdpp Require Import base option list strings gmap pretty.

Local Open Scope string_scope.
Local Open Scope list_scope.

(** ** Python's [str] operations used by the program *)

Definition LF : ascii := "010"%char.
Definition nl : string := String LF EmptyString.

(** [str.isspace] on a single character, for the code points below 256:
    U+0009..U+000D, U+001C..U+0020, U+0085 and U+00A0. *)
Definition isspace (c : ascii) : bool :=
  let n := nat_of_ascii c in
  ((9 <=? n)%nat && (n <=? 13)%nat) || ((28 <=? n)%nat && (n <=? 32)%nat)
  || (n =? 133)%nat || (n =? 160)%nat.

Fixpoint str_lstrip (s : string) : string :=
  match s with
  | EmptyString => EmptyString
  | String c s' => if isspace c then str_lstrip s' else s
  end.

Fixpoint str_rstrip (s : string) : string :=
  match s with
  | EmptyString => EmptyString
  | String c s' =>
      match str_rstrip s' with
      | EmptyString => if isspace c then EmptyString else String c EmptyString
      | r => String c r
      end
  end.

(** [s.strip()] *)
Definition str_strip (s : string) : string := str_rstrip (str_lstrip s).

(** [s.startswith(t)] *)
Definition str_startswith (s t : string) : bool := String.prefix t s.

(** [s.partition(sep)] for a separator of one character: the text before
    the first separator, the separator (or the empty string when it does not
    occur) and the text after it. *)
Fixpoint str_partition (sep : ascii) (s : string) : string * string * string :=
  match s with
  | EmptyString => (EmptyString, EmptyString, EmptyString)
  | String c s' =>
      if Ascii.eqb c sep then (EmptyString, String sep EmptyString, s')
      else
        let '(before, found, after) := str_partition sep s' in
        (String c before, found, after)
  end.

(** [s.split(sep)] for a separator of one character. *)
Fixpoint str_split (sep : ascii) (s : string) : list string :=
  match s with
  | EmptyString => [EmptyString]
  | String c s' =>
      if Ascii.eqb c sep then EmptyString :: str_split sep s'
      else
        match str_split sep s' with
        | [] => [String c EmptyString]
        | w :: ws => String c w :: ws
        end
  end.

(** [sep.join(l)] *)
Fixpoint str_join (sep : string) (l : list string) : string :=
  match l with
  | [] => EmptyString
  | [x] => x
  | x :: rest => x +:+ sep +:+ str_join sep rest
  end.

(** [str.lower] on the code points below 256: the upper-case letters
    U+0041..U+005A, U+00C0..U+00D6 and U+00D8..U+00DE move up by 32. *)
Definition chr_lower (c : ascii) : ascii :=
  let n := nat_of_ascii c in
  if ((65 <=? n)%nat && (n <=? 90)%nat) || ((192 <=? n)%nat && (n <=? 214)%nat)
     || ((216 <=? n)%nat && (n <=? 222)%nat)
  then ascii_of_nat (n + 32) else c.

Fixpoint str_lower (s : string) : string :=
  match s with
  | EmptyString => EmptyString
  | String c s' => String (chr_lower c) (str_lower s')
  end.

(** ** Text files: [readline], [read] and iteration over lines *)

(** [f.readline()] on the unread text [s]: the line with its terminating
    newline when there is one, and the text left unread. *)
Fixpoint readline (s : string) : string * string :=
  match s with
  | EmptyString => (EmptyString, EmptyString)
  | String c s' =>
      if Ascii.eqb c LF then (String c EmptyString, s')
      else let '(l, rest) := readline s' in (String c l, rest)
  end.

(** [for line in f]: the lines of the text, each with its newline. *)
Fixpoint file_lines (s : string) : list string :=
  match s with
  | EmptyString => []
  | String c s' =>
      if Ascii.eqb c LF then String c EmptyString :: file_lines s'
      else
        match file_lines s' with
        | [] => [String c EmptyString]
        | l :: ls => String c l :: ls
        end
  end.

(** What a file opened in text mode delivers of its stored characters
    (universal newlines, the default of [open]): [\r\n] and a lone [\r] are
    read as [\n]. *)
Definition CR : ascii := "013"%char.

Fixpoint universal_newlines (s : string) : string :=
  match s with
  | EmptyString => EmptyString
  | String c rest =>
      if Ascii.eqb c CR then
        match rest with
        | String d rest' =>
            if Ascii.eqb d LF then String LF (universal_newlines rest')
            else String LF (universal_newlines rest)
        | EmptyString => String LF EmptyString
        end
      else String c (universal_newlines rest)
  end.

(** ** [base64.encodebytes] and the UTF-8 encoder *)

Definition b64_alphabet : string :=
  "ABCDEFGHIJKLMNOPQRSTUVWXYZabcdefghijklmnopqrstuvwxyz0123456789+/".

Definition b64_char (i : N) : ascii :=
  default "="%char (String.get (N.to_nat i) b64_alphabet).

(** [binascii.b2a_base64] without its final newline. *)
Fixpoint b64_groups (bs : list ascii) : string :=
  match bs with
  | [] => EmptyString
  | [a] =>
      let x := N_of_ascii a in
      String (b64_char (x / 4))
        (String (b64_char ((x mod 4) * 16)) "==")
  | [a; b] =>
      let x := N_of_ascii a in
      let y := N_of_ascii b in
      String (b64_char (x / 4))
        (String (b64_char ((x mod 4) * 16 + y / 16))
           (String (b64_char ((y mod 16) * 4)) "="))
  | a :: b :: c :: rest =>
      let x := N_of_ascii a in
      let y := N_of_ascii b in
      let z := N_of_ascii c in
      String (b64_char (x / 4))
        (String (b64_char ((x mod 4) * 16 + y / 16))
           (String (b64_char ((y mod 16) * 4 + z / 64))
              (String (b64_char (z mod 64)) (b64_groups rest))))
  end.

Definition b2a_base64 (bs : list ascii) : string := b64_groups bs +:+ nl.

Definition MAXBINSIZE : nat := 57.

(** The slices [s[i : i + n]] for [i] in [range(0, len(s), n)]. *)
Fixpoint slices {A} (fuel n : nat) (l : list A) : list (list A) :=
  match fuel with
  | 0 => []
  | S fuel' =>
      match l with
      | [] => []
      | _ => take n l :: slices fuel' n (drop n l)
      end
  end.

Definition encodebytes (s : string) : string :=
  let bs := list_ascii_of_string s in
  String.concat EmptyString (map b2a_base64 (slices (length bs) MAXBINSIZE bs)).

(** [base64.decodebytes]: the characters outside the alphabet (newlines,
    padding) are skipped, and every four sextets give three bytes. *)
Fixpoint index_from (i : N) (c : ascii) (s : string) : option N :=
  match s with
  | EmptyString => None
  | String d s' => if Ascii.eqb c d then Some i else index_from (N.succ i) c s'
  end.

Definition b64_index (c : ascii) : option N := index_from 0 c b64_alphabet.

Fixpoint sextets (s : string) : list N :=
  match s with
  | EmptyString => []
  | String c s' =>
      match b64_index c with
      | Some i => i :: sextets s'
      | None => sextets s'
      end
  end.

Fixpoint a2b (l : list N) : list ascii :=
  match l with
  | a :: b :: c :: d :: rest =>
      ascii_of_N (a * 4 + b / 16)
      :: ascii_of_N ((b mod 16) * 16 + c / 4)
      :: ascii_of_N ((c mod 4) * 64 + d) :: a2b rest
  | [a; b; c] =>
      [ascii_of_N (a * 4 + b / 16); ascii_of_N ((b mod 16) * 16 + c / 4)]
  | [a; b] => [ascii_of_N (a * 4 + b / 16)]
  | _ => []
  end.

Definition decodebytes (s : string) : string :=
  string_of_list_ascii (a2b (sextets s)).

(** [text.encode("utf-8")] for code points below 256. *)
Fixpoint utf8_encode (s : string) : string :=
  match s with
  | EmptyString => EmptyString
  | String c s' =>
      let n := N_of_ascii c in
      if (n <? 128)%N then String c (utf8_encode s')
      else String (ascii_of_N (192 + n / 64))
             (String (ascii_of_N (128 + n mod 64)) (utf8_encode s'))
  end.

Fixpoint is_ascii (s : string) : bool :=
  match s with
  | EmptyString => true
  | String c s' => (N_of_ascii c <? 128)%N && is_ascii s'
  end.

(** ** [pathlib.Path] *)

(** A path as [pathlib] holds it: the anchor (empty for a relative path) and
    the components below it. *)
Record Path := mkPath { anchor : string; parts : list string }.

#[global] Instance Path_eq_dec : EqDecision Path.
Proof. solve_decision. Defined.

#[global] Instance Path_countable : Countable Path.
Proof.
  refine (inj_countable' (fun p => (anchor p, parts p))
            (fun ap => mkPath (fst ap) (snd ap)) _).
  by intros [].
Defined.

Fixpoint leading_slashes (s : string) : nat :=
  match s with
  | String "/"%char s' => S (leading_slashes s')
  | _ => 0
  end.

(** [Path(s)] on a POSIX system: empty components and [.] are dropped; two
    leading slashes (exactly) are kept as the anchor. *)
Definition Path_of_str (s : string) : Path :=
  let anchor :=
    match leading_slashes s with
    | 0 => EmptyString
    | 2 => "//"
    | _ => "/"
    end in
  mkPath anchor
    (filter (fun c => c <> EmptyString /\ c <> ".") (str_split "/"%char s)).

(** [str(p)] *)
Definition Path_str (p : Path) : string :=
  match anchor p, parts p with
  | EmptyString, [] => "."
  | a, ps => a +:+ str_join "/" ps
  end.

(** [p.name]: the final component, if any. *)
Definition Path_name (p : Path) : string := default EmptyString (last (parts p)).

(** ** MIME messages *)

(** A non-multipart MIME part: its content type with the parameters of the
    [Content-Type] header, its other headers in the order they were added,
    and its payload. *)
Record MIMEPart := mkPart {
  maintype : string;
  subtype : string;
  params : list (string * string);
  part_headers : list (string * string);
  payload : string
}.

(** A [multipart/mixed] container: headers in the order they were set, and
    the attached parts in the order they were attached. *)
Record MIMEMultipart := mkMultipart {
  headers : list (string * string);
  attached : list MIMEPart
}.

#[global] Instance MIMEPart_eq_dec : EqDecision MIMEPart.
Proof. solve_decision. Defined.

#[global] Instance MIMEMultipart_eq_dec : EqDecision MIMEMultipart.
Proof. solve_decision. Defined.

(** [MIMEMultipart()] *)
Definition MIMEMultipart_new : MIMEMultipart :=
  mkMultipart [("MIME-Version", "1.0")] [].

(** [message[name] = value] *)
Definition set_header (name value : string) (m : MIMEMultipart) : MIMEMultipart :=
  mkMultipart (headers m ++ [(name, value)]) (attached m).

(** [message.attach(part)] *)
Definition attach (part : MIMEPart) (m : MIMEMultipart) : MIMEMultipart :=
  mkMultipart (headers m) (attached m ++ [part]).

(** [MIMEText(text, subtype)]: the character set is [us-ascii] when the text
    is pure ASCII and [utf-8] otherwise; in the second case the payload is
    stored base64-encoded. *)
Definition MIMEText (text subtype : string) : MIMEPart :=
  if is_ascii text then
    mkPart "text" subtype [("charset", "us-ascii")]
      [("MIME-Version", "1.0"); ("Content-Transfer-Encoding", "7bit")] text
  else
    mkPart "text" subtype [("charset", "utf-8")]
      [("MIME-Version", "1.0"); ("Content-Transfer-Encoding", "base64")]
      (encodebytes (utf8_encode text)).

(** [MIMEBase(maintype, subtype)] *)
Definition MIMEBase (maintype subtype : string) : MIMEPart :=
  mkPart maintype subtype [] [("MIME-Version", "1.0")] EmptyString.

(** [part.set_payload(data)] *)
Definition set_payload (data : string) (p : MIMEPart) : MIMEPart :=
  mkPart (maintype p) (subtype p) (params p) (part_headers p) data.

(** [part.add_header(name, value)] *)
Definition add_header (name value : string) (p : MIMEPart) : MIMEPart :=
  mkPart (maintype p) (subtype p) (params p)
    (part_headers p ++ [(name, value)]) (payload p).

(** [encoders.encode_base64(part)] *)
Definition encode_base64 (p : MIMEPart) : MIMEPart :=
  add_header "Content-Transfer-Encoding" "base64"
    (set_payload (encodebytes (payload p)) p).

(** ** Exceptions *)

Inductive Exn :=
| Exception (msg : string)
| ValueError (msg : string)
| FileNotFoundError (filename : string)
| FileExistsError (filename : string)
| NameError (name : string)
| TransportError (descr : string)
| MessageError (descr : string)
| SystemExit (code : nat).

#[global] Instance Exn_eq_dec : EqDecision Exn.
Proof. solve_decision. Defined.

(** [isinstance(e, Exception)]: everything but [SystemExit], which derives
    from [BaseException] only.  [TransportError] stands for the exceptions
    of [smtplib] and of the socket layer, [MessageError] for those of
    [email.errors]. *)
Definition is_Exception (e : Exn) : bool :=
  match e with
  | SystemExit _ => false
  | _ => true
  end.

(** [str(e)] *)
Definition Exn_str (e : Exn) : string :=
  match e with
  | Exception msg => msg
  | ValueError msg => msg
  | FileNotFoundError f => "[Errno 2] No such file or directory: '" +:+ f +:+ "'"
  | FileExistsError f => "[Errno 17] File exists: '" +:+ f +:+ "'"
  | NameError n => "name '" +:+ n +:+ "' is not defined"
  | TransportError d => d
  | MessageError d => d
  | SystemExit c => pretty c
  end.

(** ** The world *)

(** What goes over the wire, one event per call into [smtplib]. *)
Inductive SMTPEvent :=
| Connect (host : string) (port : nat)
| StartTLS
| Login (user password : string)
| Sendmail (from_addr : string) (to_addrs : list string) (msg : string)
| Quit.

#[global] Instance SMTPEvent_eq_dec : EqDecision SMTPEvent.
Proof. solve_decision. Defined.

(** The SMTP server as the program meets it: each call either succeeds
    ([None]) or raises an [smtplib] or socket exception with the given
    description. *)
Record SMTPServer := mkServer {
  on_connect : string -> nat -> option string;
  on_starttls : option string;
  on_login : string -> string -> option string;
  on_sendmail : string -> list string -> string -> option string;
  on_quit : option string
}.

(** The collaborators outside the program: the clock read by
    [datetime.now()] (already formatted, one reading per call), the SMTP
    server, [Message.as_string] and [traceback.format_exc].  The serialiser
    refuses some messages, one whose header value holds a newline for
    instance: [as_string_raises] gives the description of the error of
    [email.errors] that it raises then, and [as_string] the text that it
    returns otherwise. *)
Record Host := mkHost {
  clock : nat -> string;
  server : SMTPServer;
  as_string : MIMEMultipart -> string;
  as_string_raises : MIMEMultipart -> option string;
  format_exc : Exn -> string
}.

Record World := mkWorld {
  host : Host;
  files : gmap Path string;
  console : list string;
  network : list SMTPEvent;
  ticks : nat
}.

Definition with_files (fs : gmap Path string) (w : World) : World :=
  mkWorld (host w) fs (console w) (network w) (ticks w).

Definition with_console (c : list string) (w : World) : World :=
  mkWorld (host w) (files w) c (network w) (ticks w).

Definition with_network (n : list SMTPEvent) (w : World) : World :=
  mkWorld (host w) (files w) (console w) n (ticks w).

Definition with_ticks (t : nat) (w : World) : World :=
  mkWorld (host w) (files w) (console w) (network w) t.

(** ** The monad of Python computations *)

Inductive Outcome (A : Type) :=
| Returned (a : A)
| Raised (e : Exn).
Arguments Returned {A} a.
Arguments Raised {A} e.

Definition Py (A : Type) : Type := World -> Outcome A * World.

Definition ret {A} (a : A) : Py A := fun w => (Returned a, w).

Definition raise {A} (e : Exn) : Py A := fun w => (Raised e, w).

Definition bind {A B} (m : Py A) (k : A -> Py B) : Py B :=
  fun w =>
    match m w with
    | (Returned a, w') => k a w'
    | (Raised e, w') => (Raised e, w')
    end.

Notation "x <- m ;; k" := (bind m (fun x => k))
  (at level 90, m at level 80, right associativity, only parsing).
Notation "m ;;; k" := (bind m (fun _ => k))
  (at level 90, right associativity, only parsing).

(** [try: body  except Exception as e: handler(e)] *)
Definition try_except {A} (body : Py A) (handler : Exn -> Py A) : Py A :=
  fun w =>
    match body w with
    | (Returned a, w') => (Returned a, w')
    | (Raised e, w') =>
        if is_Exception e then handler e w' else (Raised e, w')
    end.

(** [try: body  finally: cleanup]: the cleanup runs on both exits, and an
    exception of the cleanup replaces the one of the body. *)
Definition try_finally {A} (body : Py A) (cleanup : Py unit) : Py A :=
  fun w =>
    match body w with
    | (r, w') =>
        match cleanup w' with
        | (Returned _, w'') => (r, w'')
        | (Raised e, w'') => (Raised e, w'')
        end
    end.

(** *** File system *)

(** [os.path.isfile(p)] *)
Definition isfile (p : Path) : Py bool :=
  fun w => (Returned (bool_decide (is_Some (files w !! p))), w).

(** [with open(p, "rb") as f: ... f.read()]: the stored characters.  An
    [open(p, "r")] whose file is never read goes through it as well. *)
Definition read_file (p : Path) : Py string :=
  fun w =>
    match files w !! p with
    | Some content => (Returned content, w)
    | None => (Raised (FileNotFoundError (Path_str p)), w)
    end.

(** [with open(p) as f] and [with open(p, "r") as f]: the text that the
    reads of [f] go through, that of the file in text mode. *)
Definition read_text (p : Path) : Py string :=
  fun w =>
    match files w !! p with
    | Some content => (Returned (universal_newlines content), w)
    | None => (Raised (FileNotFoundError (Path_str p)), w)
    end.

(** [with open(p, "a+") as f: f.write(text)], for a destination that can
    be opened. *)
Definition append_file (p : Path) (text : string) : Py unit :=
  fun w =>
    (Returned tt,
     with_files (<[p := default EmptyString (files w !! p) +:+ text]> (files w)) w).

(** [with open(p, "x") as f: f.write(text)] *)
Definition create_file (p : Path) (text : string) : Py unit :=
  fun w =>
    match files w !! p with
    | Some _ => (Raised (FileExistsError (Path_str p)), w)
    | None => (Returned tt, with_files (<[p := text]> (files w)) w)
    end.

(** [os.remove(p)] *)
Definition remove (p : Path) : Py unit :=
  fun w =>
    match files w !! p with
    | Some _ => (Returned tt, with_files (delete p (files w)) w)
    | None => (Raised (FileNotFoundError (Path_str p)), w)
    end.

(** [print(text)] with an empty [end] *)
Definition print (text : string) : Py unit :=
  fun w => (Returned tt, with_console (console w ++ [text]) w).

(** [datetime.now().strftime('%Y-%m-%d %H:%M:%S,%f')[:-3]] *)
Definition now : Py string :=
  fun w => (Returned (clock (host w) (ticks w)), with_ticks (S (ticks w)) w).

(** ** [custom_logger.py] *)

(** The [log_file] argument, of type [Union[Path, str]]. *)
Inductive LogFile :=
| LogStr (s : string)
| LogPath (p : Path).

Record CustomLogger := mkLogger {
  log_file : LogFile;
  stdout : bool
}.

(** [CustomLogger.__init__] *)
Definition CustomLogger_init (log_file : LogFile) : CustomLogger :=
  mkLogger log_file
    match log_file with
    | LogStr s => if String.eqb (str_lower s) "stdout" then true else false
    | LogPath _ => false
    end.

(** The file that [open(self.log_file, "a+")] names: the path itself, or
    the file that the system finds under the name given as a [str]. *)
Definition log_path (lg : CustomLogger) : Path :=
  match log_file lg with
  | LogStr s => Path_of_str s
  | LogPath p => p
  end.

(** [frame_info.function.replace('<module>', 'main')] for the name of a
    frame, which is an identifier or [<module>]. *)
Definition frame_function (function : string) : string :=
  if String.eqb function "<module>" then "main" else function.

(** The line that a leveled operation renders. *)
Definition log_output (stamp level function : string) (lineno : nat)
    (message : string) : string :=
  stamp +:+ " [" +:+ level +:+ " " +:+ frame_function function +:+ " "
  +:+ pretty lineno +:+ "] " +:+ message +:+ nl.

(** The common body of [error], [info] and [debug]; [function] and [lineno]
    are those of the calling frame. *)
Definition log_call (level : string) (lg : CustomLogger)
    (function : string) (lineno : nat) (message : string) : Py unit :=
  stamp <- now ;;
  let output := log_output stamp level function lineno message in
  if stdout lg then print output else append_file (log_path lg) output.

Definition error := log_call "ERROR".
Definition info := log_call "INFO".
Definition debug := log_call "DEBUG".

(** ** [send_email.py]: [get_secrets] *)

Definition COLON : ascii := ":"%char.

(** [line.partition(":")[2].strip()] *)
Definition line_value (line : string) : string :=
  str_strip (snd (str_partition COLON line)).

(** One iteration of the loop over the lines of the secrets file
    (lines 61 to 65): the state is the pair of the variables [username]
    and [password]. *)
Definition scan_line (username_tag password_tag : string)
    (st : string * string) (line : string) : string * string :=
  let username :=
    if str_startswith line username_tag then line_value line else fst st in
  let password :=
    if str_startswith line password_tag then line_value line else snd st in
  (username, password).

(** The loop of lines 59 to 65 on the text of the file. *)
Definition scan_secrets (username_tag password_tag text : string)
    : string * string :=
  fold_left (scan_line username_tag password_tag) (file_lines text)
    (EmptyString, EmptyString).

(** The messages of [get_secrets]. *)
Definition loading_message (username_tag : string) (secrets_file : Path) : string :=
  "Loading secrets for '" +:+ username_tag +:+ "' from '"
  +:+ Path_str secrets_file +:+ "'...".

Definition does_not_exist (file : Path) : string :=
  "File '" +:+ Path_str file +:+ "' does not exist!".

Definition username_not_found (username_tag : string) (secrets_file : Path)
    : string :=
  "Username tag: '" +:+ username_tag +:+ "' not found in '"
  +:+ Path_str secrets_file +:+ "'!".

Definition password_not_found (password_tag : string) (secrets_file : Path)
    : string :=
  "Password tag: '" +:+ password_tag +:+ "' not found in '"
  +:+ Path_str secrets_file +:+ "'!".

Definition get_secrets (secrets_file : Path) (username_tag password_tag : string)
    (log_file : LogFile) : Py (string * string) :=
  let lg := CustomLogger_init log_file in
  info lg "get_secrets" 53 (loading_message username_tag secrets_file) ;;;
  exists_ <- isfile secrets_file ;;
  if negb exists_ then
    error lg "get_secrets" 56 (does_not_exist secrets_file) ;;;
    raise (Exception (does_not_exist secrets_file))
  else
    text <- read_text secrets_file ;;
    let '(username, password) := scan_secrets username_tag password_tag text in
    if String.eqb username EmptyString then
      raise (ValueError (username_not_found username_tag secrets_file))
    else if String.eqb password EmptyString then
      raise (ValueError (password_not_found password_tag secrets_file))
    else
      info lg "get_secrets" 77 "Secrets loaded successfully!" ;;;
      ret (username, password).

(** ** [send_email.py]: [send_email] *)

(** A call into the SMTP client: the event goes over the wire and the
    server's answer decides whether the call raises. *)
Definition smtp_call (ev : SMTPEvent) (answer : SMTPServer -> option string)
    : Py unit :=
  fun w =>
    let w' := with_network (network w ++ [ev]) w in
    match answer (server (host w)) with
    | None => (Returned tt, w')
    | Some descr => (Raised (TransportError descr), w')
    end.

(** [with SMTP(host, port) as server: body]: the constructor connects; on
    leaving the block, normally or not, [__exit__] sends QUIT. *)
Definition with_SMTP (smtp_host : string) (port : nat) (body : Py unit)
    : Py unit :=
  smtp_call (Connect smtp_host port) (fun s => on_connect s smtp_host port) ;;;
  try_finally body (smtp_call Quit on_quit).

(** Lines 146 to 152: the part built for an attachment from the bytes read
    from it. *)
Definition attachment_part (attachment : Path) (data : string) : MIMEPart :=
  let part := MIMEBase "application" "octet-stream" in
  let part := set_payload data part in
  let part := encode_base64 part in
  add_header "Content-Disposition"
    ("attachment; filename=" +:+ Path_name attachment) part.

(** Lines 144 to 153: one iteration of the loop over the attachments. *)
Definition attach_file (lg : CustomLogger) (attachment : Path)
    (message : MIMEMultipart) : Py MIMEMultipart :=
  debug lg "send_email" 144
    ("Attaching '" +:+ Path_str attachment +:+ "' to email....") ;;;
  data <- read_file attachment ;;
  ret (attach (attachment_part attachment data) message).

(** Lines 143 to 153. *)
Fixpoint attach_files (lg : CustomLogger) (attachments : list Path)
    (message : MIMEMultipart) : Py MIMEMultipart :=
  match attachments with
  | [] => ret message
  | attachment :: rest =>
      message' <- attach_file lg attachment message ;;
      attach_files lg rest message'
  end.

(** Lines 132 to 153: the message that [send_email] builds for the
    resolved sender and recipients. *)
Definition compose_message (lg : CustomLogger) (username : string)
    (recipients : list string) (subject body : string) (html : bool)
    (attachments : option (list Path)) : Py MIMEMultipart :=
  info lg "send_email" 132
    ("Creating new email to recipient(s): " +:+ str_join ", " recipients
     +:+ "...") ;;;
  let message := MIMEMultipart_new in
  let message := set_header "From" username message in
  let message := set_header "To" (str_join ", " recipients) message in
  let message := set_header "Subject" subject message in
  let message :=
    if html then attach (MIMEText body "html") message
    else attach (MIMEText body "plain") message in
  match attachments with
  | None => ret message
  | Some l => attach_files lg l message
  end.

(** Lines 157 to 160. *)
Definition submit (username password : string) (recipients : list string)
    (text : string) : Py unit :=
  with_SMTP "smtp.gmail.com" 587
    (smtp_call StartTLS on_starttls ;;;
     smtp_call (Login username password)
       (fun s => on_login s username password) ;;;
     smtp_call (Sendmail username recipients text)
       (fun s => on_sendmail s username recipients text)).

(** [message.as_string()] *)
Definition serialise (message : MIMEMultipart) : Py string :=
  fun w =>
    match as_string_raises (host w) message with
    | Some descr => (Raised (MessageError descr), w)
    | None => (Returned (as_string (host w) message), w)
    end.

(** The recipients that lines 129 and 130 leave in [recipients]. *)
Definition effective_recipients (recipients : list string) (username : string)
    : list string :=
  if decide (recipients = ["DEBUG"]) then [username] else recipients.

Definition send_email (recipients : list string) (subject body : string)
    (secrets_file : Path) (username_tag password_tag : string)
    (log_file : LogFile) (html : bool) (attachments : option (list Path))
    : Py unit :=
  let lg := CustomLogger_init log_file in
  secrets <- get_secrets secrets_file username_tag password_tag log_file ;;
  let '(username, password) := secrets in
  let recipients := effective_recipients recipients username in
  message <- compose_message lg username recipients subject body html
               attachments ;;
  text <- serialise message ;;
  submit username password recipients text ;;;
  info lg "send_email" 162 "Email sent successfully!".

(** ** [send_email.py]: [test_send_email] and the [__main__] block *)

(** The namespace that [parser.parse_args()] returns, by subcommand.  In
    message mode [--subject] and [--body] are taken as given. *)
Inductive Namespace :=
| MessageArgs (file : option Path) (recipients : option (list string))
    (subject body : string) (attachments : option (list Path))
    (secrets_file : Path) (username_tag password_tag : string)
    (log_file : string)
| TestArgs (secrets_file : Path) (username_tag password_tag : string)
    (include_attachment : bool) (log_file : string).

Definition args_secrets_file (args : Namespace) : Path :=
  match args with
  | MessageArgs _ _ _ _ _ secrets_file _ _ _ => secrets_file
  | TestArgs secrets_file _ _ _ _ => secrets_file
  end.

Definition args_log_file (args : Namespace) : string :=
  match args with
  | MessageArgs _ _ _ _ _ _ _ _ log_file => log_file
  | TestArgs _ _ _ _ log_file => log_file
  end.

(** Reading the module-level name [args]: it is bound only when the module
    runs as a script. *)
Definition global_args (args : option Namespace) : Py Namespace :=
  match args with
  | Some a => ret a
  | None => raise (NameError "args")
  end.

(** The handler of lines 213-214 and 231-232. *)
Definition log_exception (lg : CustomLogger) (lineno : nat) (e : Exn)
    : Py unit :=
  fun w =>
    error lg "test_send_email" lineno
      ("Exception occurred: " +:+ Exn_str e +:+ nl
       +:+ str_strip (format_exc (host w) e)) w.

Definition test_txt : Path := Path_of_str "test.txt".

(** [test_send_email]; the first argument is the module-level name [args]
    that line 225 reads. *)
Definition test_send_email (args : option Namespace) (secrets_file : Path)
    (username_tag password_tag : string) (log_file : LogFile)
    (include_attachment : bool) : Py unit :=
  let lg := CustomLogger_init log_file in
  info lg "test_send_email" 192 "====== INITIALIZING... ======" ;;;
  info lg "test_send_email" 194 "Attempting to send test email..." ;;;
  (if include_attachment then
     create_file test_txt ("This is a test attachment." +:+ nl) ;;;
     _ <- read_file test_txt ;;
     try_finally
       (try_except
          (send_email ["DEBUG"] "Test Email" "This is a test." secrets_file
             username_tag password_tag log_file false (Some [test_txt]))
          (log_exception lg 214))
       (remove test_txt)
   else
     try_except
       (a <- global_args args ;;
        send_email ["DEBUG"] "Test Email" "This is a test."
          (args_secrets_file a) username_tag password_tag log_file false None)
       (log_exception lg 232)) ;;;
  info lg "test_send_email" 234 "====== TERMINATED ======".

Definition is_empty (file : Path) : string :=
  "File '" +:+ Path_str file +:+ "' is empty!".

(** Lines 358 to 367: recipients, subject and body from a message file. *)
Definition read_message_file (lg : CustomLogger) (file : Path)
    : Py (list string * string * string) :=
  exists_ <- isfile file ;;
  if negb exists_ then
    error lg "<module>" 359 (does_not_exist file) ;;;
    raise (Exception (does_not_exist file))
  else
    text <- read_text file ;;
    let '(line1, rest1) := readline text in
    let recipients := str_split ","%char (str_strip line1) in
    if String.eqb (hd EmptyString recipients) EmptyString then
      error lg "<module>" 364 (is_empty file) ;;;
      raise (Exception (is_empty file))
    else
      let '(line2, rest2) := readline rest1 in
      let subject := str_strip line2 in
      let body := rest2 in
      ret (recipients, subject, body).

(** Line 347. *)
Definition main_log_file (args : Namespace) : LogFile :=
  if String.eqb (args_log_file args) "stdout" then LogStr "stdout"
  else LogPath (Path_of_str (args_log_file args)).

(** The [__main__] block from line 345 on, for the parsed arguments. *)
Definition main (args : Namespace) : Py unit :=
  let log_file := main_log_file args in
  let lg := CustomLogger_init log_file in
  match args with
  | MessageArgs file recipients subject body attachments secrets_file _ _ _ =>
      info lg "<module>" 352 "====== INITIALIZING... ======" ;;;
      message <-
        match file with
        | None =>
            match recipients with
            | None | Some [] => raise (SystemExit 2)
            | Some l => ret (l, subject, body)
            end
        | Some f => read_message_file lg f
        end ;;
      let '(recipients, subject, body) := message in
      send_email recipients subject body secrets_file
        "gmail_username" "gmail_password" log_file false attachments ;;;
      info lg "<module>" 380 "====== TERMINATED ======"
  | TestArgs secrets_file username_tag password_tag include_attachment _ =>
      test_send_email (Some args) secrets_file username_tag password_tag
        log_file include_attachment
  end.

(** ** Notions used in the statements *)


(** The lines of a file with the contents [text] that begin with a tag, in
    file order; the lines are those that the file gives in text mode. *)
Definition matching_lines (tag text : string) : list string :=
  filter (fun l => str_startswith l tag = true)
    (file_lines (universal_newlines text)).

(** The value that the scan leaves for a tag: that of the last matching
    line, and the empty string when no line matches. *)
Definition tag_value (tag text : string) : string :=
  from_option line_value EmptyString (last (matching_lines tag text)).

(** A tag is bound to [v]: the last line that begins with it has the
    non-empty value [v]. *)
Definition tag_found (tag text v : string) : Prop :=
  exists l, last (matching_lines tag text) = Some l
            /\ line_value l = v /\ v <> EmptyString.

(** A tag is left unset: no line begins with it, or the last line that
    does has an empty value. *)
Definition tag_missing (tag text : string) : Prop :=
  matching_lines tag text = []
  \/ exists l, last (matching_lines tag text) = Some l
               /\ line_value l = EmptyString.

(** Python's test that [line.partition(":")] found no separator. *)
Definition no_colon (line : string) : Prop :=
  snd (fst (str_partition COLON line)) = EmptyString.

(** The world in which line 55 of [get_secrets] runs: the one that the log
    call of line 53 leaves. *)
Definition at_check (secrets_file : Path) (username_tag : string)
    (log_file : LogFile) (w : World) : World :=
  snd (info (CustomLogger_init log_file) "get_secrets" 53
         (loading_message username_tag secrets_file) w).

(** The log of a run does not go to the file [p]. *)
Definition logs_elsewhere (log_file : LogFile) (p : Path) : Prop :=
  stdout (CustomLogger_init log_file) = true
  \/ log_path (CustomLogger_init log_file) <> p.

(** The events of an SMTP session after its [Connect]: nothing but the
    calls of lines 158 to 160 for these credentials, recipients and text,
    and the QUIT of [__exit__]. *)
Definition session_of (username password : string) (recipients : list string)
    (text : string) (evs : list SMTPEvent) : Prop :=
  forall ev, ev ∈ evs ->
    ev = StartTLS \/ ev = Login username password
    \/ ev = Sendmail username recipients text \/ ev = Quit.

(** The server lets a session for these credentials reach [sendmail]. *)
Definition accepts (srv : SMTPServer) (username password : string) : Prop :=
  on_connect srv "smtp.gmail.com" 587 = None
  /\ on_starttls srv = None
  /\ on_login srv username password = None.

(** The part that the loop builds for [a], and the bytes it encodes: those
    that [a] held at the start when the log goes elsewhere. *)
Definition part_of (lf : LogFile) (w : World) (a : Path) (part : MIMEPart) : Prop :=
  exists data,
    part = attachment_part a data
    /\ (logs_elsewhere lf a -> files w !! a = Some data).

(** What the claim on attachments asks of the part for the path [a]: an
    [application/octet-stream] part, encoded in base64, whose
    [Content-Disposition] names the file and whose payload is the base64
    text of the bytes of the file (those that [a] holds in [w] when the log
    goes elsewhere). *)
Definition carries (lf : LogFile) (w : World) (a : Path) (part : MIMEPart) : Prop :=
  maintype part = "application"
  /\ subtype part = "octet-stream"
  /\ part_headers part
     = [("MIME-Version", "1.0"); ("Content-Transfer-Encoding", "base64");
        ("Content-Disposition", "attachment; filename=" +:+ Path_name a)]
  /\ exists data,
       payload part = encodebytes data
       /\ decodebytes (payload part) = data
       /\ (logs_elsewhere lf a -> files w !! a = Some data).

(** A text without a newline character. *)
Definition no_newline (l : string) : Prop :=
  Forall (fun c => c <> LF) (list_ascii_of_string l).

(** A text without an end of line, and the ends of line that files have:
    [\n] and [\r\n]. *)
Definition one_line (l : string) : Prop :=
  no_newline l /\ Forall (fun c => c <> CR) (list_ascii_of_string l).

Definition crlf : string := String CR nl.

Definition line_end (e : string) : Prop := e = nl \/ e = crlf.

(** The world in which line 196 of [test_send_email] runs: the one that
    the log calls of lines 192 and 194 leave. *)
Definition test_entry (log_file : LogFile) (w : World) : World :=
  snd (info (CustomLogger_init log_file) "test_send_email" 194
         "Attempting to send test email..."
         (snd (info (CustomLogger_init log_file) "test_send_email" 192
                 "====== INITIALIZING... ======" w))).

(** Everything that the logger of a run has written so far: the standard
    output, or the contents of the log file. *)
Definition log_text (log_file : LogFile) (w : World) : string :=
  if stdout (CustomLogger_init log_file)
  then foldr String.append EmptyString (console w)
  else default EmptyString (files w !! log_path (CustomLogger_init log_file)).

(** The closing line of [test_send_email] ends the log. *)
Definition closes_log (log_file : LogFile) (w : World) : Prop :=
  exists before stamp,
    log_text log_file w
    = before +:+ log_output stamp "INFO" "test_send_email" 234
                   "====== TERMINATED ======".

(** A computation raises nothing but instances of [Exception], and removes
    no file. *)
Definition tame {A} (m : Py A) : Prop :=
  (forall w e w', m w = (Raised e, w') -> is_Exception e = true)
  /\ (forall w p, is_Some (files w !! p) -> is_Some (files (snd (m w)) !! p)).

(** The sextets into which base64 cuts a sequence of bytes. *)
Fixpoint six (bs : list ascii) : list N :=
  match bs with
  | [] => []
  | [a] => let x := N_of_ascii a in [x / 4; (x mod 4) * 16]%N
  | [a; b] =>
      let x := N_of_ascii a in let y := N_of_ascii b in
      [x / 4; (x mod 4) * 16 + y / 16; (y mod 16) * 4]%N
  | a :: b :: c :: rest =>
      let x := N_of_ascii a in let y := N_of_ascii b in let z := N_of_ascii c in
      (x / 4)%N :: ((x mod 4) * 16 + y / 16)%N :: ((y mod 16) * 4 + z / 64)%N
      :: (z mod 64)%N :: six rest
  end.

(** ** Sample worlds

    A host whose SMTP server accepts everything, with a fixed clock and a
    serialiser that refuses nothing and prints the headers and the payloads;
    the worlds below
    start with empty output and no traffic. *)

Definition quiet_server : SMTPServer :=
  mkServer (fun _ _ => None) None (fun _ _ => None) (fun _ _ _ => None) None.

(** A server that refuses the password. *)
Definition refusing_server : SMTPServer :=
  mkServer (fun _ _ => None) None
    (fun _ _ => Some "(535, b'5.7.8 Username and Password not accepted.')")
    (fun _ _ _ => None) None.

Definition plain_render (m : MIMEMultipart) : string :=
  String.concat EmptyString
    (map (fun h => fst h +:+ ": " +:+ snd h +:+ nl) (headers m))
  +:+ String.concat EmptyString
        (map (fun p => nl +:+ maintype p +:+ "/" +:+ subtype p +:+ nl
                       +:+ payload p) (attached m)).

Definition sample_host : Host :=
  mkHost (fun _ => "2024-01-01 00:00:00,000") quiet_server plain_render
    (fun _ => None) (fun _ => "Traceback (most recent call last):").

Definition sample_world (fs : gmap Path string) : World :=
  mkWorld sample_host fs [] [] 0.

Definition secrets_txt : Path := Path_of_str "secrets.txt".

Definition to_stdout : LogFile := LogStr "stdout".

(** A secrets file in which the tag [u] begins two lines. *)
Definition twice_text : string :=
  "u: a" +:+ nl +:+ "u: b" +:+ nl +:+ "p: x" +:+ nl.

(** A secrets file whose line for [u] has nothing after the colon. *)
Definition blank_text : string := "u:" +:+ nl +:+ "p: x" +:+ nl.

(** A secrets file whose first line for [u] has no colon. *)
Definition bare_text : string :=
  "u" +:+ nl +:+ "u: a" +:+ nl +:+ "p: x" +:+ nl.

(** The secrets file of the end-to-end scenario. *)
Definition alice_text : string :=
  "gmail_username: alice@example.com" +:+ nl
  +:+ "gmail_password: s3cr3t" +:+ nl.

Definition alice_world : World := sample_world {[secrets_txt := alice_text]}.

(** The world that [get_secrets] leaves in the scenario. *)
Definition alice_resolved : World :=
  snd (get_secrets secrets_txt "gmail_username" "gmail_password" to_stdout
         alice_world).

(** A world with an attachment next to the secrets file of the scenario. *)
Definition report_txt : Path := Path_of_str "docs/report.txt".

Definition report_world : World :=
  sample_world {[secrets_txt := alice_text; report_txt := "hello"]}.

Definition report_resolved : World :=
  snd (get_secrets secrets_txt "gmail_username" "gmail_password" to_stdout
         report_world).

Definition report_message : MIMEMultipart :=
  mkMultipart
    [("MIME-Version", "1.0"); ("From", "alice@example.com");
     ("To", "bob@example.com"); ("Subject", "Hi")]
    [MIMEText "Body" "plain"; attachment_part report_txt "hello"].

(** The message file of the end-to-end scenario, and one whose first line
    is blank. *)
Definition message_txt : Path := Path_of_str "message.txt".

Definition scenario_text : string :=
  "bob@example.com,carol@example.com" +:+ nl +:+ "Hello" +:+ nl
  +:+ "Body line 1" +:+ nl +:+ "Body line 2" +:+ nl.

Definition blank_first_text : string :=
  nl +:+ "Hello" +:+ nl +:+ "Body" +:+ nl.

(** The message file of the scenario with the line endings [\r\n]. *)
Definition crlf_text : string :=
  "bob@example.com,carol@example.com" +:+ crlf +:+ "Hello" +:+ crlf
  +:+ "Body line 1" +:+ crlf +:+ "Body line 2" +:+ crlf.

(** A second secrets file, with other credentials. *)
Definition other_txt : Path := Path_of_str "other.txt".

Definition mallory_text : string :=
  "gmail_username: mallory@example.com" +:+ nl
  +:+ "gmail_password: hunter2" +:+ nl.

Definition two_secrets_world : World :=
  sample_world {[secrets_txt := alice_text; other_txt := mallory_text]}.

(** The scenario with the server that refuses the password. *)
Definition refused_world : World :=
  mkWorld
    (mkHost (fun _ => "2024-01-01 00:00:00,000") refusing_server plain_render
       (fun _ => None) (fun _ => "Traceback (most recent call last):"))
    {[secrets_txt := alice_text]} [] [] 0.

Definition scenario_args : Namespace :=
  TestArgs secrets_txt "gmail_username" "gmail_password" false "stdout".

(** ** Notions used in the further properties *)

(** A computation leaves an observation of the world as it was. *)
Definition keeps {A X} (obs : World -> X) (m : Py A) : Prop :=
  forall w, obs (snd (m w)) = obs w.

(** The contents of one file. *)
Definition file_at (p : Path) (w : World) : option string := files w !! p.

(** An observation that no call of the logger of [log_file] changes, and
    one that the SMTP traffic does not change. *)
Definition log_blind {X} (obs : World -> X) (log_file : LogFile) : Prop :=
  forall level f n msg,
    keeps obs (log_call level (CustomLogger_init log_file) f n msg).

Definition net_blind {X} (obs : World -> X) : Prop :=
  forall n w, obs (with_network n w) = obs w.

(** The events of one session with the server [srv], by its answers: the
    calls go as far as the first one that the server refuses, and QUIT
    follows once the connection stands. *)
Definition session_trace (srv : SMTPServer) (username password : string)
    (recipients : list string) (text : string) : list SMTPEvent :=
  Connect "smtp.gmail.com" 587
  :: match on_connect srv "smtp.gmail.com" 587 with
     | Some _ => []
     | None =>
         StartTLS
         :: match on_starttls srv with
            | Some _ => [Quit]
            | None =>
                Login username password
                :: match on_login srv username password with
                   | Some _ => [Quit]
                   | None => [Sendmail username recipients text; Quit]
                   end
            end
     end.

(** The server accepts every call of a session. *)
Definition accepts_all (srv : SMTPServer) (username password : string)
    (recipients : list string) (text : string) : Prop :=
  on_connect srv "smtp.gmail.com" 587 = None
  /\ on_starttls srv = None
  /\ on_login srv username password = None
  /\ on_sendmail srv username recipients text = None
  /\ on_quit srv = None.

(** A line as the text layer hands it out: a newline can only be its last
    character. *)
Fixpoint newline_only_last (s : string) : Prop :=
  match s with
  | EmptyString => True
  | String c s' => (c = LF -> s' = EmptyString) /\ newline_only_last s'
  end.

(** A text without the character [c]. *)
Definition without (c : ascii) (s : string) : Prop :=
  Forall (fun d => d <> c) (list_ascii_of_string s).

(** [l] is the first line of the text [t]: the text up to and including its
    first newline, or all of it when it holds none. *)
Definition first_line (l t : string) : Prop :=
  exists rest,
    t = l +:+ rest
    /\ ((exists l0, l = l0 +:+ nl /\ no_newline l0)
        \/ (rest = EmptyString /\ no_newline l)).

(** The name of a file, as the last component of a path is written. *)
Definition file_name (name : string) : Prop :=
  name <> EmptyString /\ name <> "." /\ without "/"%char name.

(** A computation only adds to what the logger of [log_file] has written:
    the earlier text stays, as a prefix. *)
Definition grows {A} (log_file : LogFile) (m : Py A) : Prop :=
  forall w, exists added,
    log_text log_file (snd (m w)) = log_text log_file w +:+ added.

(** The DEBUG lines of line 144 for a list of attachments, the first one
    stamped at the tick [t]. *)
Fixpoint attach_lines (clock : nat -> string) (t : nat)
    (attachments : list Path) : string :=
  match attachments with
  | [] => EmptyString
  | a :: rest =>
      log_output (clock t) "DEBUG" "send_email" 144
        ("Attaching '" +:+ Path_str a +:+ "' to email....")
      +:+ attach_lines clock (S t) rest
  end.

(** ** Proof automation *)

Ltac arith := zify; Z.to_euclidean_division_equations; lia.

Ltac by_cases_on_member Hev :=
  repeat (apply elem_of_cons in Hev as [->|Hev]; [tauto|]);
  by apply elem_of_nil in Hev.

Ltac is_member := apply list_elem_of_In; cbn; tauto.

Create HintDb tame.

Create HintDb keeps.

(** * Properties *)

(** ** The library models

    Sample values of the string operations, and the round trip of base64. *)

Example strip_sample : str_strip ("  a b " +:+ nl) = "a b".
Proof. reflexivity. Qed.

Example split_sample : str_split ","%char "a,,b" = ["a"; EmptyString; "b"].
Proof. reflexivity. Qed.

Example partition_sample :
  str_partition COLON "k: v:w" = ("k", ":", " v:w").
Proof. reflexivity. Qed.

Example file_lines_sample :
  file_lines ("x" +:+ nl +:+ nl +:+ "y") = ["x" +:+ nl; nl; "y"].
Proof. reflexivity. Qed.

Example lower_sample : str_lower "StdOut" = "stdout".
Proof. reflexivity. Qed.

Example path_sample :
  Path_of_str "/a//b/./c.txt" = mkPath "/" ["a"; "b"; "c.txt"]
  /\ Path_str (Path_of_str "/a//b/./c.txt") = "/a/b/c.txt"
  /\ Path_name (Path_of_str "/a//b/./c.txt") = "c.txt".
Proof. repeat split. Qed.

Example encodebytes_sample : encodebytes "hello" = "aGVsbG8=" +:+ nl.
Proof. reflexivity. Qed.

Lemma b64_index_char (i : N) : (i < 64)%N -> b64_index (b64_char i) = Some i.
Proof.
  intros Hi.
  assert (H : forallb (fun n => match b64_index (b64_char (N.of_nat n)) with
                                | Some j => N.eqb j (N.of_nat n)
                                | None => false
                                end) (seq 0 64) = true) by (vm_compute; reflexivity).
  rewrite forallb_forall in H. specialize (H (N.to_nat i)).
  rewrite N2Nat.id in H.
  destruct (b64_index (b64_char i)) as [j|].
  - f_equal. apply N.eqb_eq. apply H. apply in_seq. lia.
  - exfalso. assert (false = true); [|done]. apply H. apply in_seq. lia.
Qed.

Lemma b64_index_pad : b64_index "="%char = None.
Proof. reflexivity. Qed.
Lemma b64_index_LF : b64_index LF = None.
Proof. reflexivity. Qed.

Lemma sextets_app (s t : string) : sextets (s +:+ t) = sextets s ++ sextets t.
Proof.
  induction s as [|c s IH]; [done|].
  change (String c s +:+ t) with (String c (s +:+ t)). cbn [sextets].
  destruct (b64_index c); by rewrite IH.
Qed.

Lemma list_ind3 {A} (P : list A -> Prop) :
  P [] -> (forall a, P [a]) -> (forall a b, P [a; b]) ->
  (forall a b c l, P l -> P (a :: b :: c :: l)) -> forall l, P l.
Proof.
  intros H0 H1 H2 H3.
  fix IH 1. intros [|a [|b [|c l]]].
  - exact H0.
  - apply H1.
  - apply H2.
  - apply H3, IH.
Qed.

Lemma sextets_groups (bs : list ascii) : sextets (b64_groups bs) = six bs.
Proof.
  induction bs as [|a|a b|a b c l IH] using list_ind3.
  - done.
  - cbn [b64_groups six]. cbv zeta. pose proof (N_ascii_bounded a).
    cbn [sextets]. rewrite !b64_index_char, b64_index_pad by arith. done.
  - cbn [b64_groups six]. cbv zeta. pose proof (N_ascii_bounded a).
    pose proof (N_ascii_bounded b).
    cbn [sextets]. rewrite !b64_index_char, b64_index_pad by arith. done.
  - cbn [b64_groups six]. cbv zeta. pose proof (N_ascii_bounded a).
    pose proof (N_ascii_bounded b). pose proof (N_ascii_bounded c).
    cbn [sextets]. rewrite !b64_index_char by arith. by rewrite IH.
Qed.

Lemma ascii_of_N_of (a : ascii) (n : N) : n = N_of_ascii a -> ascii_of_N n = a.
Proof. intros ->. apply ascii_N_embedding. Qed.

Lemma a2b_six (bs : list ascii) : a2b (six bs) = bs.
Proof.
  induction bs as [|a|a b|a b c l IH] using list_ind3.
  - done.
  - cbn [six a2b]. cbv zeta. pose proof (N_ascii_bounded a).
    f_equal. apply ascii_of_N_of. arith.
  - cbn [six a2b]. cbv zeta. pose proof (N_ascii_bounded a).
    pose proof (N_ascii_bounded b).
    f_equal; [|f_equal]; apply ascii_of_N_of; arith.
  - cbn [six]. cbv zeta. cbn [a2b]. rewrite IH.
    pose proof (N_ascii_bounded a).
    pose proof (N_ascii_bounded b). pose proof (N_ascii_bounded c).
    f_equal; [|f_equal; [|f_equal]]; apply ascii_of_N_of; arith.
Qed.

Lemma six_app (l1 l2 : list ascii) (k : nat) :
  length l1 = 3 * k -> six (l1 ++ l2) = six l1 ++ six l2.
Proof.
  revert l1. induction k as [|k IH]; intros l1 Hl.
  - destruct l1; [done|cbn in Hl; lia].
  - destruct l1 as [|a [|b [|c l1]]]; cbn [length] in Hl; try lia.
    cbn [app six]. cbv zeta. rewrite IH by lia. done.
Qed.

Lemma sextets_b2a (bs : list ascii) : sextets (b2a_base64 bs) = six bs.
Proof.
  unfold b2a_base64. rewrite sextets_app, sextets_groups.
  cbn. by rewrite app_nil_r.
Qed.

Lemma sextets_slices (fuel : nat) (bs : list ascii) :
  length bs <= fuel ->
  sextets (String.concat EmptyString (map b2a_base64 (slices fuel MAXBINSIZE bs)))
  = six bs.
Proof.
  revert bs. induction fuel as [|fuel IH]; intros bs Hl.
  - destruct bs; [done|cbn in Hl; lia].
  - destruct bs as [|b bs']; [done|]. set (l := b :: bs') in *.
    change (slices (S fuel) MAXBINSIZE l)
      with (take MAXBINSIZE l :: slices fuel MAXBINSIZE (drop MAXBINSIZE l)).
    assert (Hd : length (drop MAXBINSIZE l) <= fuel).
    { rewrite length_drop. subst l. cbn [length] in *. unfold MAXBINSIZE. lia. }
    specialize (IH _ Hd).
    assert (Hc : forall x xs, sextets (String.concat EmptyString (x :: xs))
                              = sextets x ++ sextets (String.concat EmptyString xs)).
    { intros x [|y xs]; cbn [String.concat].
      - by rewrite app_nil_r.
      - by rewrite !sextets_app. }
    cbn [map]. rewrite Hc, IH, sextets_b2a.
    destruct (decide (MAXBINSIZE <= length l)) as [Hle|Hgt].
    + rewrite <- (take_drop MAXBINSIZE l) at 3.
      apply eq_sym, (six_app _ _ 19). rewrite length_take. unfold MAXBINSIZE in *. lia.
    + rewrite take_ge, drop_ge by lia. cbn. by rewrite app_nil_r.
Qed.

(** Decoding what [encodebytes] produces gives the bytes back. *)
Lemma decodebytes_encodebytes (s : string) : decodebytes (encodebytes s) = s.
Proof.
  unfold decodebytes, encodebytes. cbv zeta.
  rewrite sextets_slices by done. rewrite a2b_six.
  apply string_of_list_ascii_of_string.
Qed.


(** ** The scan of the secrets file *)

Lemma from_option_last_cons {A B} (f : A -> B) (d : B) (x : A) (l : list A) :
  from_option f d (last (x :: l)) = from_option f (f x) (last l).
Proof. rewrite last_cons. by destruct (last l). Qed.

Lemma scan_fold (ut pt : string) (ls : list string) (st : string * string) :
  fold_left (scan_line ut pt) ls st =
  (from_option line_value (fst st)
     (last (filter (fun l => str_startswith l ut = true) ls)),
   from_option line_value (snd st)
     (last (filter (fun l => str_startswith l pt = true) ls))).
Proof.
  revert st. induction ls as [|l ls IH]; intros [u p]; [done|].
  cbn [fold_left]. rewrite IH, !filter_cons. unfold scan_line; cbn [fst snd].
  destruct (str_startswith l ut) eqn:Hu, (str_startswith l pt) eqn:Hp;
    repeat case_decide; try congruence;
    by rewrite ?from_option_last_cons.
Qed.

Lemma scan_secrets_tag_value (ut pt text : string) :
  scan_secrets ut pt (universal_newlines text)
  = (tag_value ut text, tag_value pt text).
Proof. unfold scan_secrets. by rewrite scan_fold. Qed.

(** ** The logger *)

Lemma log_call_unfold (level : string) (lg : CustomLogger) (f : string)
    (n : nat) (msg : string) (w : World) :
  log_call level lg f n msg w =
  (Returned tt,
   let w' := with_ticks (S (ticks w)) w in
   let output := log_output (clock (host w) (ticks w)) level f n msg in
   if stdout lg then with_console (console w ++ [output]) w'
   else with_files
          (<[log_path lg := default EmptyString (files w !! log_path lg)
                            +:+ output]> (files w)) w').
Proof. unfold log_call, bind, now, print, append_file. by destruct (stdout lg). Qed.

Lemma log_call_returns level lg f n msg w :
  log_call level lg f n msg w = (Returned tt, snd (log_call level lg f n msg w)).
Proof. by rewrite log_call_unfold. Qed.

Lemma log_call_host level lg f n msg w :
  host (snd (log_call level lg f n msg w)) = host w.
Proof. rewrite log_call_unfold. cbv zeta. cbn [snd]. by destruct (stdout lg). Qed.

Lemma log_call_network level lg f n msg w :
  network (snd (log_call level lg f n msg w)) = network w.
Proof. rewrite log_call_unfold. cbv zeta. cbn [snd]. by destruct (stdout lg). Qed.

Lemma log_call_files_elsewhere level lf f n msg w p :
  logs_elsewhere lf p ->
  files (snd (log_call level (CustomLogger_init lf) f n msg w)) !! p
  = files w !! p.
Proof.
  intros H. rewrite log_call_unfold. cbv zeta. cbn [snd].
  destruct (stdout (CustomLogger_init lf)) eqn:E; [done|].
  destruct H as [H|H]; [congruence|]. cbn [files with_files].
  by rewrite lookup_insert_ne.
Qed.

Lemma log_call_files_mono level lg f n msg w p :
  is_Some (files w !! p) ->
  is_Some (files (snd (log_call level lg f n msg w)) !! p).
Proof.
  intros H. rewrite log_call_unfold. cbv zeta. cbn [snd].
  destruct (stdout lg); [done|]. cbn [files with_files].
  destruct (decide (log_path lg = p)) as [->|Hne].
  - rewrite lookup_insert_eq. by eexists.
  - by rewrite lookup_insert_ne.
Qed.

(** ** [get_secrets] *)

(** What [get_secrets] does, by the state of the secrets file at the check
    of line 55. *)
Lemma get_secrets_unfold (sf : Path) (ut pt : string) (lf : LogFile) (w : World) :
  get_secrets sf ut pt lf w =
  let lg := CustomLogger_init lf in
  let w1 := at_check sf ut lf w in
  match files w1 !! sf with
  | None =>
      (Raised (Exception (does_not_exist sf)),
       snd (error lg "get_secrets" 56 (does_not_exist sf) w1))
  | Some text =>
      if String.eqb (tag_value ut text) EmptyString then
        (Raised (ValueError (username_not_found ut sf)), w1)
      else if String.eqb (tag_value pt text) EmptyString then
        (Raised (ValueError (password_not_found pt sf)), w1)
      else
        (Returned (tag_value ut text, tag_value pt text),
         snd (info lg "get_secrets" 77 "Secrets loaded successfully!" w1))
  end.
Proof.
  cbv zeta. unfold at_check, info, error.
  set (w1 := snd (log_call _ _ _ _ _ w)).
  unfold get_secrets, info, error. cbv zeta.
  unfold bind at 1. rewrite (log_call_returns _ _ _ _ _ w). fold w1.
  unfold bind at 1. unfold isfile at 1.
  destruct (files w1 !! sf) as [text|] eqn:Hsf.
  - rewrite bool_decide_eq_true_2 by (by eexists). cbn [negb].
    unfold bind at 1, read_text at 1. rewrite Hsf.
    rewrite scan_secrets_tag_value.
    destruct (String.eqb (tag_value ut text) EmptyString); [done|].
    destruct (String.eqb (tag_value pt text) EmptyString); [done|].
    unfold bind. by rewrite (log_call_returns _ _ _ _ _ w1).
  - rewrite bool_decide_eq_false_2 by (by intros [? ?]). cbn [negb].
    unfold bind. by rewrite (log_call_returns _ _ _ _ _ w1).
Qed.

Lemma tag_value_empty_iff (tag text : string) :
  tag_value tag text = EmptyString <->
  (forall l, last (matching_lines tag text) = Some l -> line_value l = EmptyString).
Proof.
  unfold tag_value. destruct (last (matching_lines tag text)) as [l|]; cbn.
  - split; [by intros H l' [= <-]|auto].
  - split; [by intros _ l' [=]|done].
Qed.

Lemma tag_value_last (tag text l : string) :
  last (matching_lines tag text) = Some l -> tag_value tag text = line_value l.
Proof. unfold tag_value. by intros ->. Qed.

Lemma tag_value_unmatched (tag text : string) :
  matching_lines tag text = [] -> tag_value tag text = EmptyString.
Proof. unfold tag_value. by intros ->. Qed.

Lemma tag_value_matched (tag text : string) :
  tag_value tag text <> EmptyString ->
  exists l, last (matching_lines tag text) = Some l
            /\ tag_value tag text = line_value l.
Proof.
  unfold tag_value. destruct (last (matching_lines tag text)) as [l|]; cbn.
  - intros _. by exists l.
  - done.
Qed.

Lemma partition_no_separator (sep : ascii) (s : string) :
  snd (fst (str_partition sep s)) = EmptyString ->
  snd (str_partition sep s) = EmptyString.
Proof.
  induction s as [|c s IH]; cbn; [done|].
  destruct (Ascii.eqb c sep); cbn; [done|].
  destruct (str_partition sep s) as [[b f] a]. cbn in *. exact IH.
Qed.

Lemma no_colon_value (line : string) :
  no_colon line -> line_value line = EmptyString.
Proof.
  unfold no_colon, line_value. intros H.
  by rewrite (partition_no_separator _ _ H).
Qed.

Lemma at_check_files_elsewhere sf ut lf w :
  logs_elsewhere lf sf -> files (at_check sf ut lf w) !! sf = files w !! sf.
Proof. intros H. unfold at_check, info. by apply log_call_files_elsewhere. Qed.

Lemma at_check_network sf ut lf w : network (at_check sf ut lf w) = network w.
Proof. unfold at_check, info. apply log_call_network. Qed.

Lemma at_check_host sf ut lf w : host (at_check sf ut lf w) = host w.
Proof. unfold at_check, info. apply log_call_host. Qed.

(** What [get_secrets] returns, and when. *)
Lemma get_secrets_returns sf ut pt lf w text :
  files (at_check sf ut lf w) !! sf = Some text ->
  tag_value ut text <> EmptyString ->
  tag_value pt text <> EmptyString ->
  fst (get_secrets sf ut pt lf w) = Returned (tag_value ut text, tag_value pt text).
Proof.
  intros Hf Hu Hp. rewrite get_secrets_unfold. cbv zeta. rewrite Hf.
  apply String.eqb_neq in Hu, Hp. by rewrite Hu, Hp.
Qed.

Lemma get_secrets_returned sf ut pt lf w text u p w' :
  files (at_check sf ut lf w) !! sf = Some text ->
  get_secrets sf ut pt lf w = (Returned (u, p), w') ->
  u = tag_value ut text /\ p = tag_value pt text
  /\ u <> EmptyString /\ p <> EmptyString.
Proof.
  intros Hf. rewrite get_secrets_unfold. cbv zeta. rewrite Hf.
  destruct (String.eqb (tag_value ut text) EmptyString) eqn:Hu; [done|].
  destruct (String.eqb (tag_value pt text) EmptyString) eqn:Hp; [done|].
  apply String.eqb_neq in Hu, Hp. by intros [= <- <- _].
Qed.

Lemma get_secrets_no_username sf ut pt lf w text :
  files (at_check sf ut lf w) !! sf = Some text ->
  tag_value ut text = EmptyString ->
  fst (get_secrets sf ut pt lf w) = Raised (ValueError (username_not_found ut sf)).
Proof.
  intros Hf Hu. rewrite get_secrets_unfold. cbv zeta. rewrite Hf, Hu. done.
Qed.

Lemma get_secrets_no_password sf ut pt lf w text :
  files (at_check sf ut lf w) !! sf = Some text ->
  tag_value ut text <> EmptyString ->
  tag_value pt text = EmptyString ->
  fst (get_secrets sf ut pt lf w) = Raised (ValueError (password_not_found pt sf)).
Proof.
  intros Hf Hu Hp. rewrite get_secrets_unfold. cbv zeta. rewrite Hf, Hp.
  apply String.eqb_neq in Hu. by rewrite Hu.
Qed.

(** ** Claims about [get_secrets] *)

(** C1, refuted as stated.  In [twice_text] the tag [u] begins two lines, the
    first with value [a] and the second with value [b]; [get_secrets] returns
    [b], so the value it returns is not that of the first matching line. *)
Lemma C1_first_match_counterexample :
  matching_lines "u" twice_text = ["u: a" +:+ nl; "u: b" +:+ nl]
  /\ fst (get_secrets secrets_txt "u" "p" to_stdout
            (sample_world {[secrets_txt := twice_text]}))
     = Returned ("b", "x")
  /\ ~ (forall u p,
          fst (get_secrets secrets_txt "u" "p" to_stdout
                 (sample_world {[secrets_txt := twice_text]}))
          = Returned (u, p) ->
          Some u = line_value <$> head (matching_lines "u" twice_text)).
Proof.
  split; [reflexivity|]. split; [reflexivity|].
  intros H. specialize (H "b" "x" eq_refl). discriminate H.
Qed.

(** C1 (amended): for every secrets file, the value that [get_secrets]
    returns for a tag is the trimmed text after the first colon of the LAST
    line that begins with the tag, also when several lines begin with it:
    whenever [get_secrets] returns, both values are those of the last
    matching lines, and it does return them whenever both are non-empty. *)
Theorem C1_last_matching_line_wins (sf : Path) (ut pt : string) (lf : LogFile)
    (w : World) (text : string) :
  files (at_check sf ut lf w) !! sf = Some text ->
  (forall u p w',
      get_secrets sf ut pt lf w = (Returned (u, p), w') ->
      exists lu lp,
        last (matching_lines ut text) = Some lu /\ u = line_value lu
        /\ last (matching_lines pt text) = Some lp /\ p = line_value lp)
  /\ (forall lu lp,
        last (matching_lines ut text) = Some lu ->
        last (matching_lines pt text) = Some lp ->
        line_value lu <> EmptyString ->
        line_value lp <> EmptyString ->
        fst (get_secrets sf ut pt lf w) = Returned (line_value lu, line_value lp)).
Proof.
  intros Hf. split.
  - intros u p w' Hr.
    destruct (get_secrets_returned _ _ _ _ _ _ _ _ _ Hf Hr) as (-> & -> & Hu & Hp).
    destruct (tag_value_matched _ _ Hu) as (lu & Hlu & Eu).
    destruct (tag_value_matched _ _ Hp) as (lp & Hlp & Ep).
    by exists lu, lp.
  - intros lu lp Hlu Hlp Hu Hp.
    rewrite <- (tag_value_last _ _ _ Hlu), <- (tag_value_last _ _ _ Hlp) in *.
    by apply get_secrets_returns.
Qed.

Lemma C1_last_matching_line_wins_witness :
  fst (get_secrets secrets_txt "u" "p" to_stdout
         (sample_world {[secrets_txt := twice_text]}))
  = Returned (line_value ("u: b" +:+ nl), line_value ("p: x" +:+ nl)).
Proof.
  refine (proj2 (C1_last_matching_line_wins secrets_txt "u" "p" to_stdout
                   (sample_world {[secrets_txt := twice_text]}) twice_text _)
            ("u: b" +:+ nl) ("p: x" +:+ nl) _ _ _ _).
  - vm_compute. reflexivity.
  - vm_compute. reflexivity.
  - vm_compute. reflexivity.
  - vm_compute. discriminate.
  - vm_compute. discriminate.
Defined.

Lemma tag_found_value (tag text v : string) :
  tag_found tag text v <-> tag_value tag text = v /\ v <> EmptyString.
Proof.
  unfold tag_found, tag_value. split.
  - intros (l & -> & <- & Hv). done.
  - destruct (last (matching_lines tag text)) as [l|]; cbn.
    + intros [<- Hv]. by exists l.
    + intros [<- Hv]. done.
Qed.

Lemma tag_missing_value (tag text : string) :
  tag_missing tag text <-> tag_value tag text = EmptyString.
Proof.
  unfold tag_missing, tag_value. split.
  - intros [->|(l & -> & Hl)]; done.
  - destruct (last (matching_lines tag text)) as [l|] eqn:E; cbn.
    + intros Hl. right. by exists l.
    + intros _. left. by apply last_None.
Qed.

Lemma not_found_messages_differ ut pt sf :
  username_not_found ut sf <> password_not_found pt sf.
Proof. unfold username_not_found, password_not_found. cbn. discriminate. Qed.

(** C2, refuted as stated.  In [blank_text] a line begins with the tag [u],
    yet [get_secrets] fails with the missing-tag error for [u]: the error is
    raised although the tag was matched. *)
Lemma C2_matched_tag_counterexample :
  matching_lines "u" blank_text = ["u:" +:+ nl]
  /\ fst (get_secrets secrets_txt "u" "p" to_stdout
            (sample_world {[secrets_txt := blank_text]}))
     = Raised (ValueError (username_not_found "u" secrets_txt))
  /\ ~ (fst (get_secrets secrets_txt "u" "p" to_stdout
               (sample_world {[secrets_txt := blank_text]}))
        = Raised (ValueError (username_not_found "u" secrets_txt))
        <-> matching_lines "u" blank_text = []).
Proof.
  split; [reflexivity|]. split; [reflexivity|].
  intros [H _]. specialize (H eq_refl). discriminate H.
Qed.

(** C2 (amended): for every secrets file and every pair of tags,
    [get_secrets] returns [(u, p)] exactly when the last line beginning with
    the username tag has the non-empty trimmed value [u] after its first
    colon and the last line beginning with the password tag has the
    non-empty value [p]; it fails with the missing-tag error of the username
    exactly when no line begins with the username tag or the last such line
    has an empty value, and with that of the password exactly when the
    username is bound and the password tag is in that situation. *)
Theorem C2_values_and_missing_tags (sf : Path) (ut pt : string) (lf : LogFile)
    (w : World) (text : string) :
  files (at_check sf ut lf w) !! sf = Some text ->
  (forall u p,
      fst (get_secrets sf ut pt lf w) = Returned (u, p)
      <-> tag_found ut text u /\ tag_found pt text p)
  /\ (fst (get_secrets sf ut pt lf w)
      = Raised (ValueError (username_not_found ut sf))
      <-> tag_missing ut text)
  /\ (fst (get_secrets sf ut pt lf w)
      = Raised (ValueError (password_not_found pt sf))
      <-> ~ tag_missing ut text /\ tag_missing pt text).
Proof.
  intros Hf. rewrite !tag_missing_value.
  rewrite get_secrets_unfold. cbv zeta. rewrite Hf.
  assert (Hd := not_found_messages_differ ut pt sf).
  destruct (String.eqb (tag_value ut text) EmptyString) eqn:Hu.
  { apply String.eqb_eq in Hu. cbn [fst]. repeat split; try done.
    - intros [Hfu _]. apply tag_found_value in Hfu. destruct Hfu; congruence.
    - intros [? _]. done. }
  apply String.eqb_neq in Hu.
  destruct (String.eqb (tag_value pt text) EmptyString) eqn:Hp.
  { apply String.eqb_eq in Hp. cbn [fst]. repeat split; try done.
    intros [_ Hfp]. apply tag_found_value in Hfp. destruct Hfp; congruence. }
  apply String.eqb_neq in Hp. cbn [fst]. repeat split; try done.
  - match goal with H : Returned _ = Returned _ |- _ => injection H as <- <- end.
    by apply tag_found_value.
  - match goal with H : Returned _ = Returned _ |- _ => injection H as <- <- end.
    by apply tag_found_value.
  - intros [Hfu Hfp]. apply tag_found_value in Hfu, Hfp.
    destruct Hfu as [<- _], Hfp as [<- _]. done.
  - intros [_ ?]. done.
Qed.

Lemma C2_values_and_missing_tags_witness :
  fst (get_secrets secrets_txt "u" "p" to_stdout
         (sample_world {[secrets_txt := twice_text]}))
  = Returned ("b", "x").
Proof.
  refine (proj2 (proj1 (C2_values_and_missing_tags secrets_txt "u" "p" to_stdout
                   (sample_world {[secrets_txt := twice_text]}) twice_text _)
                   "b" "x") _).
  - vm_compute. reflexivity.
  - split.
    + exists ("u: b" +:+ nl). repeat split; vm_compute; congruence.
    + exists ("p: x" +:+ nl). repeat split; vm_compute; congruence.
Defined.

(** C10, refuted as stated.  The first line of [bare_text] begins with the
    tag [u] and has no colon, yet [get_secrets] returns: the later line for
    [u] decides, and no missing-tag error is reported. *)
Lemma C10_bare_line_counterexample :
  matching_lines "u" bare_text = ["u" +:+ nl; "u: a" +:+ nl]
  /\ no_colon ("u" +:+ nl)
  /\ fst (get_secrets secrets_txt "u" "p" to_stdout
            (sample_world {[secrets_txt := bare_text]}))
     = Returned ("a", "x")
  /\ ~ (forall l,
          l ∈ matching_lines "u" bare_text -> no_colon l ->
          fst (get_secrets secrets_txt "u" "p" to_stdout
                 (sample_world {[secrets_txt := bare_text]}))
          = Raised (ValueError (username_not_found "u" secrets_txt))).
Proof.
  split; [reflexivity|]. split; [reflexivity|]. split; [reflexivity|].
  intros H. specialize (H ("u" +:+ nl)).
  assert (E : fst (get_secrets secrets_txt "u" "p" to_stdout
                     (sample_world {[secrets_txt := bare_text]}))
              = Returned ("a", "x")) by reflexivity.
  rewrite E in H. discriminate H.
  - change (matching_lines "u" bare_text) with ["u" +:+ nl; "u: a" +:+ nl].
    apply list_elem_of_here.
  - reflexivity.
Qed.

(** C10 (amended): whenever [get_secrets] returns, both returned strings
    are non-empty; a tag whose LAST matching line contains no colon, or has
    only whitespace after its first colon, is reported with the same
    missing-tag error as a tag that no line matches (the username tag first,
    the password tag once the username is bound). *)
Theorem C10_success_means_non_empty (sf : Path) (ut pt : string) (lf : LogFile)
    (w : World) (text : string) :
  files (at_check sf ut lf w) !! sf = Some text ->
  (forall u p w',
      get_secrets sf ut pt lf w = (Returned (u, p), w') ->
      u <> EmptyString /\ p <> EmptyString)
  /\ (matching_lines ut text = [] ->
      fst (get_secrets sf ut pt lf w)
      = Raised (ValueError (username_not_found ut sf)))
  /\ (forall l,
        last (matching_lines ut text) = Some l ->
        no_colon l \/ line_value l = EmptyString ->
        fst (get_secrets sf ut pt lf w)
        = Raised (ValueError (username_not_found ut sf)))
  /\ (forall u,
        tag_found ut text u ->
        matching_lines pt text = [] ->
        fst (get_secrets sf ut pt lf w)
        = Raised (ValueError (password_not_found pt sf)))
  /\ (forall u l,
        tag_found ut text u ->
        last (matching_lines pt text) = Some l ->
        no_colon l \/ line_value l = EmptyString ->
        fst (get_secrets sf ut pt lf w)
        = Raised (ValueError (password_not_found pt sf))).
Proof.
  intros Hf.
  assert (Hempty : forall l, no_colon l \/ line_value l = EmptyString ->
                             line_value l = EmptyString).
  { intros l [H|H]; [by apply no_colon_value|done]. }
  repeat split.
  - by destruct (get_secrets_returned _ _ _ _ _ _ _ _ _ Hf H) as (_ & _ & ? & _).
  - by destruct (get_secrets_returned _ _ _ _ _ _ _ _ _ Hf H) as (_ & _ & _ & ?).
  - intros Hm. eapply get_secrets_no_username; [done|].
    by apply tag_value_unmatched.
  - intros l Hl Hv. eapply get_secrets_no_username; [done|].
    rewrite (tag_value_last _ _ _ Hl). by apply Hempty.
  - intros u Hu Hm. apply tag_found_value in Hu as [<- Hu].
    eapply get_secrets_no_password; [done|done|].
    by apply tag_value_unmatched.
  - intros u l Hu Hl Hv. apply tag_found_value in Hu as [<- Hu].
    eapply get_secrets_no_password; [done|done|].
    rewrite (tag_value_last _ _ _ Hl). by apply Hempty.
Qed.

Lemma C10_success_means_non_empty_witness :
  fst (get_secrets secrets_txt "u" "p" to_stdout
         (sample_world {[secrets_txt := blank_text]}))
  = Raised (ValueError (username_not_found "u" secrets_txt)).
Proof.
  refine (proj1 (proj2 (proj2 (C10_success_means_non_empty secrets_txt "u" "p"
            to_stdout (sample_world {[secrets_txt := blank_text]}) blank_text _)))
            ("u:" +:+ nl) _ _).
  - vm_compute. reflexivity.
  - vm_compute. reflexivity.
  - right. vm_compute. reflexivity.
Defined.

(** ** [send_email] when the credentials cannot be resolved *)

Lemma send_email_secrets_raise r s b sf ut pt lf h a w e w' :
  get_secrets sf ut pt lf w = (Raised e, w') ->
  send_email r s b sf ut pt lf h a w = (Raised e, w').
Proof. intros H. unfold send_email. cbv zeta. unfold bind at 1. by rewrite H. Qed.

(** C4, refuted as stated.  No file is named [secrets.txt], and the call
    logs to that very path: the log line of line 53 creates the file, the
    check of line 55 passes, and [get_secrets] fails with the missing-tag
    error instead of the file-not-found error.  With tags that begin the log
    line itself the call even returns, and [send_email] opens an SMTP
    connection. *)
Lemma C4_log_file_counterexample :
  files (sample_world ∅) !! secrets_txt = None
  /\ fst (get_secrets secrets_txt "gmail_username" "gmail_password"
            (LogPath secrets_txt) (sample_world ∅))
     = Raised (ValueError (username_not_found "gmail_username" secrets_txt))
  /\ fst (get_secrets secrets_txt "gmail_username" "gmail_password"
            (LogPath secrets_txt) (sample_world ∅))
     <> Raised (Exception (does_not_exist secrets_txt))
  /\ head (network (snd (send_email ["DEBUG"] "s" "b" secrets_txt "2024" "2024"
                           (LogPath secrets_txt) false None (sample_world ∅))))
     = Some (Connect "smtp.gmail.com" 587).
Proof.
  split; [reflexivity|]. split; [reflexivity|]. split; [|reflexivity].
  vm_compute. discriminate.
Qed.

(** C4 (amended): for every path that names no existing file when
    [get_secrets] checks it (line 55, after the log line of line 53, which
    creates the file when the log file is that very path), [get_secrets]
    fails with the file-not-found error, and so does [send_email]; neither
    run adds any SMTP traffic. *)
Theorem C4_missing_secrets_file (sf : Path) (ut pt : string) (lf : LogFile)
    (w : World) :
  files (at_check sf ut lf w) !! sf = None ->
  (exists w',
      get_secrets sf ut pt lf w = (Raised (Exception (does_not_exist sf)), w')
      /\ network w' = network w)
  /\ (forall recipients subject body html attachments,
        exists w',
          send_email recipients subject body sf ut pt lf html attachments w
          = (Raised (Exception (does_not_exist sf)), w')
          /\ network w' = network w).
Proof.
  intros Hf.
  assert (H : exists w',
             get_secrets sf ut pt lf w
             = (Raised (Exception (does_not_exist sf)), w')
             /\ network w' = network w).
  { rewrite get_secrets_unfold. cbv zeta. rewrite Hf. eexists. split; [done|].
    unfold error. by rewrite log_call_network, at_check_network. }
  split; [done|]. intros r s b h a. destruct H as (w' & Hg & Hn).
  exists w'. split; [|done]. by apply send_email_secrets_raise.
Qed.

Lemma C4_missing_secrets_file_witness :
  exists w',
    get_secrets secrets_txt "gmail_username" "gmail_password" to_stdout
      (sample_world ∅)
    = (Raised (Exception (does_not_exist secrets_txt)), w')
    /\ network w' = network (sample_world ∅).
Proof.
  refine (proj1 (C4_missing_secrets_file secrets_txt "gmail_username"
                   "gmail_password" to_stdout (sample_world ∅) _)).
  vm_compute. reflexivity.
Defined.

(** ** The SMTP session *)

Lemma submit_session (u p : string) (rc : list string) (text : string) (w : World) :
  host (snd (submit u p rc text w)) = host w
  /\ files (snd (submit u p rc text w)) = files w
  /\ console (snd (submit u p rc text w)) = console w
  /\ ticks (snd (submit u p rc text w)) = ticks w
  /\ exists evs,
       network (snd (submit u p rc text w))
       = network w ++ Connect "smtp.gmail.com" 587 :: evs
       /\ session_of u p rc text evs
       /\ (accepts (server (host w)) u p -> Sendmail u rc text ∈ evs).
Proof.
  unfold submit, with_SMTP, try_finally, bind, smtp_call, accepts, session_of.
  cbn [host with_network network fst snd].
  destruct (on_connect (server (host w)) "smtp.gmail.com" 587) as [d|];
    cbn [host files console ticks with_network network fst snd].
  { repeat split. exists []. split; [done|].
    split; [|intros [H _]; discriminate H].
    intros ev Hev. by apply elem_of_nil in Hev. }
  destruct (on_starttls (server (host w))) as [d|];
    cbn [host files console ticks with_network network fst snd].
  { destruct (on_quit (server (host w))) as [dq|];
      cbn [host files console ticks with_network network fst snd];
      repeat split; exists [StartTLS; Quit];
      (split; [by rewrite <- !app_assoc|]);
      (split; [|intros (_ & H & _); discriminate H]);
      intros ev Hev; by_cases_on_member Hev. }
  destruct (on_login (server (host w)) u p) as [d|];
    cbn [host files console ticks with_network network fst snd].
  { destruct (on_quit (server (host w))) as [dq|];
      cbn [host files console ticks with_network network fst snd];
      repeat split; exists [StartTLS; Login u p; Quit];
      (split; [by rewrite <- !app_assoc|]);
      (split; [|intros (_ & _ & H); discriminate H]);
      intros ev Hev; by_cases_on_member Hev. }
  destruct (on_sendmail (server (host w)) u rc text) as [ds|];
    cbn [host files console ticks with_network network fst snd];
    destruct (on_quit (server (host w))) as [dq|];
    cbn [host files console ticks with_network network fst snd];
    repeat split; exists [StartTLS; Login u p; Sendmail u rc text; Quit];
    (split; [by rewrite <- !app_assoc|]);
    (split; [intros ev Hev; by_cases_on_member Hev|intros _; is_member]).
Qed.

(** ** Composition of the message *)

Lemma attach_file_unfold lg a m w :
  attach_file lg a m w =
  let w1 := snd (debug lg "send_email" 144
                   ("Attaching '" +:+ Path_str a +:+ "' to email....") w) in
  match files w1 !! a with
  | Some data => (Returned (attach (attachment_part a data) m), w1)
  | None => (Raised (FileNotFoundError (Path_str a)), w1)
  end.
Proof.
  unfold attach_file, debug. cbv zeta. unfold bind at 1.
  rewrite log_call_returns. unfold bind, read_file.
  by destruct (files _ !! a).
Qed.

Lemma attach_files_spec lf atts m w m' w' :
  attach_files (CustomLogger_init lf) atts m w = (Returned m', w') ->
  headers m' = headers m /\ host w' = host w /\ network w' = network w
  /\ exists parts,
       attached m' = attached m ++ parts /\ Forall2 (part_of lf w) atts parts.
Proof.
  revert m w. induction atts as [|a atts IH]; intros m w.
  - intros [= <- <-]. repeat split. exists []. split; [by rewrite app_nil_r|constructor].
  - cbn [attach_files]. unfold bind at 1. rewrite attach_file_unfold. cbv zeta.
    set (w1 := snd (debug _ _ _ _ w)).
    destruct (files w1 !! a) as [data|] eqn:Ha; [|done].
    intros H. apply IH in H as (Hh & Hho & Hn & parts & Hp & Hall).
    assert (Hfiles : forall p, logs_elsewhere lf p -> files w1 !! p = files w !! p).
    { intros p Hp'. subst w1. unfold debug. by apply log_call_files_elsewhere. }
    repeat split.
    + done.
    + rewrite Hho. subst w1. unfold debug. apply log_call_host.
    + rewrite Hn. subst w1. unfold debug. apply log_call_network.
    + exists (attachment_part a data :: parts). split.
      * rewrite Hp. cbn. by rewrite <- app_assoc.
      * constructor.
        -- exists data. split; [done|]. intros He. by rewrite <- Hfiles.
        -- eapply Forall2_impl; [exact Hall|].
           intros a' part (data' & -> & Hd). exists data'. split; [done|].
           intros He. rewrite <- Hfiles by done. by apply Hd.
Qed.

Lemma compose_message_spec lf u rc s b h atts w m w' :
  compose_message (CustomLogger_init lf) u rc s b h atts w = (Returned m, w') ->
  headers m = [("MIME-Version", "1.0"); ("From", u);
               ("To", str_join ", " rc); ("Subject", s)]
  /\ host w' = host w /\ network w' = network w
  /\ exists parts,
       attached m = MIMEText b (if h then "html" else "plain") :: parts
       /\ match atts with
          | None => parts = []
          | Some l => Forall2 (part_of lf w) l parts
          end.
Proof.
  unfold compose_message, info. cbv zeta. unfold bind at 1.
  rewrite log_call_returns. set (w1 := snd (log_call _ _ _ _ _ w)).
  assert (Hho : host w1 = host w) by apply log_call_host.
  assert (Hn : network w1 = network w) by apply log_call_network.
  destruct atts as [l|].
  - intros H. apply attach_files_spec in H as (Hh & Hho' & Hn' & parts & Hp & Hall).
    repeat split; [by destruct h|congruence|congruence|].
    exists parts. split; [rewrite Hp; by destruct h|].
    eapply Forall2_impl; [exact Hall|].
    intros a part (data & -> & Hd). exists data. split; [done|].
    intros He. rewrite <- (Hd He). symmetry. subst w1.
    by apply log_call_files_elsewhere.
  - intros [= <- <-]. repeat split; [by destruct h|done|done|].
    exists []. split; [|done]. by destruct h.
Qed.

(** ** [send_email] once the credentials are resolved *)

Lemma get_secrets_frame sf ut pt lf w :
  host (snd (get_secrets sf ut pt lf w)) = host w
  /\ network (snd (get_secrets sf ut pt lf w)) = network w.
Proof.
  rewrite get_secrets_unfold. cbv zeta.
  destruct (files (at_check sf ut lf w) !! sf) as [text|].
  - destruct (String.eqb (tag_value ut text) EmptyString);
      [|destruct (String.eqb (tag_value pt text) EmptyString)];
      cbn [snd]; unfold info;
      rewrite ?log_call_host, ?log_call_network, at_check_host, at_check_network;
      done.
  - cbn [snd]. unfold error.
    by rewrite log_call_host, log_call_network, at_check_host, at_check_network.
Qed.

Lemma send_email_unfold r s b sf ut pt lf h a w u p w1 :
  get_secrets sf ut pt lf w = (Returned (u, p), w1) ->
  send_email r s b sf ut pt lf h a w =
  match compose_message (CustomLogger_init lf) u (effective_recipients r u)
          s b h a w1 with
  | (Returned m, w2) =>
      match as_string_raises (host w2) m with
      | Some d => (Raised (MessageError d), w2)
      | None =>
          match submit u p (effective_recipients r u) (as_string (host w2) m)
                  w2 with
          | (Returned _, w3) =>
              info (CustomLogger_init lf) "send_email" 162
                "Email sent successfully!" w3
          | (Raised e, w3) => (Raised e, w3)
          end
      end
  | (Raised e, w2) => (Raised e, w2)
  end.
Proof.
  intros Hg. unfold send_email. cbv zeta. unfold bind at 1. rewrite Hg.
  unfold bind at 1.
  destruct (compose_message _ _ _ _ _ _ _ w1) as [[m|e] w2]; [|done].
  unfold bind at 1, serialise at 1.
  destruct (as_string_raises (host w2) m) as [d|]; [done|]. unfold bind.
  by destruct (submit _ _ _ _ w2) as [[[]|e] w3].
Qed.

(** The traffic of a [send_email] that got as far as composing [m]: one
    session, opened by a [Connect], whose [Sendmail], if any, carries the
    sender, the effective recipients and the serialised [m]. *)
Lemma send_email_traffic r s b sf ut pt lf h a w u p w1 m w2 :
  get_secrets sf ut pt lf w = (Returned (u, p), w1) ->
  compose_message (CustomLogger_init lf) u (effective_recipients r u) s b h a w1
  = (Returned m, w2) ->
  as_string_raises (host w) m = None ->
  exists evs,
    network (snd (send_email r s b sf ut pt lf h a w))
    = network w ++ Connect "smtp.gmail.com" 587 :: evs
    /\ session_of u p (effective_recipients r u) (as_string (host w) m) evs
    /\ (accepts (server (host w)) u p ->
        Sendmail u (effective_recipients r u) (as_string (host w) m) ∈ evs).
Proof.
  intros Hg Hc Hser.
  rewrite (send_email_unfold _ _ _ _ _ _ _ _ _ _ _ _ _ Hg), Hc.
  destruct (get_secrets_frame sf ut pt lf w) as [Hh1 Hn1]. rewrite Hg in Hh1, Hn1.
  cbn [snd] in Hh1, Hn1.
  apply compose_message_spec in Hc as (_ & Hh2 & Hn2 & _).
  rewrite Hh2, Hh1, Hser. rewrite <- Hh1, <- Hh2.
  destruct (submit_session u p (effective_recipients r u)
              (as_string (host w2) m) w2) as (Hh3 & _ & _ & _ & evs & Hn3 & Hs & Ha).
  exists evs. rewrite Hh2, Hh1 in Hs, Ha. rewrite Hn2, Hn1 in Hn3.
  rewrite Hh2, Hh1 in Hn3. rewrite Hh2, Hh1.
  split; [|split; [done|done]].
  clear Hh3.
  destruct (submit u p (effective_recipients r u) (as_string (host w) m) w2)
    as [[[]|e] w3]; cbn [snd] in *.
  - unfold info. by rewrite log_call_network.
  - done.
Qed.

Lemma get_secrets_files_elsewhere sf ut pt lf w p :
  logs_elsewhere lf p ->
  files (snd (get_secrets sf ut pt lf w)) !! p = files w !! p.
Proof.
  intros He. rewrite get_secrets_unfold. cbv zeta.
  assert (H1 : files (at_check sf ut lf w) !! p = files w !! p).
  { unfold at_check, info. by apply log_call_files_elsewhere. }
  destruct (files (at_check sf ut lf w) !! sf) as [text|].
  - destruct (String.eqb (tag_value ut text) EmptyString);
      [|destruct (String.eqb (tag_value pt text) EmptyString)];
      cbn [snd]; unfold info; by rewrite ?log_call_files_elsewhere.
  - cbn [snd]. unfold error. by rewrite log_call_files_elsewhere.
Qed.

(** The run of [send_email] from the composed message on: lines 154 to 162. *)
Lemma send_email_composed r s b sf ut pt lf h a w u p w1 m w2 :
  get_secrets sf ut pt lf w = (Returned (u, p), w1) ->
  compose_message (CustomLogger_init lf) u (effective_recipients r u) s b h a w1
  = (Returned m, w2) ->
  send_email r s b sf ut pt lf h a w
  = bind (serialise m)
      (fun text =>
         bind (submit u p (effective_recipients r u) text)
           (fun _ => info (CustomLogger_init lf) "send_email" 162
                       "Email sent successfully!")) w2.
Proof.
  intros Hg Hc. unfold send_email. cbv zeta. unfold bind at 1. rewrite Hg.
  unfold bind at 1. by rewrite Hc.
Qed.

Lemma composed_host sf ut pt lf w u p w1 lg' ue rc s b h a m w2 :
  get_secrets sf ut pt lf w = (Returned (u, p), w1) ->
  compose_message (CustomLogger_init lg') ue rc s b h a w1 = (Returned m, w2) ->
  host w2 = host w.
Proof.
  intros Hg Hc. destruct (get_secrets_frame sf ut pt lf w) as [Hh1 _].
  rewrite Hg in Hh1. cbn [snd] in Hh1.
  apply compose_message_spec in Hc as (_ & Hh2 & _). congruence.
Qed.

(** The same when the serialiser accepts the message, and when it refuses
    it. *)
Lemma send_email_serialised r s b sf ut pt lf h a w u p w1 m w2 :
  get_secrets sf ut pt lf w = (Returned (u, p), w1) ->
  compose_message (CustomLogger_init lf) u (effective_recipients r u) s b h a w1
  = (Returned m, w2) ->
  as_string_raises (host w) m = None ->
  send_email r s b sf ut pt lf h a w
  = bind (submit u p (effective_recipients r u) (as_string (host w) m))
      (fun _ => info (CustomLogger_init lf) "send_email" 162
                  "Email sent successfully!") w2.
Proof.
  intros Hg Hc Hser.
  rewrite (send_email_composed _ _ _ _ _ _ _ _ _ _ _ _ _ _ _ Hg Hc).
  unfold bind at 1, serialise.
  by rewrite (composed_host _ _ _ _ _ _ _ _ _ _ _ _ _ _ _ _ _ Hg Hc), Hser.
Qed.

Lemma send_email_refused r s b sf ut pt lf h a w u p w1 m w2 d :
  get_secrets sf ut pt lf w = (Returned (u, p), w1) ->
  compose_message (CustomLogger_init lf) u (effective_recipients r u) s b h a w1
  = (Returned m, w2) ->
  as_string_raises (host w) m = Some d ->
  send_email r s b sf ut pt lf h a w = (Raised (MessageError d), w2).
Proof.
  intros Hg Hc Hser.
  rewrite (send_email_composed _ _ _ _ _ _ _ _ _ _ _ _ _ _ _ Hg Hc).
  unfold bind at 1, serialise.
  by rewrite (composed_host _ _ _ _ _ _ _ _ _ _ _ _ _ _ _ _ _ Hg Hc), Hser.
Qed.

(** ** Claims about [send_email] *)

(** C5: once the credentials are resolved to the sender [u], a recipients
    argument equal to [["DEBUG"]] makes [[u]] the effective recipient list,
    and any other list is used unchanged: the message is composed with the
    [To] header of that list, the run is exactly the serialisation of that
    message and its submission to that list, and the [Sendmail] of the
    session is addressed to it.  The session takes place when the
    serialiser accepts the message; when it refuses it, the run ends there
    with its error. *)
Theorem C5_debug_means_sender (r : list string) (s b : string) (sf : Path)
    (ut pt : string) (lf : LogFile) (h : bool) (a : option (list Path))
    (w : World) (u p : string) (w1 : World) :
  get_secrets sf ut pt lf w = (Returned (u, p), w1) ->
  exists eff,
    (r = ["DEBUG"] -> eff = [u])
    /\ (r <> ["DEBUG"] -> eff = r)
    /\ forall m w2,
         compose_message (CustomLogger_init lf) u eff s b h a w1
         = (Returned m, w2) ->
         headers m = [("MIME-Version", "1.0"); ("From", u);
                      ("To", str_join ", " eff); ("Subject", s)]
         /\ send_email r s b sf ut pt lf h a w
            = bind (serialise m)
                (fun text =>
                   bind (submit u p eff text)
                     (fun _ => info (CustomLogger_init lf) "send_email" 162
                                 "Email sent successfully!")) w2
         /\ match as_string_raises (host w) m with
            | Some d =>
                send_email r s b sf ut pt lf h a w
                = (Raised (MessageError d), w2)
            | None =>
                exists evs,
                  network (snd (send_email r s b sf ut pt lf h a w))
                  = network w ++ Connect "smtp.gmail.com" 587 :: evs
                  /\ session_of u p eff (as_string (host w) m) evs
                  /\ (accepts (server (host w)) u p ->
                      Sendmail u eff (as_string (host w) m) ∈ evs)
            end.
Proof.
  intros Hg. exists (effective_recipients r u).
  split; [|split].
  - intros ->. reflexivity.
  - intros Hr. unfold effective_recipients. by rewrite decide_False.
  - intros m w2 Hc. split; [|split].
    + by apply compose_message_spec in Hc as (? & _).
    + by eapply send_email_composed.
    + destruct (as_string_raises (host w) m) as [d|] eqn:Hser.
      * by eapply send_email_refused.
      * by eapply send_email_traffic.
Qed.

Lemma C5_debug_means_sender_witness :
  exists eff,
    eff = ["alice@example.com"]
    /\ forall m w2,
         compose_message (CustomLogger_init to_stdout) "alice@example.com" eff
           "Hi" "Body" false None alice_resolved = (Returned m, w2) ->
         headers m = [("MIME-Version", "1.0"); ("From", "alice@example.com");
                      ("To", str_join ", " eff); ("Subject", "Hi")].
Proof.
  destruct (C5_debug_means_sender ["DEBUG"] "Hi" "Body" secrets_txt
              "gmail_username" "gmail_password" to_stdout false None
              alice_world "alice@example.com" "s3cr3t" alice_resolved)
    as (eff & Hd & _ & Hm).
  - vm_compute. reflexivity.
  - exists eff. split; [exact (Hd eq_refl)|].
    intros m w2 Hc. exact (proj1 (Hm m w2 Hc)).
Defined.

(** C9: the message that [send_email] composes has, as its first part, the
    body as a [text/html] part when the html flag is true and as a
    [text/plain] part when it is false; it is the only text part, every
    further part being an [application/octet-stream] attachment; and the
    run is the serialisation and the submission of that message. *)
Theorem C9_body_part_format (r : list string) (s b : string) (sf : Path)
    (ut pt : string) (lf : LogFile) (h : bool) (a : option (list Path))
    (w : World) (u p : string) (w1 : World) (m : MIMEMultipart) (w2 : World) :
  get_secrets sf ut pt lf w = (Returned (u, p), w1) ->
  compose_message (CustomLogger_init lf) u (effective_recipients r u) s b h a w1
  = (Returned m, w2) ->
  (exists body_part parts,
      attached m = body_part :: parts
      /\ body_part = MIMEText b (if h then "html" else "plain")
      /\ maintype body_part = "text"
      /\ subtype body_part = (if h then "html" else "plain")
      /\ Forall (fun part => maintype part = "application"
                             /\ subtype part = "octet-stream") parts)
  /\ send_email r s b sf ut pt lf h a w
     = bind (serialise m)
         (fun text =>
            bind (submit u p (effective_recipients r u) text)
              (fun _ => info (CustomLogger_init lf) "send_email" 162
                          "Email sent successfully!")) w2.
Proof.
  intros Hg Hc. split; [|by eapply send_email_composed].
  apply compose_message_spec in Hc as (_ & _ & _ & parts & Hp & Hall).
  exists (MIMEText b (if h then "html" else "plain")), parts.
  split; [done|]. split; [done|].
  split; [unfold MIMEText; by destruct (is_ascii b)|].
  split; [unfold MIMEText; by destruct (is_ascii b)|].
  destruct a as [l|]; [|subst parts; constructor].
  clear Hp. induction Hall as [|x part l parts (data & -> & _) _ IH];
    constructor; [by split|done].
Qed.

Lemma C9_body_part_format_witness :
  exists body_part parts,
    attached (mkMultipart
                [("MIME-Version", "1.0"); ("From", "alice@example.com");
                 ("To", "alice@example.com"); ("Subject", "Hi")]
                [MIMEText "<b>Body</b>" "html"])
    = body_part :: parts
    /\ subtype body_part = "html".
Proof.
  destruct (C9_body_part_format ["DEBUG"] "Hi" "<b>Body</b>" secrets_txt
              "gmail_username" "gmail_password" to_stdout true None
              alice_world "alice@example.com" "s3cr3t" alice_resolved
              (mkMultipart
                 [("MIME-Version", "1.0"); ("From", "alice@example.com");
                  ("To", "alice@example.com"); ("Subject", "Hi")]
                 [MIMEText "<b>Body</b>" "html"])
              (snd (compose_message (CustomLogger_init to_stdout)
                      "alice@example.com" ["alice@example.com"] "Hi"
                      "<b>Body</b>" true None alice_resolved)))
    as [(body_part & parts & Ha & _ & _ & Hs & _) _].
  - vm_compute. reflexivity.
  - vm_compute. reflexivity.
  - exists body_part, parts. split; [exact Ha|exact Hs].
Defined.

(** The name in a path written in the usual way. *)
Lemma split_nonempty (sep : ascii) (s : string) : str_split sep s <> [].
Proof.
  destruct s as [|c s]; cbn [str_split]; [done|].
  destruct (Ascii.eqb c sep); [done|]. by destruct (str_split sep s).
Qed.

Lemma split_app_sep (sep : ascii) (s t : string) :
  str_split sep (s +:+ String sep t) = str_split sep s ++ str_split sep t.
Proof.
  induction s as [|c s IH].
  - change (EmptyString +:+ String sep t) with (String sep t).
    cbn [str_split]. by rewrite Ascii.eqb_refl.
  - change (String c s +:+ String sep t) with (String c (s +:+ String sep t)).
    cbn [str_split]. rewrite IH.
    destruct (Ascii.eqb c sep); [done|].
    pose proof (split_nonempty sep s) as Hne.
    by destruct (str_split sep s).
Qed.

Lemma split_whole (sep : ascii) (s : string) :
  Forall (fun d => d <> sep) (list_ascii_of_string s) -> str_split sep s = [s].
Proof.
  induction s as [|c s IH]; intros H; [done|].
  cbn [list_ascii_of_string] in H. apply Forall_cons in H as [Hc Hs].
  cbn [str_split]. apply Ascii.eqb_neq in Hc. by rewrite Hc, (IH Hs).
Qed.

Lemma Path_name_of_str (dir name : string) :
  file_name name ->
  Path_name (Path_of_str (dir +:+ "/" +:+ name)) = name
  /\ Path_name (Path_of_str name) = name.
Proof.
  intros (Hne & Hdot & Hw). unfold Path_name, Path_of_str. cbn [parts].
  split.
  - change (dir +:+ "/" +:+ name) with (dir +:+ String "/"%char name).
    rewrite split_app_sep, (split_whole _ _ Hw), filter_app.
    rewrite filter_cons_True by done. by rewrite filter_nil, last_snoc.
  - rewrite (split_whole _ _ Hw), filter_cons_True by done. by rewrite filter_nil.
Qed.

(** C8: the message that [send_email] composes for a list of attachment
    paths holds the body part followed by exactly one part per path, in the
    order of the paths; the part of a path is an [application/octet-stream]
    part whose [Content-Disposition] carries the name of the file and whose
    payload is the base64 encoding of the bytes of the file.  The name is
    the original one: for a path written [dir/name], or [name] alone, the
    header reads [attachment; filename=name].  Each iteration of the loop
    encodes exactly the bytes that the file holds when it is read; these
    are the bytes it held at the call unless the run logs to that very
    file. *)
Theorem C8_one_part_per_attachment (r : list string) (s b : string) (sf : Path)
    (ut pt : string) (lf : LogFile) (h : bool) (atts : list Path)
    (w : World) (u p : string) (w1 : World) (m : MIMEMultipart) (w2 : World) :
  get_secrets sf ut pt lf w = (Returned (u, p), w1) ->
  compose_message (CustomLogger_init lf) u (effective_recipients r u) s b h
    (Some atts) w1 = (Returned m, w2) ->
  (exists parts,
      attached m = MIMEText b (if h then "html" else "plain") :: parts
      /\ length parts = length atts
      /\ Forall2 (carries lf w) atts parts
      /\ forall i dir name part,
           file_name name ->
           atts !! i = Some (Path_of_str (dir +:+ "/" +:+ name))
           \/ atts !! i = Some (Path_of_str name) ->
           parts !! i = Some part ->
           part_headers part
           = [("MIME-Version", "1.0"); ("Content-Transfer-Encoding", "base64");
              ("Content-Disposition", "attachment; filename=" +:+ name)])
  /\ (forall a m0 w0 m' w',
        attach_file (CustomLogger_init lf) a m0 w0 = (Returned m', w') ->
        exists data,
          files w' !! a = Some data
          /\ attached m' = attached m0 ++ [attachment_part a data]
          /\ payload (attachment_part a data) = encodebytes data)
  /\ send_email r s b sf ut pt lf h (Some atts) w
     = bind (serialise m)
         (fun text =>
            bind (submit u p (effective_recipients r u) text)
              (fun _ => info (CustomLogger_init lf) "send_email" 162
                          "Email sent successfully!")) w2.
Proof.
  intros Hg Hc. split; [|split; [|by eapply send_email_composed]].
  - apply compose_message_spec in Hc as (_ & _ & _ & parts & Hp & Hall).
    assert (Hcar : Forall2 (carries lf w) atts parts).
    { eapply Forall2_impl; [exact Hall|].
      intros a part (data & -> & Hd). repeat split.
      exists data. split; [reflexivity|].
      split; [apply decodebytes_encodebytes|]. intros He.
      rewrite <- (Hd He).
      replace w1 with (snd (get_secrets sf ut pt lf w)) by (by rewrite Hg).
      symmetry. by apply get_secrets_files_elsewhere. }
    exists parts. split; [done|]. split; [symmetry; by eapply Forall2_length|].
    split; [done|].
    intros i dir name part Hname Hi Hpart.
    destruct (Path_name_of_str dir name Hname) as [Hn1 Hn2].
    destruct Hi as [Hi|Hi];
      destruct (Forall2_lookup_lr _ _ _ _ _ _ Hcar Hi Hpart)
        as (_ & _ & Hh & _); rewrite Hh; congruence.
  - intros a m0 w0 m' w'. rewrite attach_file_unfold. cbv zeta.
    destruct (files _ !! a) as [data|] eqn:Ha; [|done].
    intros [= <- <-]. exists data. done.
Qed.

Lemma C8_one_part_per_attachment_witness :
  exists parts,
    attached report_message = MIMEText "Body" "plain" :: parts
    /\ length parts = length [report_txt]
    /\ Forall2 (carries to_stdout report_world) [report_txt] parts
    /\ forall part,
         parts !! 0 = Some part ->
         part_headers part
         = [("MIME-Version", "1.0"); ("Content-Transfer-Encoding", "base64");
            ("Content-Disposition", "attachment; filename=report.txt")]
         /\ payload part = "aGVsbG8=" +:+ nl.
Proof.
  destruct (proj1 (C8_one_part_per_attachment ["bob@example.com"] "Hi" "Body"
                     secrets_txt "gmail_username" "gmail_password" to_stdout
                     false [report_txt] report_world "alice@example.com"
                     "s3cr3t" report_resolved report_message
                     (snd (compose_message (CustomLogger_init to_stdout)
                             "alice@example.com" ["bob@example.com"] "Hi" "Body"
                             false (Some [report_txt]) report_resolved))
                     ltac:(vm_compute; reflexivity)
                     ltac:(vm_compute; reflexivity)))
    as (parts & Ha & Hl & Hc & Hn).
  exists parts. split; [exact Ha|]. split; [exact Hl|]. split; [exact Hc|].
  intros part Hp. split.
  - apply (Hn 0 "docs" "report.txt" part); [|by left|exact Hp].
    split; [discriminate|]. split; [discriminate|].
    unfold without. cbn [list_ascii_of_string].
    repeat (constructor; [discriminate|]). constructor.
  - destruct (Forall2_lookup_lr _ _ _ 0 report_txt part Hc eq_refl Hp)
      as (_ & _ & _ & data & Hpay & _ & Hd).
    rewrite Hpay.
    assert (Hdata : Some "hello" = Some data) by (apply Hd; by left).
    by injection Hdata as <-.
Defined.

(** ** The message file *)

Lemma readline_cons (c : ascii) (s : string) :
  readline (String c s) =
  if Ascii.eqb c LF then (String c EmptyString, s)
  else let '(l, rest) := readline s in (String c l, rest).
Proof. reflexivity. Qed.

Lemma readline_line (l rest : string) :
  no_newline l -> readline (l +:+ nl +:+ rest) = (l +:+ nl, rest).
Proof.
  unfold no_newline. induction l as [|c l IH]; intros H.
  - reflexivity.
  - cbn [list_ascii_of_string] in H. apply Forall_cons in H as [Hc Hl].
    change (String c l +:+ nl +:+ rest) with (String c (l +:+ nl +:+ rest)).
    rewrite readline_cons, (IH Hl).
    apply Ascii.eqb_neq in Hc. by rewrite Hc.
Qed.

(** Text mode on texts without [\r], after a line and after an end of
    line. *)
Lemma universal_newlines_line (l s : string) :
  Forall (fun c => c <> CR) (list_ascii_of_string l) ->
  universal_newlines (l +:+ s) = l +:+ universal_newlines s.
Proof.
  induction l as [|c l IH]; intros H; [done|].
  cbn [list_ascii_of_string] in H. apply Forall_cons in H as [Hc Hl].
  change (String c l +:+ s) with (String c (l +:+ s)).
  cbn [universal_newlines]. apply Ascii.eqb_neq in Hc. rewrite Hc, (IH Hl).
  reflexivity.
Qed.

Lemma universal_newlines_end (e s : string) :
  line_end e -> universal_newlines (e +:+ s) = nl +:+ universal_newlines s.
Proof. by intros [->| ->]. Qed.

Lemma universal_newlines_id (s : string) :
  Forall (fun c => c <> CR) (list_ascii_of_string s) -> universal_newlines s = s.
Proof.
  induction s as [|c s IH]; intros H; [done|].
  cbn [list_ascii_of_string] in H. apply Forall_cons in H as [Hc Hs].
  cbn [universal_newlines]. apply Ascii.eqb_neq in Hc. by rewrite Hc, (IH Hs).
Qed.

Lemma read_message_file_unfold lg file w stored :
  files w !! file = Some stored ->
  read_message_file lg file w =
  let text := universal_newlines stored in
  let line1 := fst (readline text) in
  let recipients := str_split ","%char (str_strip line1) in
  if String.eqb (hd EmptyString recipients) EmptyString then
    (Raised (Exception (is_empty file)),
     snd (error lg "<module>" 364 (is_empty file) w))
  else
    (Returned (recipients,
               str_strip (fst (readline (snd (readline text)))),
               snd (readline (snd (readline text)))), w).
Proof.
  intros Hf. unfold read_message_file. unfold bind at 1, isfile at 1.
  rewrite bool_decide_eq_true_2 by (by eexists). cbn [negb].
  unfold bind at 1, read_text at 1. rewrite Hf. cbv zeta.
  destruct (readline (universal_newlines stored)) as [line1 rest1].
  cbn [fst snd].
  destruct (String.eqb (hd EmptyString _) EmptyString).
  - unfold bind, error. by rewrite log_call_returns.
  - by destruct (readline rest1) as [line2 rest2].
Qed.

(** C7, refuted as stated, in two ways.  The first line of
    [blank_first_text] is blank: the front end does not parse the file into
    a single empty recipient, the subject [Hello] and the body, it raises
    the error of line 365, and so does the script in message mode.  And the
    file [crlf_text] is the file of the scenario with the line endings
    [\r\n]: the front end parses it, but the body that it hands on is not
    the remaining contents of the file, it is their text with the line
    endings read as [\n]. *)
Lemma C7_message_file_counterexample :
  fst (read_message_file (CustomLogger_init to_stdout) message_txt
         (sample_world {[message_txt := blank_first_text]}))
  = Raised (Exception (is_empty message_txt))
  /\ fst (read_message_file (CustomLogger_init to_stdout) message_txt
            (sample_world {[message_txt := blank_first_text]}))
     <> Returned (str_split ","%char (str_strip nl), "Hello", "Body" +:+ nl)
  /\ fst (main (MessageArgs (Some message_txt) None EmptyString EmptyString
                  None secrets_txt "gmail_username" "gmail_password" "stdout")
            (sample_world {[message_txt := blank_first_text;
                            secrets_txt := alice_text]}))
     = Raised (Exception (is_empty message_txt))
  /\ crlf_text
     = ("bob@example.com,carol@example.com" +:+ crlf) +:+ ("Hello" +:+ crlf)
       +:+ ("Body line 1" +:+ crlf +:+ "Body line 2" +:+ crlf)
  /\ fst (read_message_file (CustomLogger_init to_stdout) message_txt
            (sample_world {[message_txt := crlf_text]}))
     = Returned (["bob@example.com"; "carol@example.com"], "Hello",
                 "Body line 1" +:+ nl +:+ "Body line 2" +:+ nl)
  /\ fst (read_message_file (CustomLogger_init to_stdout) message_txt
            (sample_world {[message_txt := crlf_text]}))
     <> Returned (["bob@example.com"; "carol@example.com"], "Hello",
                  "Body line 1" +:+ crlf +:+ "Body line 2" +:+ crlf).
Proof.
  split; [reflexivity|]. split; [vm_compute; discriminate|].
  split; [reflexivity|]. split; [reflexivity|]. split; [reflexivity|].
  vm_compute. discriminate.
Qed.

(** C7 (amended): for every message file whose first line, stripped and
    split on commas, has a non-empty first entry, the message-mode front end
    takes the recipients from that split, the subject from the second line,
    stripped, and the body from the entire remaining contents; a file that
    is empty or whose first line is blank is refused with the error of line
    365.  The file is read in text mode: [text] is what it holds with the
    line endings [\r\n] and [\r] read as [\n], the lines are those that
    [readline] cuts at the first two newlines of [text], and the body is the
    rest of [text].  For a file whose first two lines end in [\n] or [\r\n]
    the body is thus the text of what follows them, and this is what
    follows them, unchanged, when it holds no [\r]. *)
Theorem C7_message_file_format (lg : CustomLogger) (file : Path) (w : World)
    (stored text : string) :
  files w !! file = Some stored ->
  text = universal_newlines stored ->
  (hd EmptyString (str_split ","%char (str_strip (fst (readline text))))
   <> EmptyString ->
   read_message_file lg file w
   = (Returned (str_split ","%char (str_strip (fst (readline text))),
                str_strip (fst (readline (snd (readline text)))),
                snd (readline (snd (readline text)))), w))
  /\ (str_strip (fst (readline text)) = EmptyString ->
      fst (read_message_file lg file w) = Raised (Exception (is_empty file)))
  /\ (forall l1 e1 l2 e2 rest,
        stored = l1 +:+ e1 +:+ l2 +:+ e2 +:+ rest ->
        one_line l1 -> one_line l2 -> line_end e1 -> line_end e2 ->
        fst (readline text) = l1 +:+ nl
        /\ fst (readline (snd (readline text))) = l2 +:+ nl
        /\ snd (readline (snd (readline text))) = universal_newlines rest)
  /\ (forall rest,
        Forall (fun c => c <> CR) (list_ascii_of_string rest) ->
        universal_newlines rest = rest).
Proof.
  intros Hf ->. rewrite (read_message_file_unfold _ _ _ _ Hf). cbv zeta.
  split; [|split; [|split]].
  - intros H. apply String.eqb_neq in H. by rewrite H.
  - intros H. by rewrite H.
  - intros l1 e1 l2 e2 rest -> [H1 H1'] [H2 H2'] He1 He2.
    rewrite (universal_newlines_line l1 _ H1'), (universal_newlines_end e1 _ He1).
    rewrite (universal_newlines_line l2 _ H2'), (universal_newlines_end e2 _ He2).
    rewrite (readline_line l1 _ H1). cbn [fst snd].
    by rewrite (readline_line l2 _ H2).
  - apply universal_newlines_id.
Qed.

Lemma C7_message_file_format_witness :
  read_message_file (CustomLogger_init to_stdout) message_txt
    (sample_world {[message_txt := scenario_text]})
  = (Returned (["bob@example.com"; "carol@example.com"], "Hello",
               "Body line 1" +:+ nl +:+ "Body line 2" +:+ nl),
     sample_world {[message_txt := scenario_text]}).
Proof.
  refine (proj1 (C7_message_file_format (CustomLogger_init to_stdout)
                   message_txt (sample_world {[message_txt := scenario_text]})
                   scenario_text (universal_newlines scenario_text) _ _) _).
  - vm_compute. reflexivity.
  - reflexivity.
  - vm_compute. discriminate.
Defined.

(** In message mode with [--file] the script sends what the front end has
    read from the file. *)
Lemma main_sends_message_file f rc s b a sf ut pt lfs w :
  main (MessageArgs (Some f) rc s b a sf ut pt lfs) w =
  let args := MessageArgs (Some f) rc s b a sf ut pt lfs in
  let lg := CustomLogger_init (main_log_file args) in
  bind (info lg "<module>" 352 "====== INITIALIZING... ======")
    (fun _ =>
       bind (read_message_file lg f)
         (fun message =>
            bind (send_email (fst (fst message)) (snd (fst message))
                    (snd message) sf "gmail_username" "gmail_password"
                    (main_log_file args) false a)
              (fun _ => info lg "<module>" 380 "====== TERMINATED ======")))
    w.
Proof.
  cbv zeta. unfold main, bind.
  destruct (info _ _ _ _ w) as [[[]|e] w1]; [|done].
  by destruct (read_message_file _ f w1) as [[[[r' s'] b']|e] w2].
Qed.

(** ** [test_send_email] *)

(** C3, the code at the failing inputs.  Without the attachment,
    [test_send_email] never looks at its [secrets_file] argument: line 225
    reads the module-level name [args] instead.  Called with the secrets
    file of Alice while [args] names another file, it logs in and sends
    with the credentials of that other file; called where [args] is not
    bound, it makes no send attempt at all and logs the [NameError].  When
    the script itself runs in test mode, [args] names the file of the
    argument and the scenario goes through. *)
Theorem C3_secrets_file_argument_ignored :
  (forall args sf sf' ut pt lf w,
      test_send_email args sf ut pt lf false w
      = test_send_email args sf' ut pt lf false w)
  /\ network
       (snd (test_send_email
               (Some (TestArgs other_txt "gmail_username" "gmail_password"
                        false "stdout"))
               secrets_txt "gmail_username" "gmail_password" to_stdout false
               two_secrets_world))
     = [Connect "smtp.gmail.com" 587; StartTLS;
        Login "mallory@example.com" "hunter2";
        Sendmail "mallory@example.com" ["mallory@example.com"]
          (plain_render
             (mkMultipart
                [("MIME-Version", "1.0"); ("From", "mallory@example.com");
                 ("To", "mallory@example.com"); ("Subject", "Test Email")]
                [MIMEText "This is a test." "plain"]));
        Quit]
  /\ test_send_email None secrets_txt "gmail_username" "gmail_password"
       to_stdout false alice_world
     = (Returned tt,
        with_ticks 4
          (with_console
             [log_output "2024-01-01 00:00:00,000" "INFO" "test_send_email" 192
                "====== INITIALIZING... ======";
              log_output "2024-01-01 00:00:00,000" "INFO" "test_send_email" 194
                "Attempting to send test email...";
              log_output "2024-01-01 00:00:00,000" "ERROR" "test_send_email" 232
                ("Exception occurred: name 'args' is not defined" +:+ nl
                 +:+ "Traceback (most recent call last):");
              log_output "2024-01-01 00:00:00,000" "INFO" "test_send_email" 234
                "====== TERMINATED ======"]
             alice_world))
  /\ network
       (snd (main (TestArgs secrets_txt "gmail_username" "gmail_password"
                     false "stdout") alice_world))
     = [Connect "smtp.gmail.com" 587; StartTLS;
        Login "alice@example.com" "s3cr3t";
        Sendmail "alice@example.com" ["alice@example.com"]
          (plain_render
             (mkMultipart
                [("MIME-Version", "1.0"); ("From", "alice@example.com");
                 ("To", "alice@example.com"); ("Subject", "Test Email")]
                [MIMEText "This is a test." "plain"]));
        Quit].
Proof.
  split; [reflexivity|]. split; [vm_compute; reflexivity|].
  split; vm_compute; reflexivity.
Qed.

(** *** Which exceptions the program raises, and what it does to files *)

Lemma tame_ret {A} (a : A) : tame (ret a).
Proof. split; [by intros w e w' [=]|done]. Qed.

Lemma tame_raise {A} (e : Exn) : is_Exception e = true -> tame (@raise A e).
Proof. intros He. split; [by intros w e' w' [= <- _]|done]. Qed.

Lemma tame_bind {A B} (m : Py A) (k : A -> Py B) :
  tame m -> (forall a, tame (k a)) -> tame (bind m k).
Proof.
  intros [Hm1 Hm2] Hk. split.
  - intros w e w'. unfold bind. destruct (m w) as [[a|e0] w1] eqn:E.
    + apply (Hk a).
    + intros [= <- <-]. by eapply Hm1.
  - intros w p Hp. unfold bind. specialize (Hm2 w p Hp).
    destruct (m w) as [[a|e0] w1]; [|done]. by apply (Hk a).
Qed.

Lemma tame_log_call level lg f n msg : tame (log_call level lg f n msg).
Proof.
  split.
  - intros w e w'. by rewrite log_call_returns.
  - intros w p. apply log_call_files_mono.
Qed.

Lemma tame_isfile p : tame (isfile p).
Proof. split; [by intros w e w' [=]|done]. Qed.

Lemma tame_read_file p : tame (read_file p).
Proof.
  split.
  - intros w e w'. unfold read_file. destruct (files w !! p); [done|].
    by intros [= <- _].
  - intros w q Hq. unfold read_file. by destruct (files w !! p).
Qed.

Lemma tame_smtp_call ev answer : tame (smtp_call ev answer).
Proof.
  split.
  - intros w e w'. unfold smtp_call. destruct (answer _); [|done].
    by intros [= <- _].
  - intros w q Hq. unfold smtp_call. by destruct (answer _).
Qed.

Lemma tame_try_finally {A} (body : Py A) (cleanup : Py unit) :
  tame body -> tame cleanup -> tame (try_finally body cleanup).
Proof.
  intros [Hb1 Hb2] [Hc1 Hc2]. split.
  - intros w e w'. unfold try_finally.
    destruct (body w) as [r w1] eqn:Eb.
    destruct (cleanup w1) as [[[]|e1] w2] eqn:Ec.
    + intros [= -> <-]. by eapply Hb1.
    + intros [= <- <-]. by eapply Hc1.
  - intros w p Hp. unfold try_finally. specialize (Hb2 w p Hp).
    destruct (body w) as [r w1]. specialize (Hc2 w1 p Hb2).
    by destruct (cleanup w1) as [[[]|e1] w2].
Qed.

Lemma tame_read_text p : tame (read_text p).
Proof.
  split.
  - intros w e w'. unfold read_text. destruct (files w !! p); [done|].
    by intros [= <- <-].
  - intros w q Hq. unfold read_text. by destruct (files w !! p).
Qed.

Lemma tame_serialise m : tame (serialise m).
Proof.
  split.
  - intros w e w'. unfold serialise.
    destruct (as_string_raises (host w) m); [|done]. by intros [= <- <-].
  - intros w q Hq. unfold serialise.
    by destruct (as_string_raises (host w) m).
Qed.

#[local] Hint Resolve tame_ret tame_raise tame_bind tame_log_call tame_isfile
  tame_read_file tame_read_text tame_smtp_call tame_try_finally
  tame_serialise : tame.

Lemma tame_get_secrets sf ut pt lf : tame (get_secrets sf ut pt lf).
Proof.
  unfold get_secrets, info, error. cbv zeta.
  apply tame_bind; [auto with tame|intros _].
  apply tame_bind; [auto with tame|intros b].
  destruct b; cbn [negb]; [|auto with tame].
  apply tame_bind; [auto with tame|intros text].
  destruct (scan_secrets ut pt text) as [u p].
  destruct (String.eqb u EmptyString); [auto with tame|].
  destruct (String.eqb p EmptyString); auto with tame.
Qed.

Lemma tame_attach_files lg atts : forall m, tame (attach_files lg atts m).
Proof.
  induction atts as [|a atts IH]; intros m; cbn [attach_files]; [auto with tame|].
  apply tame_bind; [|done].
  unfold attach_file, debug. auto 6 with tame.
Qed.

Lemma tame_compose_message lg u rc s b h atts :
  tame (compose_message lg u rc s b h atts).
Proof.
  unfold compose_message, info. cbv zeta.
  apply tame_bind; [auto with tame|intros _].
  destruct atts; [apply tame_attach_files|auto with tame].
Qed.

Lemma tame_submit u p rc text : tame (submit u p rc text).
Proof. unfold submit, with_SMTP. auto 8 with tame. Qed.

Lemma tame_send_email r s b sf ut pt lf h a :
  tame (send_email r s b sf ut pt lf h a).
Proof.
  unfold send_email, info. cbv zeta.
  apply tame_bind; [apply tame_get_secrets|intros [u p]].
  apply tame_bind; [apply tame_compose_message|intros m].
  apply tame_bind; [auto with tame|intros text].
  apply tame_bind; [apply tame_submit|auto with tame].
Qed.

(** *** The log of a run *)

Lemma append_empty_r (s : string) : s +:+ EmptyString = s.
Proof.
  induction s as [|c s IH]; [done|].
  change (String c (s +:+ EmptyString) = String c s). by f_equal.
Qed.

Lemma append_assoc (s t v : string) : s +:+ (t +:+ v) = (s +:+ t) +:+ v.
Proof.
  induction s as [|c s IH]; [done|].
  change (String c (s +:+ (t +:+ v)) = String c ((s +:+ t) +:+ v)). by f_equal.
Qed.

Lemma foldr_append_snoc (l : list string) (x : string) :
  foldr String.append EmptyString (l ++ [x])
  = foldr String.append EmptyString l +:+ x.
Proof.
  induction l as [|y l IH]; cbn [foldr app].
  - by rewrite append_empty_r.
  - by rewrite IH, append_assoc.
Qed.

Lemma log_text_log_call level lf f n msg w :
  log_text lf (snd (log_call level (CustomLogger_init lf) f n msg w))
  = log_text lf w +:+ log_output (clock (host w) (ticks w)) level f n msg.
Proof.
  rewrite log_call_unfold. cbv zeta. cbn [snd]. unfold log_text.
  destruct (stdout (CustomLogger_init lf)).
  - cbn [console with_console with_ticks]. apply foldr_append_snoc.
  - cbn [files with_files with_ticks]. by rewrite lookup_insert_eq.
Qed.

Lemma log_exception_unfold lg n e w :
  log_exception lg n e w
  = error lg "test_send_email" n
      ("Exception occurred: " +:+ Exn_str e +:+ nl
       +:+ str_strip (format_exc (host w) e)) w.
Proof. reflexivity. Qed.

Lemma log_exception_returns lg n e w :
  log_exception lg n e w = (Returned tt, snd (log_exception lg n e w)).
Proof. rewrite log_exception_unfold. unfold error. apply log_call_returns. Qed.

Lemma log_exception_files_mono lg n e w p :
  is_Some (files w !! p) -> is_Some (files (snd (log_exception lg n e w)) !! p).
Proof. rewrite log_exception_unfold. unfold error. apply log_call_files_mono. Qed.

(** The guarded call of lines 201 to 214 and 220 to 232: whatever the body
    raises is handed to the handler, which logs it and returns. *)
Lemma guarded_call (lg : CustomLogger) (n : nat) (body : Py unit) (w : World) :
  tame body ->
  exists w3,
    try_except body (log_exception lg n) w = (Returned tt, w3)
    /\ (forall p, is_Some (files w !! p) -> is_Some (files w3 !! p))
    /\ (forall e w2, body w = (Raised e, w2) ->
                     w3 = snd (log_exception lg n e w2)).
Proof.
  intros [H1 H2]. unfold try_except.
  destruct (body w) as [[[]|e] w2] eqn:E.
  - exists w2. split; [done|]. split; [|done].
    intros p Hp. specialize (H2 w p Hp). by rewrite E in H2.
  - rewrite (H1 _ _ _ E). exists (snd (log_exception lg n e w2)).
    split; [apply log_exception_returns|]. split.
    + intros p Hp. apply log_exception_files_mono.
      specialize (H2 w p Hp). by rewrite E in H2.
    + by intros e' w2' [= <- <-].
Qed.

Lemma closes_log_info lf w :
  closes_log lf (snd (info (CustomLogger_init lf) "test_send_email" 234
                        "====== TERMINATED ======" w)).
Proof.
  exists (log_text lf w), (clock (host w) (ticks w)).
  unfold info. apply log_text_log_call.
Qed.

Lemma test_send_email_plain args sf ut pt lf w :
  test_send_email args sf ut pt lf false w
  = bind (try_except
            (bind (global_args args)
               (fun a => send_email ["DEBUG"] "Test Email" "This is a test."
                           (args_secrets_file a) ut pt lf false None))
            (log_exception (CustomLogger_init lf) 232))
      (fun _ => info (CustomLogger_init lf) "test_send_email" 234
                  "====== TERMINATED ======")
      (test_entry lf w).
Proof.
  unfold test_send_email, test_entry, info. cbv zeta.
  unfold bind at 1. rewrite log_call_returns.
  unfold bind at 1. by rewrite log_call_returns.
Qed.

Lemma test_send_email_attached args sf ut pt lf w :
  test_send_email args sf ut pt lf true w
  = bind (bind (create_file test_txt ("This is a test attachment." +:+ nl))
            (fun _ =>
               bind (read_file test_txt)
                 (fun _ =>
                    try_finally
                      (try_except
                         (send_email ["DEBUG"] "Test Email" "This is a test."
                            sf ut pt lf false (Some [test_txt]))
                         (log_exception (CustomLogger_init lf) 214))
                      (remove test_txt))))
      (fun _ => info (CustomLogger_init lf) "test_send_email" 234
                  "====== TERMINATED ======")
      (test_entry lf w).
Proof.
  unfold test_send_email, test_entry, info. cbv zeta.
  unfold bind at 1. rewrite log_call_returns.
  unfold bind at 1. by rewrite log_call_returns.
Qed.

Lemma tame_inner_call args ut pt lf :
  tame (bind (global_args args)
          (fun a => send_email ["DEBUG"] "Test Email" "This is a test."
                      (args_secrets_file a) ut pt lf false None)).
Proof.
  apply tame_bind; [|intros a; apply tame_send_email].
  destruct args; cbn; auto with tame.
Qed.

(** C6: in every invocation of [test_send_email] whatever the inner
    [send_email] call raises is caught and logged, the function returns, and
    its closing log line ends the log.  Without the attachment this holds
    always; with the attachment it holds whenever the run gets to the call,
    that is, whenever [test.txt] can be created, and the only other exit is
    the [FileExistsError] of line 198, raised before [send_email] is called.
    The handler writes one ERROR line with the text of the exception. *)
Theorem C6_send_errors_are_caught (args : option Namespace) (sf : Path)
    (ut pt : string) (lf : LogFile) (w : World) :
  (exists w',
      test_send_email args sf ut pt lf false w = (Returned tt, w')
      /\ closes_log lf w')
  /\ (forall a e w2,
        args = Some a ->
        send_email ["DEBUG"] "Test Email" "This is a test."
          (args_secrets_file a) ut pt lf false None (test_entry lf w)
        = (Raised e, w2) ->
        test_send_email args sf ut pt lf false w
        = (Returned tt,
           snd (info (CustomLogger_init lf) "test_send_email" 234
                  "====== TERMINATED ======"
                  (snd (log_exception (CustomLogger_init lf) 232 e w2)))))
  /\ (files (test_entry lf w) !! test_txt = None ->
      exists w',
        test_send_email args sf ut pt lf true w = (Returned tt, w')
        /\ closes_log lf w')
  /\ (forall e w2,
        files (test_entry lf w) !! test_txt = None ->
        send_email ["DEBUG"] "Test Email" "This is a test." sf ut pt lf false
          (Some [test_txt])
          (with_files (<[test_txt := "This is a test attachment." +:+ nl]>
                         (files (test_entry lf w))) (test_entry lf w))
        = (Raised e, w2) ->
        exists w3,
          log_exception (CustomLogger_init lf) 214 e w2 = (Returned tt, w3)
          /\ is_Some (files w3 !! test_txt)
          /\ test_send_email args sf ut pt lf true w
             = (Returned tt,
                snd (info (CustomLogger_init lf) "test_send_email" 234
                       "====== TERMINATED ======"
                       (with_files (delete test_txt (files w3)) w3))))
  /\ (is_Some (files (test_entry lf w) !! test_txt) ->
      test_send_email args sf ut pt lf true w
      = (Raised (FileExistsError (Path_str test_txt)), test_entry lf w))
  /\ (forall n e w2,
        fst (log_exception (CustomLogger_init lf) n e w2) = Returned tt
        /\ log_text lf (snd (log_exception (CustomLogger_init lf) n e w2))
           = log_text lf w2
             +:+ log_output (clock (host w2) (ticks w2)) "ERROR"
                   "test_send_email" n
                   ("Exception occurred: " +:+ Exn_str e +:+ nl
                    +:+ str_strip (format_exc (host w2) e))).
Proof.
  set (lg := CustomLogger_init lf). set (w1 := test_entry lf w).
  assert (Hplain : forall w3,
             try_except
               (bind (global_args args)
                  (fun a => send_email ["DEBUG"] "Test Email" "This is a test."
                              (args_secrets_file a) ut pt lf false None))
               (log_exception lg 232) w1 = (Returned tt, w3) ->
             test_send_email args sf ut pt lf false w
             = (Returned tt,
                snd (info lg "test_send_email" 234 "====== TERMINATED ======" w3))).
  { intros w3 H. rewrite test_send_email_plain. fold lg w1.
    unfold bind at 1. rewrite H. unfold info. apply log_call_returns. }
  assert (Hatt : forall w3,
             files w1 !! test_txt = None ->
             try_except
               (send_email ["DEBUG"] "Test Email" "This is a test." sf ut pt lf
                  false (Some [test_txt]))
               (log_exception lg 214)
               (with_files (<[test_txt := "This is a test attachment." +:+ nl]>
                              (files w1)) w1) = (Returned tt, w3) ->
             is_Some (files w3 !! test_txt) ->
             test_send_email args sf ut pt lf true w
             = (Returned tt,
                snd (info lg "test_send_email" 234 "====== TERMINATED ======"
                       (with_files (delete test_txt (files w3)) w3)))).
  { intros w3 Hnone H [c Hc]. rewrite test_send_email_attached. fold lg w1.
    unfold bind at 1. unfold bind at 1. unfold create_file at 1. rewrite Hnone.
    unfold bind at 1, read_file at 1. cbn [files with_files].
    rewrite lookup_insert_eq. unfold try_finally. rewrite H.
    unfold remove. rewrite Hc. unfold info. apply log_call_returns. }
  split; [|split; [|split; [|split; [|split]]]].
  - destruct (guarded_call lg 232 _ w1 (tame_inner_call args ut pt lf))
      as (w3 & H & _ & _).
    eexists. split; [by apply Hplain|]. apply closes_log_info.
  - intros a e w2 -> Hs.
    destruct (guarded_call lg 232 _ w1 (tame_inner_call (Some a) ut pt lf))
      as (w3 & H & _ & He).
    rewrite (Hplain w3 H). do 3 f_equal. apply He.
    unfold bind, global_args, ret. fold w1 in Hs. by rewrite Hs.
  - intros Hnone.
    destruct (guarded_call lg 214 _
                (with_files (<[test_txt := "This is a test attachment." +:+ nl]>
                               (files w1)) w1)
                (tame_send_email ["DEBUG"] "Test Email" "This is a test." sf
                   ut pt lf false (Some [test_txt])))
      as (w3 & H & Hm & _).
    eexists. split; [|apply closes_log_info].
    apply Hatt; [done|done|]. apply Hm. cbn [files with_files].
    rewrite lookup_insert_eq. by eexists.
  - intros e w2 Hnone Hs. fold w1 in Hs.
    destruct (guarded_call lg 214 _
                (with_files (<[test_txt := "This is a test attachment." +:+ nl]>
                               (files w1)) w1)
                (tame_send_email ["DEBUG"] "Test Email" "This is a test." sf
                   ut pt lf false (Some [test_txt])))
      as (w3 & H & Hm & He).
    exists w3. rewrite (He _ _ Hs) in *.
    split; [apply log_exception_returns|].
    assert (Hin : is_Some (files (snd (log_exception lg 214 e w2)) !! test_txt)).
    { apply Hm. cbn [files with_files]. rewrite lookup_insert_eq. by eexists. }
    split; [done|]. by apply Hatt.
  - intros [c Hc]. rewrite test_send_email_attached. fold lg w1.
    unfold bind at 1. unfold bind at 1. unfold create_file at 1. by rewrite Hc.
  - intros n e w2. split; [by rewrite log_exception_returns|].
    rewrite log_exception_unfold. unfold error. apply log_text_log_call.
Qed.

Lemma C6_send_errors_are_caught_witness :
  test_send_email (Some scenario_args) secrets_txt "gmail_username"
    "gmail_password" to_stdout false refused_world
  = (Returned tt,
     snd (info (CustomLogger_init to_stdout) "test_send_email" 234
            "====== TERMINATED ======"
            (snd (log_exception (CustomLogger_init to_stdout) 232
                    (TransportError
                       "(535, b'5.7.8 Username and Password not accepted.')")
                    (snd (send_email ["DEBUG"] "Test Email" "This is a test."
                            secrets_txt "gmail_username" "gmail_password"
                            to_stdout false None
                            (test_entry to_stdout refused_world))))))).
Proof.
  refine (proj1 (proj2 (C6_send_errors_are_caught (Some scenario_args)
                          secrets_txt "gmail_username" "gmail_password"
                          to_stdout refused_world))
            scenario_args _ _ eq_refl _).
  vm_compute. reflexivity.
Defined.

(** * Further properties of the code *)

(** ** What a computation leaves untouched *)

Lemma keeps_ret {A X} (obs : World -> X) (a : A) : keeps obs (ret a).
Proof. done. Qed.

Lemma keeps_raise {A X} (obs : World -> X) (e : Exn) : keeps obs (@raise A e).
Proof. done. Qed.

Lemma keeps_bind {A B X} (obs : World -> X) (m : Py A) (k : A -> Py B) :
  keeps obs m -> (forall a, keeps obs (k a)) -> keeps obs (bind m k).
Proof.
  intros Hm Hk w. unfold bind. specialize (Hm w).
  destruct (m w) as [[a|e] w1]; [|done]. cbn [snd] in Hm.
  by rewrite (Hk a w1).
Qed.

Lemma keeps_try_except {A X} (obs : World -> X) (body : Py A) handler :
  keeps obs body -> (forall e, keeps obs (handler e)) ->
  keeps obs (try_except body handler).
Proof.
  intros Hb Hh w. unfold try_except. specialize (Hb w).
  destruct (body w) as [[a|e] w1]; [done|]. cbn [snd] in Hb.
  destruct (is_Exception e); [|done]. by rewrite (Hh e w1).
Qed.

Lemma keeps_try_finally {A X} (obs : World -> X) (body : Py A) cleanup :
  keeps obs body -> keeps obs cleanup -> keeps obs (try_finally body cleanup).
Proof.
  intros Hb Hc w. unfold try_finally. specialize (Hb w).
  destruct (body w) as [r w1]. cbn [snd] in Hb. specialize (Hc w1).
  by destruct (cleanup w1) as [[[]|e] w2]; cbn [snd] in *; rewrite Hc.
Qed.

Lemma keeps_isfile {X} (obs : World -> X) p : keeps obs (isfile p).
Proof. done. Qed.

Lemma keeps_read_file {X} (obs : World -> X) p : keeps obs (read_file p).
Proof. intros w. unfold read_file. by destruct (files w !! p). Qed.

Lemma keeps_read_text {X} (obs : World -> X) p : keeps obs (read_text p).
Proof. intros w. unfold read_text. by destruct (files w !! p). Qed.

Lemma keeps_serialise {X} (obs : World -> X) m : keeps obs (serialise m).
Proof.
  intros w. unfold serialise. by destruct (as_string_raises (host w) m).
Qed.

Lemma keeps_global_args {X} (obs : World -> X) args : keeps obs (global_args args).
Proof. by destruct args. Qed.

Lemma keeps_network_log_call level lg f n msg :
  keeps network (log_call level lg f n msg).
Proof. intros w. apply log_call_network. Qed.

Lemma keeps_host_log_call level lg f n msg :
  keeps host (log_call level lg f n msg).
Proof. intros w. apply log_call_host. Qed.

Lemma keeps_console_log_call level lg f n msg :
  stdout lg = false -> keeps console (log_call level lg f n msg).
Proof. intros H w. rewrite log_call_unfold. cbv zeta. cbn [snd]. by rewrite H. Qed.

Lemma keeps_files_log_call level lg f n msg :
  stdout lg = true -> keeps files (log_call level lg f n msg).
Proof. intros H w. rewrite log_call_unfold. cbv zeta. cbn [snd]. by rewrite H. Qed.

Lemma keeps_file_at_log_call level lf f n msg p :
  logs_elsewhere lf p ->
  keeps (file_at p) (log_call level (CustomLogger_init lf) f n msg).
Proof. intros H w. by apply log_call_files_elsewhere. Qed.

Lemma keeps_smtp_call {X} (obs : World -> X) ev answer :
  (forall n w, obs (with_network n w) = obs w) -> keeps obs (smtp_call ev answer).
Proof. intros H w. unfold smtp_call. by destruct (answer _); cbn [snd]. Qed.

Lemma keeps_create_file {X} (obs : World -> X) p text :
  (forall fs w, obs (with_files fs w) = obs w) -> keeps obs (create_file p text).
Proof. intros H w. unfold create_file. by destruct (files w !! p); cbn [snd]. Qed.

Lemma keeps_remove {X} (obs : World -> X) p :
  (forall fs w, obs (with_files fs w) = obs w) -> keeps obs (remove p).
Proof. intros H w. unfold remove. by destruct (files w !! p); cbn [snd]. Qed.

#[local] Hint Resolve keeps_ret keeps_raise keeps_isfile keeps_read_file
  keeps_read_text keeps_serialise keeps_global_args keeps_network_log_call keeps_host_log_call
  keeps_console_log_call keeps_files_log_call keeps_file_at_log_call : keeps.

Ltac keeps_auto :=
  repeat first
    [ progress (eauto with keeps)
    | apply keeps_bind; [|intros ?]
    | apply keeps_try_except; [|intros ?]
    | apply keeps_try_finally
    | apply keeps_smtp_call; [done]
    | apply keeps_create_file; [done]
    | apply keeps_remove; [done]
    | match goal with
      | |- keeps _ (if ?b then _ else _) => destruct b
      | |- keeps _ (match ?x with _ => _ end) => destruct x
      end ].

Lemma keeps_network_get_secrets sf ut pt lf : keeps network (get_secrets sf ut pt lf).
Proof. unfold get_secrets, info, error. cbv zeta. keeps_auto. Qed.

Lemma keeps_files_get_secrets sf ut pt lf :
  stdout (CustomLogger_init lf) = true -> keeps files (get_secrets sf ut pt lf).
Proof. intros H. unfold get_secrets, info, error. cbv zeta. keeps_auto. Qed.

Lemma keeps_console_get_secrets sf ut pt lf :
  stdout (CustomLogger_init lf) = false -> keeps console (get_secrets sf ut pt lf).
Proof. intros H. unfold get_secrets, info, error. cbv zeta. keeps_auto. Qed.

Lemma keeps_file_at_get_secrets sf ut pt lf p :
  logs_elsewhere lf p -> keeps (file_at p) (get_secrets sf ut pt lf).
Proof. intros H. unfold get_secrets, info, error. cbv zeta. keeps_auto. Qed.

Lemma log_blind_keeps {X} (obs : World -> X) lf level f n msg :
  log_blind obs lf -> keeps obs (log_call level (CustomLogger_init lf) f n msg).
Proof. intros H. apply H. Qed.

#[local] Hint Resolve log_blind_keeps : keeps.

Lemma log_blind_network lf : log_blind network lf.
Proof. intros level f n msg. apply keeps_network_log_call. Qed.

Lemma log_blind_host lf : log_blind host lf.
Proof. intros level f n msg. apply keeps_host_log_call. Qed.

Lemma log_blind_console lf :
  stdout (CustomLogger_init lf) = false -> log_blind console lf.
Proof. intros H level f n msg. by apply keeps_console_log_call. Qed.

Lemma log_blind_files lf :
  stdout (CustomLogger_init lf) = true -> log_blind files lf.
Proof. intros H level f n msg. by apply keeps_files_log_call. Qed.

Lemma log_blind_file_at lf p : logs_elsewhere lf p -> log_blind (file_at p) lf.
Proof. intros H level f n msg. by apply keeps_file_at_log_call. Qed.

Lemma keeps_attach_files {X} (obs : World -> X) lf atts :
  log_blind obs lf ->
  forall m, keeps obs (attach_files (CustomLogger_init lf) atts m).
Proof.
  intros H. induction atts as [|a atts IH]; intros m; cbn [attach_files].
  - apply keeps_ret.
  - apply keeps_bind; [|done]. unfold attach_file, debug. keeps_auto.
Qed.

Lemma keeps_compose_message {X} (obs : World -> X) lf u rc s b h atts :
  log_blind obs lf ->
  keeps obs (compose_message (CustomLogger_init lf) u rc s b h atts).
Proof.
  intros H. unfold compose_message, info. cbv zeta.
  apply keeps_bind; [keeps_auto|intros _].
  destruct atts; [by apply keeps_attach_files|apply keeps_ret].
Qed.

Lemma keeps_submit {X} (obs : World -> X) u p rc text :
  net_blind obs -> keeps obs (submit u p rc text).
Proof.
  intros H. unfold submit, with_SMTP.
  repeat first [apply keeps_bind; [|intros ?] | apply keeps_try_finally
               | apply keeps_smtp_call; exact H].
Qed.

Lemma keeps_send_email {X} (obs : World -> X) r s b sf ut pt lf h a :
  log_blind obs lf -> net_blind obs ->
  keeps obs (send_email r s b sf ut pt lf h a).
Proof.
  intros Hl Hn. unfold send_email, get_secrets, info, error. cbv zeta.
  apply keeps_bind; [keeps_auto|intros [u p]].
  apply keeps_bind; [by apply keeps_compose_message|intros m].
  apply keeps_bind; [apply keeps_serialise|intros text].
  apply keeps_bind; [by apply keeps_submit|intros _]. keeps_auto.
Qed.

Lemma keeps_test_send_email_console args sf ut pt lf ia :
  stdout (CustomLogger_init lf) = false ->
  keeps console (test_send_email args sf ut pt lf ia).
Proof.
  intros H. pose proof (log_blind_console lf H) as Hl.
  unfold test_send_email, info, log_exception, error. cbv zeta.
  apply keeps_bind; [keeps_auto|intros _].
  apply keeps_bind; [keeps_auto|intros _].
  apply keeps_bind; [|intros _; keeps_auto].
  destruct ia.
  - apply keeps_bind; [by apply keeps_create_file|intros _].
    apply keeps_bind; [apply keeps_read_file|intros _].
    apply keeps_try_finally; [|by apply keeps_remove].
    apply keeps_try_except; [by apply keeps_send_email|].
    intros e w. apply Hl.
  - apply keeps_try_except.
    + apply keeps_bind; [apply keeps_global_args|intros a].
      by apply keeps_send_email.
    + intros e w. apply Hl.
Qed.

Lemma keeps_test_send_email_files args sf ut pt lf ia :
  stdout (CustomLogger_init lf) = true ->
  keeps files (test_send_email args sf ut pt lf ia).
Proof.
  intros H. pose proof (log_blind_files lf H) as Hl.
  assert (Hh : forall n e, keeps files (log_exception (CustomLogger_init lf) n e)).
  { intros n e w. apply Hl. }
  destruct ia.
  - intros w. rewrite test_send_email_attached.
    assert (He : files (test_entry lf w) = files w).
    { unfold test_entry, info. by rewrite !Hl. }
    set (w1 := test_entry lf w) in *.
    unfold bind at 1. unfold bind at 1. unfold create_file at 1.
    destruct (files w1 !! test_txt) as [c|] eqn:Ht; [done|].
    unfold bind at 1, read_file at 1. cbn [files with_files].
    rewrite lookup_insert_eq. unfold try_finally.
    set (w2 := with_files _ w1).
    assert (Hk : keeps files
                   (try_except
                      (send_email ["DEBUG"] "Test Email" "This is a test." sf ut
                         pt lf false (Some [test_txt]))
                      (log_exception (CustomLogger_init lf) 214))).
    { apply keeps_try_except; [by apply keeps_send_email|done]. }
    specialize (Hk w2).
    destruct (try_except _ _ w2) as [r w3]. cbn [snd] in Hk.
    unfold remove. rewrite Hk. subst w2. cbn [files with_files].
    rewrite lookup_insert_eq.
    assert (Hd : delete test_txt (<[test_txt := "This is a test attachment." +:+ nl]>
                                    (files w1)) = files w).
    { rewrite delete_insert_id by done. done. }
    destruct r as [[]|e]; cbn [snd]; [|by rewrite Hd].
    unfold info. rewrite Hl. cbn [files with_files]. exact Hd.
  - unfold test_send_email, info. cbv zeta.
    apply keeps_bind; [keeps_auto|intros _].
    apply keeps_bind; [keeps_auto|intros _].
    apply keeps_bind; [|intros _; keeps_auto].
    apply keeps_try_except; [|done].
    apply keeps_bind; [apply keeps_global_args|intros a].
    by apply keeps_send_email.
Qed.

Lemma keeps_read_message_file {X} (obs : World -> X) lf file :
  log_blind obs lf -> keeps obs (read_message_file (CustomLogger_init lf) file).
Proof.
  intros H. unfold read_message_file, error.
  apply keeps_bind; [apply keeps_isfile|intros b].
  destruct b; cbn [negb]; [|keeps_auto].
  apply keeps_bind; [apply keeps_read_text|intros text].
  destruct (readline text) as [line1 rest1].
  cbv zeta. destruct (String.eqb _ _); [keeps_auto|].
  destruct (readline rest1). apply keeps_ret.
Qed.

Lemma keeps_main_message {X} (obs : World -> X) file rc s b a sf ut pt lfs :
  log_blind obs (main_log_file (MessageArgs file rc s b a sf ut pt lfs)) ->
  net_blind obs ->
  keeps obs (main (MessageArgs file rc s b a sf ut pt lfs)).
Proof.
  intros Hl Hn. unfold main. cbv zeta.
  set (lf := main_log_file _) in *. unfold info.
  apply keeps_bind; [keeps_auto|intros _].
  apply keeps_bind.
  - destruct file as [f|]; [by apply keeps_read_message_file|].
    destruct rc as [[|x l]|]; keeps_auto.
  - intros [[r' s'] b']. apply keeps_bind; [by apply keeps_send_email|intros _].
    keeps_auto.
Qed.

Lemma main_log_file_stdout args :
  stdout (CustomLogger_init (main_log_file args))
  = String.eqb (args_log_file args) "stdout".
Proof.
  unfold main_log_file. destruct (String.eqb (args_log_file args) "stdout"); done.
Qed.

(** ** Where a run writes *)

(** X1: a run of the script that logs to the standard output leaves the file
    system exactly as it found it, in both modes: the secrets, message and
    attachment files are only read, and the attachment [test.txt] that test
    mode creates is removed again, whether the send succeeds or fails. *)
Theorem X1_stdout_run_leaves_files_untouched (args : Namespace) (w : World) :
  args_log_file args = "stdout" ->
  files (snd (main args w)) = files w.
Proof.
  intros H.
  assert (Hs : stdout (CustomLogger_init (main_log_file args)) = true).
  { rewrite main_log_file_stdout, H. reflexivity. }
  destruct args as [file rc s b a sf ut pt lfs|sf ut pt ia lfs].
  - apply keeps_main_message; [by apply log_blind_files|done].
  - unfold main. cbv zeta. by apply keeps_test_send_email_files.
Qed.

Lemma X1_stdout_run_leaves_files_untouched_witness :
  files (snd (main (TestArgs secrets_txt "gmail_username" "gmail_password" true
                      "stdout") alice_world))
  = files alice_world.
Proof.
  apply (X1_stdout_run_leaves_files_untouched
           (TestArgs secrets_txt "gmail_username" "gmail_password" true "stdout")
           alice_world).
  reflexivity.
Defined.

(** X2: a run of the script whose [--log-file] is anything but the exact
    string [stdout] prints nothing on the standard output: every log line
    goes to the file of that name.  The comparison of line 347 is case
    sensitive, so [STDOUT] names a file as well. *)
Theorem X2_log_file_run_prints_nothing (args : Namespace) (w : World) :
  args_log_file args <> "stdout" ->
  console (snd (main args w)) = console w.
Proof.
  intros H.
  assert (Hs : stdout (CustomLogger_init (main_log_file args)) = false).
  { rewrite main_log_file_stdout. by apply String.eqb_neq. }
  destruct args as [file rc s b a sf ut pt lfs|sf ut pt ia lfs].
  - apply keeps_main_message; [by apply log_blind_console|done].
  - unfold main. cbv zeta. by apply keeps_test_send_email_console.
Qed.

Lemma X2_log_file_run_prints_nothing_witness :
  console (snd (main (TestArgs secrets_txt "gmail_username" "gmail_password"
                        false "STDOUT") alice_world))
  = console alice_world.
Proof.
  apply (X2_log_file_run_prints_nothing
           (TestArgs secrets_txt "gmail_username" "gmail_password" false "STDOUT")
           alice_world).
  vm_compute. discriminate.
Defined.

(** X3: [send_email] writes to no file but its log file: every other file,
    the secrets file and the attachments among them, holds after the call
    what it held before, whatever the outcome; with the standard output as
    log destination the whole file system is unchanged, and with a log file
    nothing is printed. *)
Theorem X3_send_email_writes_only_its_log (r : list string) (s b : string)
    (sf : Path) (ut pt : string) (lf : LogFile) (h : bool)
    (a : option (list Path)) (w : World) :
  (forall p, logs_elsewhere lf p ->
             files (snd (send_email r s b sf ut pt lf h a w)) !! p = files w !! p)
  /\ (stdout (CustomLogger_init lf) = true ->
      files (snd (send_email r s b sf ut pt lf h a w)) = files w)
  /\ (stdout (CustomLogger_init lf) = false ->
      console (snd (send_email r s b sf ut pt lf h a w)) = console w).
Proof.
  split; [|split].
  - intros p Hp.
    apply (keeps_send_email (file_at p)); [by apply log_blind_file_at|done].
  - intros H. apply keeps_send_email; [by apply log_blind_files|done].
  - intros H. apply keeps_send_email; [by apply log_blind_console|done].
Qed.

Lemma X3_send_email_writes_only_its_log_witness :
  files (snd (send_email ["bob@example.com"] "Hi" "Body" secrets_txt
                "gmail_username" "gmail_password"
                (LogPath (Path_of_str "mail.log")) false (Some [report_txt])
                report_world)) !! report_txt
  = files report_world !! report_txt.
Proof.
  apply (proj1 (X3_send_email_writes_only_its_log ["bob@example.com"] "Hi" "Body"
                  secrets_txt "gmail_username" "gmail_password"
                  (LogPath (Path_of_str "mail.log")) false (Some [report_txt])
                  report_world)).
  right. vm_compute. discriminate.
Defined.

(** X4: [get_secrets] opens no SMTP connection and writes to no file but its
    log file.  It always logs the line of line 53 first; then it logs the
    success line when it returns, the ERROR line of line 56 when the file
    does not exist, and nothing when a tag is missing: that error is raised
    without a log line. *)
Theorem X4_get_secrets_log (sf : Path) (ut pt : string) (lf : LogFile) (w : World) :
  network (snd (get_secrets sf ut pt lf w)) = network w
  /\ (forall p, logs_elsewhere lf p ->
                files (snd (get_secrets sf ut pt lf w)) !! p = files w !! p)
  /\ log_text lf (snd (get_secrets sf ut pt lf w))
     = (log_text lf w
        +:+ log_output (clock (host w) (ticks w)) "INFO" "get_secrets" 53
              (loading_message ut sf))
       +:+ match fst (get_secrets sf ut pt lf w) with
           | Returned _ =>
               log_output (clock (host w) (S (ticks w))) "INFO" "get_secrets" 77
                 "Secrets loaded successfully!"
           | Raised (Exception _) =>
               log_output (clock (host w) (S (ticks w))) "ERROR" "get_secrets" 56
                 (does_not_exist sf)
           | Raised _ => EmptyString
           end.
Proof.
  split; [apply keeps_network_get_secrets|].
  split; [intros p Hp; by apply (keeps_file_at_get_secrets _ _ _ _ p)|].
  assert (H1 : log_text lf (at_check sf ut lf w)
               = log_text lf w
                 +:+ log_output (clock (host w) (ticks w)) "INFO" "get_secrets" 53
                       (loading_message ut sf)).
  { unfold at_check, info. apply log_text_log_call. }
  assert (Ht : ticks (at_check sf ut lf w) = S (ticks w)).
  { unfold at_check, info. rewrite log_call_unfold. cbv zeta. cbn [snd].
    by destruct (stdout _). }
  rewrite get_secrets_unfold. cbv zeta.
  destruct (files (at_check sf ut lf w) !! sf) as [text|].
  - destruct (String.eqb (tag_value ut text) EmptyString);
      [|destruct (String.eqb (tag_value pt text) EmptyString)]; cbn [fst snd].
    + by rewrite append_empty_r.
    + by rewrite append_empty_r.
    + unfold info. by rewrite log_text_log_call, H1, Ht, at_check_host.
  - cbn [fst snd]. unfold error.
    by rewrite log_text_log_call, H1, Ht, at_check_host.
Qed.

(** ** The SMTP session, step by step *)

Lemma submit_unfold (u p : string) (rc : list string) (text : string) (w : World) :
  network (snd (submit u p rc text w))
  = network w ++ session_trace (server (host w)) u p rc text
  /\ (fst (submit u p rc text w) = Returned tt
      <-> accepts_all (server (host w)) u p rc text)
  /\ (forall e, fst (submit u p rc text w) = Raised e ->
                 exists d, e = TransportError d).
Proof.
  unfold submit, with_SMTP, try_finally, bind, smtp_call, session_trace,
    accepts_all.
  cbn [host with_network network fst snd].
  destruct (on_connect (server (host w)) "smtp.gmail.com" 587) as [d|];
    cbn [host files console ticks with_network network fst snd].
  { split; [done|]. split; [split; [done|by intros [[=] _]]|].
    intros e [= <-]. by eexists. }
  destruct (on_starttls (server (host w))) as [d|];
    cbn [host files console ticks with_network network fst snd].
  { destruct (on_quit (server (host w))) as [dq|];
      cbn [host files console ticks with_network network fst snd];
      (split; [by rewrite <- !app_assoc|]);
      (split; [split; [done|by intros (_ & [=] & _)]|]);
      intros e [= <-]; by eexists. }
  destruct (on_login (server (host w)) u p) as [d|];
    cbn [host files console ticks with_network network fst snd].
  { destruct (on_quit (server (host w))) as [dq|];
      cbn [host files console ticks with_network network fst snd];
      (split; [by rewrite <- !app_assoc|]);
      (split; [split; [done|by intros (_ & _ & [=] & _)]|]);
      intros e [= <-]; by eexists. }
  destruct (on_sendmail (server (host w)) u rc text) as [ds|];
    cbn [host files console ticks with_network network fst snd];
    destruct (on_quit (server (host w))) as [dq|];
    cbn [host files console ticks with_network network fst snd];
    (split; [by rewrite <- !app_assoc|]); split.
  all: try (intros e [= <-]; by eexists).
  all: try (split; [done|]).
  all: try (by intros (_ & _ & _ & [=] & _)).
  all: try (by intros (_ & _ & _ & _ & [=])).
  all: try done.
Qed.

Lemma resolved_frame sf ut pt lf w u p w1 lg' ue rc s b h a m w2 :
  get_secrets sf ut pt lf w = (Returned (u, p), w1) ->
  compose_message (CustomLogger_init lg') ue rc s b h a w1 = (Returned m, w2) ->
  host w2 = host w /\ network w2 = network w.
Proof.
  intros Hg Hc. destruct (get_secrets_frame sf ut pt lf w) as [Hh Hn].
  rewrite Hg in Hh, Hn. cbn [snd] in Hh, Hn.
  apply compose_message_spec in Hc as (_ & Hh2 & Hn2 & _). split; congruence.
Qed.

(** X5: once the credentials are resolved and the message is composed, the
    SMTP traffic of [send_email] is settled by the serialiser and the
    server.  When the serialiser refuses the message, line 154 raises its
    error and no connection is opened.  When it accepts it, the traffic is
    one session with [smtp.gmail.com] on port 587 that goes as far as the
    server lets it: STARTTLS, then the login, then one [sendmail], then
    QUIT.  The credentials are sent only after STARTTLS has succeeded, and
    they are those of the secrets file. *)
Theorem X5_one_session_in_order (r : list string) (s b : string) (sf : Path)
    (ut pt : string) (lf : LogFile) (h : bool) (a : option (list Path))
    (w : World) (u p : string) (w1 : World) (m : MIMEMultipart) (w2 : World) :
  get_secrets sf ut pt lf w = (Returned (u, p), w1) ->
  compose_message (CustomLogger_init lf) u (effective_recipients r u) s b h a w1
  = (Returned m, w2) ->
  network (snd (send_email r s b sf ut pt lf h a w))
  = network w
    ++ match as_string_raises (host w) m with
       | Some _ => []
       | None =>
           session_trace (server (host w)) u p (effective_recipients r u)
             (as_string (host w) m)
       end
  /\ (forall d,
        as_string_raises (host w) m = Some d ->
        fst (send_email r s b sf ut pt lf h a w) = Raised (MessageError d))
  /\ (forall user password,
        Login user password
        ∈ session_trace (server (host w)) u p (effective_recipients r u)
            (as_string (host w) m) ->
        on_starttls (server (host w)) = None /\ user = u /\ password = p).
Proof.
  intros Hg Hc.
  destruct (resolved_frame _ _ _ _ _ _ _ _ _ _ _ _ _ _ _ _ _ Hg Hc) as [Hh Hn].
  split; [|split].
  - destruct (as_string_raises (host w) m) as [d|] eqn:Hser.
    + rewrite (send_email_refused _ _ _ _ _ _ _ _ _ _ _ _ _ _ _ _ Hg Hc Hser).
      cbn [snd]. by rewrite app_nil_r.
    + rewrite (send_email_serialised _ _ _ _ _ _ _ _ _ _ _ _ _ _ _ Hg Hc Hser).
      destruct (submit_unfold u p (effective_recipients r u)
                  (as_string (host w) m) w2) as (Ht & _ & _).
      rewrite Hh, Hn in Ht. unfold bind.
      destruct (submit _ _ _ _ w2) as [[[]|e] w3]; cbn [snd] in *; [|done].
      unfold info. by rewrite log_call_network.
  - intros d Hser.
    by rewrite (send_email_refused _ _ _ _ _ _ _ _ _ _ _ _ _ _ _ _ Hg Hc Hser).
  - intros user password. unfold session_trace.
    destruct (on_connect _ _ _); [|destruct (on_starttls _);
                                   [|destruct (on_login _ _ _)]];
      intros Hin;
      repeat (apply elem_of_cons in Hin as [Hin|Hin];
              [try discriminate Hin; try (injection Hin as -> ->; done)|]);
      by apply elem_of_nil in Hin.
Qed.

Lemma X5_one_session_in_order_witness :
  network (snd (send_email ["DEBUG"] "Hi" "Body" secrets_txt "gmail_username"
                  "gmail_password" to_stdout false None refused_world))
  = network refused_world
    ++ [Connect "smtp.gmail.com" 587; StartTLS;
        Login "alice@example.com" "s3cr3t"; Quit].
Proof.
  refine (proj1 (X5_one_session_in_order ["DEBUG"] "Hi" "Body" secrets_txt
                   "gmail_username" "gmail_password" to_stdout false None
                   refused_world "alice@example.com" "s3cr3t"
                   (snd (get_secrets secrets_txt "gmail_username"
                           "gmail_password" to_stdout refused_world))
                   (mkMultipart
                      [("MIME-Version", "1.0"); ("From", "alice@example.com");
                       ("To", "alice@example.com"); ("Subject", "Hi")]
                      [MIMEText "Body" "plain"])
                   (snd (compose_message (CustomLogger_init to_stdout)
                           "alice@example.com" ["alice@example.com"] "Hi" "Body"
                           false None
                           (snd (get_secrets secrets_txt "gmail_username"
                                   "gmail_password" to_stdout refused_world))))
                   _ _)).
  - vm_compute. reflexivity.
  - vm_compute. reflexivity.
Defined.

(** X6: once the message is composed, [send_email] returns exactly when the
    serialiser accepts the message and the server accepts every call of the
    session, QUIT included; every failure from there on is the error of the
    serialiser, raised before any connection, or a transport error, and it
    goes to the caller without a retry; and the line
    [Email sent successfully!] is logged exactly when the call returns. *)
Theorem X6_success_means_accepted (r : list string) (s b : string) (sf : Path)
    (ut pt : string) (lf : LogFile) (h : bool) (a : option (list Path))
    (w : World) (u p : string) (w1 : World) (m : MIMEMultipart) (w2 : World) :
  get_secrets sf ut pt lf w = (Returned (u, p), w1) ->
  compose_message (CustomLogger_init lf) u (effective_recipients r u) s b h a w1
  = (Returned m, w2) ->
  (fst (send_email r s b sf ut pt lf h a w) = Returned tt
   <-> as_string_raises (host w) m = None
       /\ accepts_all (server (host w)) u p (effective_recipients r u)
            (as_string (host w) m))
  /\ (forall e, fst (send_email r s b sf ut pt lf h a w) = Raised e ->
                (exists d, e = MessageError d
                           /\ as_string_raises (host w) m = Some d)
                \/ (exists d, e = TransportError d
                              /\ as_string_raises (host w) m = None))
  /\ log_text lf (snd (send_email r s b sf ut pt lf h a w))
     = log_text lf w2
       +:+ match fst (send_email r s b sf ut pt lf h a w) with
           | Returned _ =>
               log_output (clock (host w) (ticks w2)) "INFO" "send_email" 162
                 "Email sent successfully!"
           | Raised _ => EmptyString
           end.
Proof.
  intros Hg Hc.
  destruct (resolved_frame _ _ _ _ _ _ _ _ _ _ _ _ _ _ _ _ _ Hg Hc) as [Hh Hn].
  destruct (as_string_raises (host w) m) as [d0|] eqn:Hser.
  { rewrite (send_email_refused _ _ _ _ _ _ _ _ _ _ _ _ _ _ _ _ Hg Hc Hser).
    cbn [fst snd]. split; [split; [done|by intros [[=] _]]|].
    split; [|by rewrite append_empty_r].
    intros e [= <-]. left. by exists d0. }
  rewrite (send_email_serialised _ _ _ _ _ _ _ _ _ _ _ _ _ _ _ Hg Hc Hser).
  destruct (submit_unfold u p (effective_recipients r u)
              (as_string (host w) m) w2) as (_ & Hok & Herr).
  rewrite Hh in Hok.
  assert (Hk : log_text lf (snd (submit u p (effective_recipients r u)
                                   (as_string (host w) m) w2)) = log_text lf w2
               /\ ticks (snd (submit u p (effective_recipients r u)
                                (as_string (host w) m) w2)) = ticks w2
               /\ host (snd (submit u p (effective_recipients r u)
                               (as_string (host w) m) w2)) = host w2).
  { split; [|split]; by apply keeps_submit. }
  destruct Hk as (Hlog & Htk & Hho).
  unfold bind.
  destruct (submit _ _ _ _ w2) as [[[]|e] w3]; cbn [fst snd] in *.
  - unfold info. rewrite (log_call_returns _ _ _ _ _ w3). cbn [fst snd].
    split; [split; [intros _; split; [done|by apply Hok]|done]|].
    split; [done|].
    by rewrite log_text_log_call, Hlog, Htk, Hho, Hh.
  - split.
    { split; [done|]. intros [_ Ha]. by apply Hok in Ha. }
    split.
    + intros e' [= <-]. right. destruct (Herr e eq_refl) as [d ->]. by exists d.
    + by rewrite append_empty_r.
Qed.

Lemma X6_success_means_accepted_witness :
  fst (send_email ["DEBUG"] "Hi" "Body" secrets_txt "gmail_username"
         "gmail_password" to_stdout false None alice_world)
  = Returned tt.
Proof.
  refine (proj2 (proj1 (X6_success_means_accepted ["DEBUG"] "Hi" "Body"
                   secrets_txt "gmail_username" "gmail_password" to_stdout
                   false None alice_world "alice@example.com" "s3cr3t"
                   alice_resolved
                   (mkMultipart
                      [("MIME-Version", "1.0"); ("From", "alice@example.com");
                       ("To", "alice@example.com"); ("Subject", "Hi")]
                      [MIMEText "Body" "plain"])
                   (snd (compose_message (CustomLogger_init to_stdout)
                           "alice@example.com" ["alice@example.com"] "Hi" "Body"
                           false None alice_resolved))
                   _ _)) _).
  - vm_compute. reflexivity.
  - vm_compute. reflexivity.
  - split; [reflexivity|]. repeat split.
Defined.

(** ** Attachments that cannot be read *)

(** The loop over the attachments when one of them names no file and is
    not the log file: it stops at the first path that names no file when
    its turn comes, and that path named none at the start either. *)
Lemma attach_files_missing lf atts :
  forall m w a,
    a ∈ atts -> files w !! a = None -> logs_elsewhere lf a ->
    exists a' w',
      attach_files (CustomLogger_init lf) atts m w
      = (Raised (FileNotFoundError (Path_str a')), w')
      /\ a' ∈ atts /\ files w !! a' = None /\ network w' = network w.
Proof.
  induction atts as [|x atts IH]; intros m w a Hin Ha He.
  { by apply elem_of_nil in Hin. }
  cbn [attach_files]. unfold bind at 1. rewrite attach_file_unfold. cbv zeta.
  unfold debug. set (w1 := snd (log_call _ _ _ _ _ w)).
  assert (Hmono : forall q, files w1 !! q = None -> files w !! q = None).
  { intros q Hq. destruct (files w !! q) as [c|] eqn:E; [|done].
    assert (Hs : is_Some (files w1 !! q)).
    { subst w1. apply log_call_files_mono. by eexists. }
    rewrite Hq in Hs. by destruct Hs. }
  assert (Ha1 : files w1 !! a = None).
  { subst w1. by rewrite log_call_files_elsewhere. }
  destruct (files w1 !! x) as [data|] eqn:Hx.
  - apply elem_of_cons in Hin as [->|Hin]; [congruence|].
    destruct (IH (attach (attachment_part x data) m) w1 a Hin Ha1 He)
      as (a' & w' & Hr & Hin' & Hn' & Hnet).
    exists a', w'. split; [done|].
    split; [by apply list_elem_of_further|]. split; [by apply Hmono|].
    rewrite Hnet. apply log_call_network.
  - exists x, w1. split; [done|]. split; [apply list_elem_of_here|].
    split; [by apply Hmono|]. apply log_call_network.
Qed.

(** X7: when one of the attachment paths does not exist, and the log does
    not go to that path, [send_email] fails and opens no SMTP connection:
    nothing is sent, not even to some of the recipients, whatever the other
    attachments are and wherever in the list the missing one stands. *)
Theorem X7_missing_attachment_aborts (r : list string) (s b : string)
    (sf : Path) (ut pt : string) (lf : LogFile) (h : bool)
    (atts : list Path) (a : Path) (w : World) :
  a ∈ atts ->
  files w !! a = None ->
  logs_elsewhere lf a ->
  exists e w',
    send_email r s b sf ut pt lf h (Some atts) w = (Raised e, w')
    /\ network w' = network w.
Proof.
  intros Hin Ha He.
  pose proof (keeps_network_get_secrets sf ut pt lf w) as Hk1.
  pose proof (keeps_file_at_get_secrets sf ut pt lf a He w) as Hk2.
  unfold file_at in Hk2.
  destruct (get_secrets sf ut pt lf w) as [[[u p]|e1] w1] eqn:Hg;
    cbn [snd] in Hk1, Hk2.
  2: { exists e1, w1.
       by rewrite (send_email_secrets_raise _ _ _ _ _ _ _ _ _ _ _ _ Hg). }
  rewrite (send_email_unfold _ _ _ _ _ _ _ _ _ _ _ _ _ Hg).
  unfold compose_message, info. cbv zeta. unfold bind at 1.
  rewrite log_call_returns. set (w2 := snd (log_call _ _ _ _ _ w1)).
  destruct (attach_files_missing lf atts
              (attach (if h then MIMEText b "html" else MIMEText b "plain")
                 (set_header "Subject" s
                    (set_header "To" (str_join ", " (effective_recipients r u))
                       (set_header "From" u MIMEMultipart_new)))) w2 a Hin)
    as (a' & w' & Hr & _ & _ & Hnet); [|done|].
  { subst w2. rewrite log_call_files_elsewhere by done. congruence. }
  exists (FileNotFoundError (Path_str a')), w'. split.
  - destruct h; by rewrite Hr.
  - rewrite Hnet. subst w2. rewrite log_call_network. congruence.
Qed.

Lemma X7_missing_attachment_aborts_witness :
  exists e w',
    send_email ["bob@example.com"] "Hi" "Body" secrets_txt "gmail_username"
      "gmail_password" to_stdout false
      (Some [report_txt; Path_of_str "missing.pdf"]) report_world
    = (Raised e, w')
    /\ network w' = network report_world.
Proof.
  refine (X7_missing_attachment_aborts ["bob@example.com"] "Hi" "Body"
            secrets_txt "gmail_username" "gmail_password" to_stdout false
            [report_txt; Path_of_str "missing.pdf"] (Path_of_str "missing.pdf")
            report_world _ _ _).
  - apply list_elem_of_In. cbn. tauto.
  - vm_compute. reflexivity.
  - left. reflexivity.
Defined.

(** ** The strings that the parsers hand out *)

Lemma isspace_LF : isspace LF = true.
Proof. reflexivity. Qed.

Lemma lstrip_head (s : string) :
  match str_lstrip s with
  | EmptyString => True
  | String c _ => isspace c = false
  end.
Proof.
  induction s as [|c s IH]; cbn [str_lstrip]; [done|].
  destruct (isspace c) eqn:E; [done|exact E].
Qed.

Lemma rstrip_rstrip (s : string) : str_rstrip (str_rstrip s) = str_rstrip s.
Proof.
  induction s as [|c s IH]; [done|]. cbn [str_rstrip].
  destruct (str_rstrip s) as [|d r] eqn:E.
  - destruct (isspace c) eqn:Ec; [done|]. cbn [str_rstrip]. by rewrite Ec.
  - cbn [str_rstrip]. cbn [str_rstrip] in IH. by rewrite IH.
Qed.

Lemma rstrip_head (c : ascii) (s : string) :
  isspace c = false -> exists r, str_rstrip (String c s) = String c r.
Proof.
  intros Hc. cbn [str_rstrip]. destruct (str_rstrip s).
  - rewrite Hc. by eexists.
  - by eexists.
Qed.

(** [strip] leaves nothing to strip. *)
Lemma strip_strip (s : string) : str_strip (str_strip s) = str_strip s.
Proof.
  unfold str_strip. pose proof (lstrip_head s) as H.
  destruct (str_lstrip s) as [|c t] eqn:E; [done|].
  destruct (rstrip_head c t H) as [r Hr]. rewrite Hr.
  cbn [str_lstrip]. rewrite H, <- Hr. apply rstrip_rstrip.
Qed.

Lemma newline_only_last_lstrip (s : string) :
  newline_only_last s -> newline_only_last (str_lstrip s).
Proof.
  induction s as [|c s IH]; [done|]. intros [H1 H2]. cbn [str_lstrip].
  destruct (isspace c); [by apply IH|by split].
Qed.

Lemma newline_only_last_partition (sep : ascii) (s : string) :
  newline_only_last s -> newline_only_last (snd (str_partition sep s)).
Proof.
  induction s as [|c s IH]; [done|]. intros [H1 H2]. cbn [str_partition].
  destruct (Ascii.eqb c sep); [done|].
  specialize (IH H2). by destruct (str_partition sep s) as [[x y] z].
Qed.

Lemma no_newline_rstrip (s : string) :
  newline_only_last s -> no_newline (str_rstrip s).
Proof.
  unfold no_newline. induction s as [|c s IH]; [constructor|].
  intros [H1 H2]. specialize (IH H2). cbn [str_rstrip].
  destruct (Ascii.eqb_spec c LF) as [->|Hc].
  - rewrite (H1 eq_refl). cbn. constructor.
  - destruct (str_rstrip s) as [|d r].
    + destruct (isspace c); cbn; repeat constructor; done.
    + cbn [list_ascii_of_string] in *. by constructor.
Qed.

Lemma no_newline_strip (s : string) :
  newline_only_last s -> no_newline (str_strip s).
Proof. intros H. by apply no_newline_rstrip, newline_only_last_lstrip. Qed.

Lemma file_lines_shape (text : string) :
  Forall newline_only_last (file_lines text).
Proof.
  induction text as [|c s IH]; [constructor|]. cbn [file_lines].
  destruct (Ascii.eqb_spec c LF) as [->|Hc].
  - constructor; [by split|done].
  - destruct (file_lines s) as [|l ls].
    + constructor; [by split|done].
    + apply Forall_cons in IH as [Hl Hls]. constructor; [|done].
      split; [done|exact Hl].
Qed.

Lemma readline_shape (text : string) : newline_only_last (fst (readline text)).
Proof.
  induction text as [|c s IH]; [done|]. rewrite readline_cons.
  destruct (Ascii.eqb_spec c LF) as [->|Hc]; [by split|].
  destruct (readline s) as [l rest]. cbn [fst] in *. by split.
Qed.

Lemma tag_value_clean (tag text : string) :
  str_strip (tag_value tag text) = tag_value tag text
  /\ no_newline (tag_value tag text).
Proof.
  unfold tag_value, matching_lines.
  destruct (last _) as [l|] eqn:E; cbn [from_option]; [|by split; [|constructor]].
  split; [apply strip_strip|].
  apply no_newline_strip, newline_only_last_partition.
  apply last_Some_elem_of, list_elem_of_filter in E as [_ Hin].
  pose proof (file_lines_shape (universal_newlines text)) as H.
  rewrite Forall_forall in H. by apply H.
Qed.

(** X8: the username and the password that [get_secrets] returns carry no
    surrounding whitespace and no newline character: stripping them again
    changes nothing, and the line terminator of the secrets file is never
    part of a credential. *)
Theorem X8_credentials_are_clean (sf : Path) (ut pt : string) (lf : LogFile)
    (w : World) (u p : string) (w' : World) :
  get_secrets sf ut pt lf w = (Returned (u, p), w') ->
  str_strip u = u /\ str_strip p = p /\ no_newline u /\ no_newline p.
Proof.
  intros H.
  destruct (files (at_check sf ut lf w) !! sf) as [text|] eqn:Hf.
  - destruct (get_secrets_returned _ _ _ _ _ _ _ _ _ Hf H) as (-> & -> & _ & _).
    destruct (tag_value_clean ut text), (tag_value_clean pt text). done.
  - rewrite get_secrets_unfold in H. cbv zeta in H. by rewrite Hf in H.
Qed.

Lemma X8_credentials_are_clean_witness :
  str_strip "alice@example.com" = "alice@example.com"
  /\ str_strip "s3cr3t" = "s3cr3t"
  /\ no_newline "alice@example.com" /\ no_newline "s3cr3t".
Proof.
  refine (X8_credentials_are_clean secrets_txt "gmail_username" "gmail_password"
            to_stdout alice_world "alice@example.com" "s3cr3t" alice_resolved _).
  vm_compute. reflexivity.
Defined.

Lemma readline_concat (s : string) : fst (readline s) +:+ snd (readline s) = s.
Proof.
  induction s as [|c s IH]; [done|]. rewrite readline_cons.
  destruct (Ascii.eqb c LF); [done|].
  destruct (readline s) as [l rest]. cbn [fst snd] in *.
  change (String c (l +:+ rest) = String c s). by rewrite IH.
Qed.

Lemma join_cons (sep x : string) (y : string) (l : list string) :
  str_join sep (x :: y :: l) = x +:+ sep +:+ str_join sep (y :: l).
Proof. reflexivity. Qed.

(** Joining what [split] has cut gives the text back. *)
Lemma join_split (sep : ascii) (s : string) :
  str_join (String sep EmptyString) (str_split sep s) = s.
Proof.
  induction s as [|c s IH]; [done|]. cbn [str_split].
  pose proof (split_nonempty sep s) as Hne.
  destruct (Ascii.eqb_spec c sep) as [->|Hc].
  - destruct (str_split sep s) as [|x l]; [done|].
    rewrite join_cons, IH. reflexivity.
  - destruct (str_split sep s) as [|x l]; [done|].
    destruct l as [|y l].
    + cbn [str_join] in *. by rewrite IH.
    + rewrite join_cons in *.
      change (String c (x +:+ String sep EmptyString +:+ str_join
                          (String sep EmptyString) (y :: l)) = String c s).
      by rewrite IH.
Qed.

Lemma split_chars (P : ascii -> Prop) (sep : ascii) (s : string) :
  Forall P (list_ascii_of_string s) ->
  Forall (fun r => Forall P (list_ascii_of_string r)) (str_split sep s).
Proof.
  induction s as [|c s IH]; intros H.
  - repeat constructor.
  - cbn [list_ascii_of_string] in H. apply Forall_cons in H as [Hc Hs].
    specialize (IH Hs). cbn [str_split].
    destruct (Ascii.eqb c sep); [constructor; [constructor|done]|].
    destruct (str_split sep s) as [|x l]; [repeat constructor; done|].
    apply Forall_cons in IH as [Hx Hl]. constructor; [|done].
    cbn [list_ascii_of_string]. by constructor.
Qed.

Lemma split_without (sep : ascii) (s : string) :
  Forall (without sep) (str_split sep s).
Proof.
  unfold without. induction s as [|c s IH]; [repeat constructor|].
  cbn [str_split]. destruct (Ascii.eqb_spec c sep) as [->|Hc].
  - constructor; [constructor|done].
  - destruct (str_split sep s) as [|x l]; [repeat constructor; done|].
    apply Forall_cons in IH as [Hx Hl]. constructor; [|done].
    cbn [list_ascii_of_string]. by constructor.
Qed.

Lemma readline_cases (t : string) :
  (exists l0, fst (readline t) = l0 +:+ nl /\ no_newline l0)
  \/ (snd (readline t) = EmptyString /\ no_newline (fst (readline t))).
Proof.
  induction t as [|c t IH]; [right; split; [done|constructor]|].
  rewrite readline_cons. destruct (Ascii.eqb_spec c LF) as [->|Hc].
  - left. exists EmptyString. split; [done|constructor].
  - destruct (readline t) as [l rest]. cbn [fst snd] in *.
    destruct IH as [(l0 & -> & H0)|[-> H0]].
    + left. exists (String c l0). split; [done|]. by constructor.
    + right. split; [done|]. by constructor.
Qed.

Lemma readline_first_line (t : string) : first_line (fst (readline t)) t.
Proof.
  exists (snd (readline t)). split; [by rewrite readline_concat|].
  apply readline_cases.
Qed.

Lemma read_message_file_returned lg file w rc subj body w' :
  read_message_file lg file w = (Returned (rc, subj, body), w') ->
  exists stored,
    files w !! file = Some stored
    /\ rc = str_split ","%char
              (str_strip (fst (readline (universal_newlines stored))))
    /\ subj = str_strip
                (fst (readline (snd (readline (universal_newlines stored)))))
    /\ body = snd (readline (snd (readline (universal_newlines stored))))
    /\ w' = w.
Proof.
  destruct (files w !! file) as [stored|] eqn:Hf.
  - rewrite (read_message_file_unfold _ _ _ _ Hf). cbv zeta.
    destruct (String.eqb _ _); [done|]. intros [= <- <- <- <-].
    by exists stored.
  - unfold read_message_file. unfold bind at 1, isfile at 1.
    rewrite bool_decide_eq_false_2 by (by rewrite Hf; intros [? ?]).
    cbn [negb]. unfold bind, error. by rewrite log_call_returns.
Qed.

(** X9: the front end loses nothing of a message file that it accepts.  Of
    the text of the file (what it holds, with the line endings read as
    [\n]) it takes the first line, then the first line of what is left,
    then the rest as the body: put end to end they are that text.  The
    recipients, joined with commas again, are the stripped first line (the
    entries themselves are not stripped), and the subject is the stripped
    second line. *)
Theorem X9_message_file_is_cut_without_loss (lg : CustomLogger) (file : Path)
    (w : World) (rc : list string) (subj body : string) (w' : World) :
  read_message_file lg file w = (Returned (rc, subj, body), w') ->
  exists stored line1 line2,
    files w !! file = Some stored
    /\ universal_newlines stored = line1 +:+ line2 +:+ body
    /\ first_line line1 (universal_newlines stored)
    /\ first_line line2 (line2 +:+ body)
    /\ str_join "," rc = str_strip line1
    /\ subj = str_strip line2.
Proof.
  intros H. apply read_message_file_returned in H
    as (stored & Hf & -> & -> & -> & _).
  set (text := universal_newlines stored).
  exists stored, (fst (readline text)), (fst (readline (snd (readline text)))).
  split; [done|]. rewrite !readline_concat.
  split; [done|]. split; [apply readline_first_line|].
  split; [apply readline_first_line|]. split; [apply join_split|done].
Qed.

Lemma X9_message_file_is_cut_without_loss_witness :
  exists stored line1 line2,
    files (sample_world {[message_txt := crlf_text]}) !! message_txt
    = Some stored
    /\ universal_newlines stored
       = line1 +:+ line2 +:+ ("Body line 1" +:+ nl +:+ "Body line 2" +:+ nl)
    /\ first_line line1 (universal_newlines stored)
    /\ first_line line2
         (line2 +:+ ("Body line 1" +:+ nl +:+ "Body line 2" +:+ nl))
    /\ str_join "," ["bob@example.com"; "carol@example.com"] = str_strip line1
    /\ "Hello" = str_strip line2.
Proof.
  refine (X9_message_file_is_cut_without_loss (CustomLogger_init to_stdout)
            message_txt (sample_world {[message_txt := crlf_text]})
            ["bob@example.com"; "carol@example.com"] "Hello"
            ("Body line 1" +:+ nl +:+ "Body line 2" +:+ nl)
            (sample_world {[message_txt := crlf_text]}) _).
  vm_compute. reflexivity.
Defined.

(** X10: what the front end reads from a message file cannot break out of
    its header: no recipient contains a comma or a newline, the first
    recipient is not empty, and the subject has no newline and no
    surrounding whitespace. *)
Theorem X10_message_file_fields_are_clean (lg : CustomLogger) (file : Path)
    (w : World) (rc : list string) (subj body : string) (w' : World) :
  read_message_file lg file w = (Returned (rc, subj, body), w') ->
  Forall (fun r => without ","%char r /\ no_newline r) rc
  /\ hd EmptyString rc <> EmptyString
  /\ no_newline subj
  /\ str_strip subj = subj.
Proof.
  intros H.
  assert (Hhd : hd EmptyString rc <> EmptyString).
  { destruct (files w !! file) as [text|] eqn:Hf.
    - rewrite (read_message_file_unfold _ _ _ _ Hf) in H. cbv zeta in H.
      destruct (String.eqb _ _) eqn:E; [done|].
      apply String.eqb_neq in E. by injection H as <- _ _ _.
    - apply read_message_file_returned in H as (text & Hf' & _). congruence. }
  apply read_message_file_returned in H as (text & Hf & -> & -> & -> & _).
  split; [|split; [done|split; [|apply strip_strip]]].
  - apply Forall_and. split; [apply split_without|].
    apply (split_chars (fun c => c <> LF)).
    apply no_newline_strip, readline_shape.
  - apply no_newline_strip, readline_shape.
Qed.

Lemma X10_message_file_fields_are_clean_witness :
  Forall (fun r => without ","%char r /\ no_newline r)
    ["bob@example.com"; "carol@example.com"]
  /\ hd EmptyString ["bob@example.com"; "carol@example.com"] <> EmptyString
  /\ no_newline "Hello"
  /\ str_strip "Hello" = "Hello".
Proof.
  refine (X10_message_file_fields_are_clean (CustomLogger_init to_stdout)
            message_txt (sample_world {[message_txt := scenario_text]})
            ["bob@example.com"; "carol@example.com"] "Hello"
            ("Body line 1" +:+ nl +:+ "Body line 2" +:+ nl)
            (sample_world {[message_txt := scenario_text]}) _).
  vm_compute. reflexivity.
Defined.

(** ** Failures before the first SMTP call *)

(** The traffic of [send_email]: none, or one session for the credentials
    that [get_secrets] resolved and the message that was composed and
    serialised. *)
Lemma send_email_network r s b sf ut pt lf h a w :
  network (snd (send_email r s b sf ut pt lf h a w)) = network w
  \/ exists u p w1 m w2,
       get_secrets sf ut pt lf w = (Returned (u, p), w1)
       /\ compose_message (CustomLogger_init lf) u (effective_recipients r u)
            s b h a w1 = (Returned m, w2)
       /\ as_string_raises (host w) m = None
       /\ network (snd (send_email r s b sf ut pt lf h a w))
          = network w ++ session_trace (server (host w)) u p
                           (effective_recipients r u) (as_string (host w) m).
Proof.
  pose proof (keeps_network_get_secrets sf ut pt lf w) as Hk1.
  destruct (get_secrets sf ut pt lf w) as [[[u p]|e] w1] eqn:Hg; cbn [snd] in Hk1.
  - pose proof (keeps_compose_message network lf u (effective_recipients r u)
                  s b h a (log_blind_network lf) w1) as Hk2.
    destruct (compose_message (CustomLogger_init lf) u (effective_recipients r u)
                s b h a w1) as [[m|e] w2] eqn:Hc; cbn [snd] in Hk2.
    + destruct (as_string_raises (host w) m) as [d|] eqn:Hser.
      { left.
        rewrite (send_email_refused _ _ _ _ _ _ _ _ _ _ _ _ _ _ _ _ Hg Hc Hser).
        cbn [snd]. congruence. }
      right. exists u, p, w1, m, w2. split; [done|]. split; [done|].
      split; [done|].
      rewrite (send_email_serialised _ _ _ _ _ _ _ _ _ _ _ _ _ _ _ Hg Hc Hser).
      destruct (resolved_frame _ _ _ _ _ _ _ _ _ _ _ _ _ _ _ _ _ Hg Hc) as [Hh Hn].
      destruct (submit_unfold u p (effective_recipients r u)
                  (as_string (host w) m) w2) as (Ht & _ & _).
      rewrite Hh, Hn in Ht. unfold bind.
      destruct (submit _ _ _ _ w2) as [[[]|e] w3]; cbn [snd] in *; [|done].
      unfold info. by rewrite log_call_network.
    + left. rewrite (send_email_unfold _ _ _ _ _ _ _ _ _ _ _ _ _ Hg), Hc.
      cbn [snd]. congruence.
  - left. by rewrite (send_email_secrets_raise _ _ _ _ _ _ _ _ _ _ _ _ Hg).
Qed.

Lemma send_email_local_failure r s b sf ut pt lf h a w e w' :
  send_email r s b sf ut pt lf h a w = (Raised e, w') ->
  (forall d, e <> TransportError d) ->
  network w' = network w.
Proof.
  intros Hs He.
  pose proof (keeps_network_get_secrets sf ut pt lf w) as Hk1.
  destruct (get_secrets sf ut pt lf w) as [[[u p]|e1] w1] eqn:Hg; cbn [snd] in Hk1.
  - rewrite (send_email_unfold _ _ _ _ _ _ _ _ _ _ _ _ _ Hg) in Hs.
    pose proof (keeps_compose_message network lf u (effective_recipients r u)
                  s b h a (log_blind_network lf) w1) as Hk2.
    destruct (compose_message (CustomLogger_init lf) u (effective_recipients r u)
                s b h a w1) as [[m|e2] w2] eqn:Hc; cbn [snd] in Hk2.
    + destruct (as_string_raises (host w2) m) as [d0|].
      { injection Hs as <- <-. congruence. }
      destruct (submit_unfold u p (effective_recipients r u)
                  (as_string (host w2) m) w2) as (_ & _ & Herr).
      destruct (submit _ _ _ _ w2) as [[[]|e3] w3]; cbn [fst] in Herr.
      * unfold info in Hs. by rewrite log_call_returns in Hs.
      * injection Hs as <- <-. destruct (Herr e3 eq_refl) as [d ->].
        by destruct (He d).
    + injection Hs as <- <-. congruence.
  - rewrite (send_email_secrets_raise _ _ _ _ _ _ _ _ _ _ _ _ Hg) in Hs.
    injection Hs as <- <-. done.
Qed.

(** The exits of [test_send_email]: it returns, or it stops at line 198
    because [test.txt] is already there. *)
Lemma test_send_email_exits args sf ut pt lf ia w :
  (exists w', test_send_email args sf ut pt lf ia w = (Returned tt, w'))
  \/ (ia = true /\ is_Some (files (test_entry lf w) !! test_txt)
      /\ test_send_email args sf ut pt lf ia w
         = (Raised (FileExistsError (Path_str test_txt)), test_entry lf w)).
Proof.
  set (lg := CustomLogger_init lf). set (w1 := test_entry lf w).
  destruct ia.
  - rewrite test_send_email_attached. fold lg w1.
    unfold bind at 1. unfold bind at 1. unfold create_file at 1.
    destruct (files w1 !! test_txt) as [c|] eqn:Ht.
    { right. split; [done|]. split; [by eexists|].
      unfold bind, create_file. by rewrite Ht. }
    left. unfold bind at 1, read_file at 1. cbn [files with_files].
    rewrite lookup_insert_eq. unfold try_finally.
    destruct (guarded_call lg 214 _
                (with_files (<[test_txt := "This is a test attachment." +:+ nl]>
                               (files w1)) w1)
                (tame_send_email ["DEBUG"] "Test Email" "This is a test." sf
                   ut pt lf false (Some [test_txt])))
      as (w3 & H & Hm & _).
    rewrite H. unfold remove.
    destruct (Hm test_txt) as [c Hc].
    { cbn [files with_files]. rewrite lookup_insert_eq. by eexists. }
    rewrite Hc. unfold info. rewrite log_call_returns. by eexists.
  - left. rewrite test_send_email_plain. fold lg w1.
    destruct (guarded_call lg 232 _ w1 (tame_inner_call args ut pt lf))
      as (w3 & H & _ & _).
    unfold bind at 1. rewrite H. unfold info. rewrite log_call_returns.
    by eexists.
Qed.

Lemma test_entry_network lf w : network (test_entry lf w) = network w.
Proof. unfold test_entry, info. by rewrite !log_call_network. Qed.

Lemma test_entry_host lf w : host (test_entry lf w) = host w.
Proof. unfold test_entry, info. by rewrite !log_call_host. Qed.

(** X11: a run of the script that ends in an error other than a transport
    error has sent nothing: the usage error, a missing or empty message
    file, a missing secrets file or tag, a missing attachment and an
    existing [test.txt] all stop the run before the SMTP connection is
    opened. *)
Theorem X11_local_failures_send_nothing (args : Namespace) (w : World)
    (e : Exn) (w' : World) :
  main args w = (Raised e, w') ->
  (forall d, e <> TransportError d) ->
  network w' = network w.
Proof.
  intros Hm He. destruct args as [file rc s b a sf ut pt lfs|sf ut pt ia lfs].
  - unfold main in Hm. cbv zeta in Hm.
    set (lf := main_log_file _) in *. unfold info in Hm.
    unfold bind at 1 in Hm. rewrite log_call_returns in Hm.
    set (w1 := snd (log_call _ _ _ _ _ w)) in Hm.
    assert (H1 : network w1 = network w) by apply log_call_network.
    match type of Hm with
    | bind ?m _ w1 = _ => set (step := m) in *
    end.
    assert (Hk : keeps network step).
    { subst step. destruct file as [f|];
        [apply keeps_read_message_file, log_blind_network|].
      destruct rc as [[|x l]|]; keeps_auto. }
    specialize (Hk w1). unfold bind at 1 in Hm.
    destruct (step w1) as [[[[rc' s'] b']|e1] w2]; cbn [snd] in Hk.
    + unfold bind at 1 in Hm.
      destruct (send_email rc' s' b' sf "gmail_username" "gmail_password" lf
                  false a w2) as [[[]|e2] w3] eqn:Hs.
      * by rewrite log_call_returns in Hm.
      * injection Hm as <- <-.
        rewrite (send_email_local_failure _ _ _ _ _ _ _ _ _ _ _ _ Hs He).
        congruence.
    + injection Hm as <- <-. congruence.
  - unfold main in Hm. cbv zeta in Hm.
    destruct (test_send_email_exits
                (Some (TestArgs sf ut pt ia lfs)) sf ut pt
                (main_log_file (TestArgs sf ut pt ia lfs)) ia w)
      as [[w3 H]|(_ & _ & H)]; rewrite H in Hm; [done|].
    injection Hm as <- <-. apply test_entry_network.
Qed.

Lemma X11_local_failures_send_nothing_witness :
  network
    (snd (main (MessageArgs None (Some ["bob@example.com"]) "Hi" "Body"
                  (Some [Path_of_str "missing.pdf"]) secrets_txt
                  "gmail_username" "gmail_password" "stdout") alice_world))
  = network alice_world.
Proof.
  refine (X11_local_failures_send_nothing
            (MessageArgs None (Some ["bob@example.com"]) "Hi" "Body"
               (Some [Path_of_str "missing.pdf"]) secrets_txt
               "gmail_username" "gmail_password" "stdout")
            alice_world (FileNotFoundError "missing.pdf") _ _ _).
  - vm_compute. reflexivity.
  - intros d. discriminate.
Defined.

(** ** The attachment of test mode *)

Lemma bind_keeps_after {A B X} (obs : World -> X) (m : Py A) (k : A -> Py B) w :
  (forall a, keeps obs (k a)) -> obs (snd (bind m k w)) = obs (snd (m w)).
Proof.
  intros Hk. unfold bind. destruct (m w) as [[a|e] w1]; [|done]. apply Hk.
Qed.

Lemma try_except_keeps_after {A X} (obs : World -> X) (body : Py A) handler w :
  (forall e, keeps obs (handler e)) ->
  obs (snd (try_except body handler w)) = obs (snd (body w)).
Proof.
  intros Hh. unfold try_except. destruct (body w) as [[a|e] w1]; [done|].
  destruct (is_Exception e); [|done]. apply Hh.
Qed.

Lemma try_finally_keeps_after {A X} (obs : World -> X) (body : Py A) cleanup w :
  keeps obs cleanup ->
  obs (snd (try_finally body cleanup w)) = obs (snd (body w)).
Proof.
  intros Hc. unfold try_finally. destruct (body w) as [r w1].
  specialize (Hc w1). by destruct (cleanup w1) as [[[]|e] w2].
Qed.

Lemma test_entry_files_elsewhere lf w p :
  logs_elsewhere lf p -> files (test_entry lf w) !! p = files w !! p.
Proof.
  intros H. unfold test_entry, info. by rewrite !log_call_files_elsewhere.
Qed.

(** Line 198 when [test.txt] is there: the run stops with the world that
    the two opening log lines left. *)
Lemma test_send_email_blocked args sf ut pt lf w :
  is_Some (files (test_entry lf w) !! test_txt) ->
  test_send_email args sf ut pt lf true w
  = (Raised (FileExistsError (Path_str test_txt)), test_entry lf w).
Proof.
  intros [c Hc]. rewrite test_send_email_attached.
  unfold bind, create_file. by rewrite Hc.
Qed.

(** Lines 197 to 218 when [test.txt] can be created. *)
Lemma test_send_email_attached_run args sf ut pt lf w :
  files (test_entry lf w) !! test_txt = None ->
  exists w3,
    try_except
      (send_email ["DEBUG"] "Test Email" "This is a test." sf ut pt lf false
         (Some [test_txt]))
      (log_exception (CustomLogger_init lf) 214)
      (with_files (<[test_txt := "This is a test attachment." +:+ nl]>
                     (files (test_entry lf w))) (test_entry lf w))
    = (Returned tt, w3)
    /\ test_send_email args sf ut pt lf true w
       = (Returned tt,
          snd (info (CustomLogger_init lf) "test_send_email" 234
                 "====== TERMINATED ======"
                 (with_files (delete test_txt (files w3)) w3))).
Proof.
  intros Ht. set (lg := CustomLogger_init lf). set (w1 := test_entry lf w) in *.
  destruct (guarded_call lg 214 _
              (with_files (<[test_txt := "This is a test attachment." +:+ nl]>
                             (files w1)) w1)
              (tame_send_email ["DEBUG"] "Test Email" "This is a test." sf
                 ut pt lf false (Some [test_txt])))
    as (w3 & H & Hm & _).
  exists w3. split; [done|].
  rewrite test_send_email_attached. fold lg w1.
  unfold bind at 1. unfold bind at 1. unfold create_file at 1. rewrite Ht.
  unfold bind at 1, read_file at 1. cbn [files with_files].
  rewrite lookup_insert_eq. unfold try_finally. rewrite H. unfold remove.
  destruct (Hm test_txt) as [c Hc].
  { cbn [files with_files]. rewrite lookup_insert_eq. by eexists. }
  rewrite Hc. unfold info. apply log_call_returns.
Qed.

(** X12: the attachment of test mode.  When the log does not go to
    [test.txt] and no such file is there, the run creates it, returns, and
    leaves no [test.txt] behind, whether the send succeeded or not.  When a
    [test.txt] is there already, the run stops with [FileExistsError] before
    anything is sent, and the file keeps its contents: it is neither
    overwritten nor removed.  When the log file itself is [test.txt], the
    opening log lines create it and the run always stops in that way. *)
Theorem X12_test_attachment_life_cycle (args : option Namespace) (sf : Path)
    (ut pt : string) (lf : LogFile) (w : World) :
  (logs_elsewhere lf test_txt -> files w !! test_txt = None ->
   exists w',
     test_send_email args sf ut pt lf true w = (Returned tt, w')
     /\ files w' !! test_txt = None)
  /\ (forall c,
        logs_elsewhere lf test_txt -> files w !! test_txt = Some c ->
        exists w',
          test_send_email args sf ut pt lf true w
          = (Raised (FileExistsError (Path_str test_txt)), w')
          /\ files w' !! test_txt = Some c
          /\ network w' = network w)
  /\ (~ logs_elsewhere lf test_txt ->
      exists w',
        test_send_email args sf ut pt lf true w
        = (Raised (FileExistsError (Path_str test_txt)), w')
        /\ network w' = network w).
Proof.
  split; [|split].
  - intros He Hn.
    destruct (test_send_email_attached_run args sf ut pt lf w) as (w3 & _ & H).
    { by rewrite test_entry_files_elsewhere. }
    eexists. split; [exact H|]. unfold info.
    rewrite log_call_files_elsewhere by done. cbn [files with_files].
    apply lookup_delete_eq.
  - intros c He Hc. exists (test_entry lf w).
    rewrite test_entry_files_elsewhere by done.
    split; [|split; [done|apply test_entry_network]].
    apply test_send_email_blocked. rewrite test_entry_files_elsewhere by done.
    by eexists.
  - intros Hne. exists (test_entry lf w). split; [|apply test_entry_network].
    apply test_send_email_blocked.
    destruct (stdout (CustomLogger_init lf)) eqn:Hs.
    { destruct Hne. by left. }
    destruct (decide (log_path (CustomLogger_init lf) = test_txt)) as [Hp|Hp].
    + unfold test_entry, info.
      rewrite (log_call_unfold _ _ _ _ _
                 (snd (log_call "INFO" (CustomLogger_init lf) "test_send_email"
                         192 "====== INITIALIZING... ======" w))).
      cbv zeta. cbn [snd]. rewrite Hs. cbn [files with_files].
      rewrite Hp, lookup_insert_eq. by eexists.
    + destruct Hne. by right.
Qed.

Lemma X12_test_attachment_life_cycle_witness :
  (exists w',
     test_send_email (Some scenario_args) secrets_txt "gmail_username"
       "gmail_password" to_stdout true alice_world = (Returned tt, w')
     /\ files w' !! test_txt = None)
  /\ (exists w',
        test_send_email (Some scenario_args) secrets_txt "gmail_username"
          "gmail_password" (LogPath test_txt) true alice_world
        = (Raised (FileExistsError (Path_str test_txt)), w')
        /\ network w' = network alice_world).
Proof.
  split.
  - refine (proj1 (X12_test_attachment_life_cycle (Some scenario_args)
                     secrets_txt "gmail_username" "gmail_password" to_stdout
                     alice_world) _ _).
    + left. reflexivity.
    + vm_compute. reflexivity.
  - refine (proj2 (proj2 (X12_test_attachment_life_cycle (Some scenario_args)
                     secrets_txt "gmail_username" "gmail_password"
                     (LogPath test_txt) alice_world)) _).
    intros [H|H]; [discriminate H|]. by apply H.
Defined.

(** ** What test mode sends *)

Lemma session_trace_sendmail srv u p rc text u' rc' text' :
  Sendmail u' rc' text' ∈ session_trace srv u p rc text ->
  u' = u /\ rc' = rc /\ text' = text.
Proof.
  unfold session_trace.
  destruct (on_connect _ _ _); [|destruct (on_starttls _);
                                 [|destruct (on_login _ _ _)]];
    intros Hin;
    repeat (apply elem_of_cons in Hin as [Hin|Hin];
            [try discriminate Hin; try (injection Hin as -> -> ->; done)|]);
    by apply elem_of_nil in Hin.
Qed.

Lemma session_trace_login srv u p rc text u' p' :
  Login u' p' ∈ session_trace srv u p rc text -> u' = u /\ p' = p.
Proof.
  unfold session_trace.
  destruct (on_connect _ _ _); [|destruct (on_starttls _);
                                 [|destruct (on_login _ _ _)]];
    intros Hin;
    repeat (apply elem_of_cons in Hin as [Hin|Hin];
            [try discriminate Hin; try (injection Hin as -> ->; done)|]);
    by apply elem_of_nil in Hin.
Qed.

(** The traffic of [test_send_email] is that of its one call of
    [send_email], made in a world on the same host. *)
Lemma test_send_email_traffic args sf ut pt lf ia w :
  network (snd (test_send_email args sf ut pt lf ia w)) = network w
  \/ exists sf' w0,
       host w0 = host w /\ network w0 = network w
       /\ (ia = true ->
           files w0 !! test_txt = Some ("This is a test attachment." +:+ nl))
       /\ network (snd (test_send_email args sf ut pt lf ia w))
          = network (snd (send_email ["DEBUG"] "Test Email" "This is a test."
                            sf' ut pt lf false
                            (if ia then Some [test_txt] else None) w0)).
Proof.
  set (lg := CustomLogger_init lf). set (w1 := test_entry lf w).
  assert (Hh : forall n e, keeps network (log_exception lg n e)).
  { intros n e w'. rewrite log_exception_unfold. unfold error.
    apply log_call_network. }
  assert (Hi : forall (x : unit),
             keeps network
               (info lg "test_send_email" 234 "====== TERMINATED ======")).
  { intros _ w'. unfold info. apply log_call_network. }
  destruct ia.
  - rewrite test_send_email_attached. fold lg w1.
    rewrite (bind_keeps_after network _ _ w1 Hi).
    destruct (files w1 !! test_txt) as [c|] eqn:Ht.
    + left. unfold bind, create_file. rewrite Ht. apply test_entry_network.
    + right. exists sf.
      exists (with_files (<[test_txt := "This is a test attachment." +:+ nl]>
                            (files w1)) w1).
      split; [apply test_entry_host|]. split; [apply test_entry_network|].
      split; [intros _; cbn [files with_files]; apply lookup_insert_eq|].
      unfold bind at 1, create_file at 1. rewrite Ht.
      unfold bind at 1, read_file at 1. cbn [files with_files].
      rewrite lookup_insert_eq.
      rewrite try_finally_keeps_after by (by apply keeps_remove).
      by rewrite try_except_keeps_after.
  - rewrite test_send_email_plain. fold lg w1.
    rewrite (bind_keeps_after network _ _ w1 Hi).
    rewrite try_except_keeps_after by done.
    destruct args as [a|].
    + right. exists (args_secrets_file a), w1.
      split; [apply test_entry_host|]. split; [apply test_entry_network|].
      split; [done|]. reflexivity.
    + left. apply test_entry_network.
Qed.

(** X13: test mode mails nobody but the account itself.  Every message that
    [test_send_email] hands to the server goes from the resolved user to
    that user alone, with the subject [Test Email] and the plain body
    [This is a test.]; without the attachment option it has no other part,
    and with it (the log going elsewhere) its one attachment is the
    [test.txt] that the run wrote. *)
Theorem X13_test_mode_mails_only_the_sender (args : option Namespace)
    (sf : Path) (ut pt : string) (lf : LogFile) (ia : bool) (w : World)
    (u : string) (rc : list string) (text : string) :
  Sendmail u rc text ∈ network (snd (test_send_email args sf ut pt lf ia w)) ->
  Sendmail u rc text ∈ network w
  \/ (rc = [u]
      /\ exists m parts,
           text = as_string (host w) m
           /\ headers m = [("MIME-Version", "1.0"); ("From", u); ("To", u);
                           ("Subject", "Test Email")]
           /\ attached m = MIMEText "This is a test." "plain" :: parts
           /\ (ia = false -> parts = [])
           /\ (ia = true -> logs_elsewhere lf test_txt ->
               parts = [attachment_part test_txt
                          ("This is a test attachment." +:+ nl)])).
Proof.
  intros Hin.
  destruct (test_send_email_traffic args sf ut pt lf ia w)
    as [Hn|(sf' & w0 & Hh0 & Hn0 & Hf0 & Hn)]; rewrite Hn in Hin; [by left|].
  destruct (send_email_network ["DEBUG"] "Test Email" "This is a test." sf' ut
              pt lf false (if ia then Some [test_txt] else None) w0)
    as [Hs|(u0 & p0 & w1 & m & w2 & Hg & Hc & _ & Hs)]; rewrite Hs, Hn0 in Hin;
    [by left|].
  apply elem_of_app in Hin as [Hin|Hin]; [by left|]. right.
  apply session_trace_sendmail in Hin as (-> & -> & ->).
  assert (Her : effective_recipients ["DEBUG"] u0 = [u0]).
  { unfold effective_recipients. by rewrite decide_True. }
  rewrite Her in *. split; [done|].
  pose proof (get_secrets_files_elsewhere sf' ut pt lf w0 test_txt) as Hfe.
  rewrite Hg in Hfe. cbn [snd] in Hfe.
  apply compose_message_spec in Hc as (Hhd & _ & _ & parts & Hat & Hp).
  exists m, parts. rewrite Hh0. split; [done|]. split; [exact Hhd|].
  split; [exact Hat|]. destruct ia.
  - split; [done|]. intros _ He.
    apply Forall2_cons_inv_l in Hp as (part & rest & (data & -> & Hd) & Hr & ->).
    apply Forall2_nil_inv_l in Hr as ->.
    specialize (Hd He). rewrite (Hfe He), (Hf0 eq_refl) in Hd.
    by injection Hd as <-.
  - split; [by intros _|done].
Qed.

Lemma X13_test_mode_mails_only_the_sender_witness :
  Sendmail "alice@example.com" ["alice@example.com"]
    (plain_render
       (mkMultipart
          [("MIME-Version", "1.0"); ("From", "alice@example.com");
           ("To", "alice@example.com"); ("Subject", "Test Email")]
          [MIMEText "This is a test." "plain";
           attachment_part test_txt ("This is a test attachment." +:+ nl)]))
  ∈ network alice_world
  \/ (["alice@example.com"] = ["alice@example.com"]
      /\ exists m parts,
           plain_render
             (mkMultipart
                [("MIME-Version", "1.0"); ("From", "alice@example.com");
                 ("To", "alice@example.com"); ("Subject", "Test Email")]
                [MIMEText "This is a test." "plain";
                 attachment_part test_txt ("This is a test attachment." +:+ nl)])
           = as_string (host alice_world) m
           /\ headers m = [("MIME-Version", "1.0"); ("From", "alice@example.com");
                           ("To", "alice@example.com");
                           ("Subject", "Test Email")]
           /\ attached m = MIMEText "This is a test." "plain" :: parts
           /\ (true = false -> parts = [])
           /\ (true = true -> logs_elsewhere to_stdout test_txt ->
               parts = [attachment_part test_txt
                          ("This is a test attachment." +:+ nl)])).
Proof.
  refine (X13_test_mode_mails_only_the_sender (Some scenario_args) secrets_txt
            "gmail_username" "gmail_password" to_stdout true alice_world
            "alice@example.com" ["alice@example.com"] _ _).
  apply list_elem_of_In. vm_compute. tauto.
Defined.

(** ** The credentials of message mode *)

(** The traffic of the script in message mode is that of its one call of
    [send_email], made for the default tags in a world that differs from
    the first one by log lines only. *)
Lemma main_message_traffic file rc s b a sf ut pt lfs w :
  network (snd (main (MessageArgs file rc s b a sf ut pt lfs) w)) = network w
  \/ exists rc' s' b' w0,
       host w0 = host w /\ network w0 = network w
       /\ (forall p,
             logs_elsewhere
               (main_log_file (MessageArgs file rc s b a sf ut pt lfs)) p ->
             files w0 !! p = files w !! p)
       /\ network (snd (main (MessageArgs file rc s b a sf ut pt lfs) w))
          = network
              (snd (send_email rc' s' b' sf "gmail_username" "gmail_password"
                      (main_log_file (MessageArgs file rc s b a sf ut pt lfs))
                      false a w0)).
Proof.
  remember (main (MessageArgs file rc s b a sf ut pt lfs) w) as run eqn:Hrun.
  unfold main in Hrun. cbv zeta in Hrun.
  set (lf := main_log_file _) in *. unfold info in Hrun.
  unfold bind at 1 in Hrun. rewrite log_call_returns in Hrun.
  set (w1 := snd (log_call _ _ _ _ _ w)) in Hrun.
  match type of Hrun with
  | _ = bind ?m _ w1 => set (step := m) in Hrun
  end.
  assert (Hk : forall {X} (obs : World -> X),
             log_blind obs lf -> keeps obs step).
  { intros X obs Hl. subst step. destruct file as [f|];
      [by apply keeps_read_message_file|].
    destruct rc as [[|x l]|]; keeps_auto. }
  pose proof (Hk _ network (log_blind_network lf) w1) as Hn.
  pose proof (Hk _ host (log_blind_host lf) w1) as Hh.
  assert (Hf : forall p, logs_elsewhere lf p ->
                         files (snd (step w1)) !! p = files w !! p).
  { intros p Hp. pose proof (Hk _ (file_at p) (log_blind_file_at lf p Hp) w1) as H.
    unfold file_at in H. rewrite H. subst w1.
    by apply log_call_files_elsewhere. }
  unfold bind at 1 in Hrun.
  destruct (step w1) as [[[[rc' s'] b']|e] w2]; subst run; cbn [snd] in *.
  - right. exists rc', s', b', w2.
    split; [rewrite Hh; apply log_call_host|].
    split; [rewrite Hn; apply log_call_network|]. split; [done|].
    apply (bind_keeps_after network). intros _ w'. apply log_call_network.
  - left. rewrite Hn. apply log_call_network.
Qed.

(** X14: message mode does not pass [--username-tag] and [--password-tag]
    on.  Whatever tags the command line names, the only login that a run in
    message mode can make carries the values that the secrets file binds to
    [gmail_username] and [gmail_password]. *)
Theorem X14_message_mode_uses_the_default_tags (file : option Path)
    (rc : option (list string)) (s b : string) (a : option (list Path))
    (sf : Path) (ut pt lfs : string) (w : World) (text user password : string) :
  logs_elsewhere (main_log_file (MessageArgs file rc s b a sf ut pt lfs)) sf ->
  files w !! sf = Some text ->
  Login user password
  ∈ network (snd (main (MessageArgs file rc s b a sf ut pt lfs) w)) ->
  Login user password ∈ network w
  \/ (user = tag_value "gmail_username" text
      /\ password = tag_value "gmail_password" text).
Proof.
  intros He Hf Hin.
  destruct (main_message_traffic file rc s b a sf ut pt lfs w)
    as [Hn|(rc' & s' & b' & w0 & Hh0 & Hn0 & Hf0 & Hn)]; rewrite Hn in Hin;
    [by left|].
  set (lf := main_log_file _) in *.
  destruct (send_email_network rc' s' b' sf "gmail_username" "gmail_password"
              lf false a w0)
    as [Hs|(u0 & p0 & w1 & m & w2 & Hg & _ & _ & Hs)]; rewrite Hs, Hn0 in Hin;
    [by left|].
  apply elem_of_app in Hin as [Hin|Hin]; [by left|]. right.
  apply session_trace_login in Hin as [-> ->].
  assert (Hat : files (at_check sf "gmail_username" lf w0) !! sf = Some text).
  { rewrite at_check_files_elsewhere by done. by rewrite Hf0. }
  by destruct (get_secrets_returned _ _ _ _ _ _ _ _ _ Hat Hg) as (-> & -> & _).
Qed.

Lemma X14_message_mode_uses_the_default_tags_witness :
  Login "alice@example.com" "s3cr3t" ∈ network alice_world
  \/ ("alice@example.com" = tag_value "gmail_username" alice_text
      /\ "s3cr3t" = tag_value "gmail_password" alice_text).
Proof.
  refine (X14_message_mode_uses_the_default_tags None
            (Some ["bob@example.com"]) "Hi" "Body" None secrets_txt
            "work_username" "work_password" "stdout" alice_world alice_text
            "alice@example.com" "s3cr3t" _ _ _).
  - left. reflexivity.
  - vm_compute. reflexivity.
  - apply list_elem_of_In. vm_compute. tauto.
Defined.

(** ** The log only grows *)

Lemma grows_keeps {A} lf (m : Py A) : keeps (log_text lf) m -> grows lf m.
Proof. intros H w. exists EmptyString. by rewrite H, append_empty_r. Qed.

Lemma grows_bind {A B} lf (m : Py A) (k : A -> Py B) :
  grows lf m -> (forall a, grows lf (k a)) -> grows lf (bind m k).
Proof.
  intros Hm Hk w. unfold bind. destruct (Hm w) as [x Hx].
  destruct (m w) as [[a|e] w1]; cbn [snd] in *; [|by exists x].
  destruct (Hk a w1) as [y Hy]. exists (x +:+ y).
  by rewrite Hy, Hx, append_assoc.
Qed.

Lemma grows_try_except {A} lf (body : Py A) handler :
  grows lf body -> (forall e, grows lf (handler e)) ->
  grows lf (try_except body handler).
Proof.
  intros Hb Hh w. unfold try_except. destruct (Hb w) as [x Hx].
  destruct (body w) as [[a|e] w1]; cbn [snd] in *; [by exists x|].
  destruct (is_Exception e); [|by exists x].
  destruct (Hh e w1) as [y Hy]. exists (x +:+ y).
  by rewrite Hy, Hx, append_assoc.
Qed.

Lemma grows_try_finally {A} lf (body : Py A) cleanup :
  grows lf body -> grows lf cleanup -> grows lf (try_finally body cleanup).
Proof.
  intros Hb Hc w. unfold try_finally. destruct (Hb w) as [x Hx].
  destruct (body w) as [r w1]. cbn [snd] in Hx. destruct (Hc w1) as [y Hy].
  exists (x +:+ y).
  destruct (cleanup w1) as [[[]|e] w2]; cbn [snd] in *;
    by rewrite Hy, Hx, append_assoc.
Qed.

Lemma grows_log_call level lf f n msg :
  grows lf (log_call level (CustomLogger_init lf) f n msg).
Proof. intros w. eexists. apply log_text_log_call. Qed.

Lemma grows_log_exception lf n e :
  grows lf (log_exception (CustomLogger_init lf) n e).
Proof.
  intros w. rewrite log_exception_unfold. unfold error. apply grows_log_call.
Qed.

Lemma net_blind_log_text lf : net_blind (log_text lf).
Proof. done. Qed.

Lemma keeps_log_text_create lf p text :
  logs_elsewhere lf p -> keeps (log_text lf) (create_file p text).
Proof.
  intros He w. unfold create_file, log_text.
  destruct (files w !! p) eqn:Hp; [done|]. cbn [snd files console with_files].
  destruct (stdout (CustomLogger_init lf)) eqn:Hs; [done|].
  destruct He as [He|He]; [congruence|]. by rewrite lookup_insert_ne.
Qed.

Lemma keeps_log_text_remove lf p :
  logs_elsewhere lf p -> keeps (log_text lf) (remove p).
Proof.
  intros He w. unfold remove, log_text.
  destruct (files w !! p) eqn:Hp; [|done]. cbn [snd files console with_files].
  destruct (stdout (CustomLogger_init lf)) eqn:Hs; [done|].
  destruct He as [He|He]; [congruence|]. by rewrite lookup_delete_ne.
Qed.

Ltac grows_auto :=
  repeat first
    [ apply grows_log_call
    | apply grows_log_exception
    | apply grows_keeps; solve [eauto with keeps]
    | apply grows_bind; [|intros ?]
    | apply grows_try_except; [|intros ?]
    | apply grows_try_finally
    | match goal with
      | |- grows _ (if ?b then _ else _) => destruct b
      | |- grows _ (match ?x with _ => _ end) => destruct x
      end ].

Lemma grows_get_secrets sf ut pt lf : grows lf (get_secrets sf ut pt lf).
Proof. unfold get_secrets, info, error. cbv zeta. grows_auto. Qed.

Lemma grows_attach_files lf atts :
  forall m, grows lf (attach_files (CustomLogger_init lf) atts m).
Proof.
  induction atts as [|a atts IH]; intros m; cbn [attach_files].
  - grows_auto.
  - apply grows_bind; [|done]. unfold attach_file, debug. grows_auto.
Qed.

Lemma grows_compose_message lf u rc s b h atts :
  grows lf (compose_message (CustomLogger_init lf) u rc s b h atts).
Proof.
  unfold compose_message, info. cbv zeta.
  apply grows_bind; [grows_auto|intros _].
  destruct atts; [apply grows_attach_files|grows_auto].
Qed.

Lemma grows_send_email r s b sf ut pt lf h a :
  grows lf (send_email r s b sf ut pt lf h a).
Proof.
  unfold send_email. cbv zeta.
  apply grows_bind; [apply grows_get_secrets|intros [u p]].
  apply grows_bind; [apply grows_compose_message|intros m].
  apply grows_bind; [grows_auto|intros text].
  apply grows_bind; [|intros _; unfold info; grows_auto].
  apply grows_keeps, keeps_submit, net_blind_log_text.
Qed.

Lemma grows_read_message_file lf file :
  grows lf (read_message_file (CustomLogger_init lf) file).
Proof.
  unfold read_message_file, error.
  apply grows_bind; [grows_auto|intros ex].
  destruct ex; cbn [negb]; [|grows_auto].
  apply grows_bind; [grows_auto|intros text].
  destruct (readline text) as [line1 rest1].
  cbv zeta. destruct (String.eqb _ _); [grows_auto|].
  destruct (readline rest1). grows_auto.
Qed.

(** What follows the first log line of a run. *)
Lemma grows_after_log_call {B} level lf f n msg (k : unit -> Py B) w :
  grows lf (k tt) ->
  exists rest,
    log_text lf (snd (bind (log_call level (CustomLogger_init lf) f n msg) k w))
    = log_text lf w
      +:+ log_output (clock (host w) (ticks w)) level f n msg +:+ rest.
Proof.
  intros Hk. unfold bind. rewrite log_call_returns.
  destruct (Hk (snd (log_call level (CustomLogger_init lf) f n msg w)))
    as [rest Hr].
  exists rest. by rewrite Hr, log_text_log_call, append_assoc.
Qed.

Lemma test_send_email_log args sf ut pt lf ia w :
  exists rest,
    log_text lf (snd (test_send_email args sf ut pt lf ia w))
    = log_text lf w
      +:+ log_output (clock (host w) (ticks w)) "INFO" "test_send_email" 192
            "====== INITIALIZING... ======"
      +:+ rest.
Proof.
  assert (Hc : ia = false \/ logs_elsewhere lf test_txt ->
               exists rest,
                 log_text lf (snd (test_send_email args sf ut pt lf ia w))
                 = log_text lf w
                   +:+ log_output (clock (host w) (ticks w)) "INFO"
                         "test_send_email" 192 "====== INITIALIZING... ======"
                   +:+ rest).
  { intros Hc. unfold test_send_email. cbv zeta. unfold info.
    apply grows_after_log_call.
    apply grows_bind; [grows_auto|intros _].
    apply grows_bind; [|intros _; grows_auto].
    destruct ia.
    - destruct Hc as [Hc|Hc]; [done|].
      apply grows_bind; [by apply grows_keeps, keeps_log_text_create|intros _].
      apply grows_bind; [grows_auto|intros _].
      apply grows_try_finally; [|by apply grows_keeps, keeps_log_text_remove].
      apply grows_try_except; [apply grows_send_email|intros e].
      apply grows_log_exception.
    - apply grows_try_except; [|intros e; apply grows_log_exception].
      apply grows_bind; [grows_auto|intros a]. apply grows_send_email. }
  destruct ia; [|by apply Hc; left].
  destruct (stdout (CustomLogger_init lf)) eqn:Hs;
    [by apply Hc; right; left|].
  destruct (decide (log_path (CustomLogger_init lf) = test_txt)) as [Hp|Hp];
    [|by apply Hc; right; right].
  rewrite test_send_email_blocked.
  - cbn [snd]. unfold test_entry, info. eexists.
    rewrite log_text_log_call, log_text_log_call, <- append_assoc. reflexivity.
  - unfold test_entry, info.
    rewrite (log_call_unfold _ _ _ _ _
               (snd (log_call "INFO" (CustomLogger_init lf) "test_send_email"
                       192 "====== INITIALIZING... ======" w))).
    cbv zeta. cbn [snd]. rewrite Hs. cbn [files with_files].
    rewrite Hp, lookup_insert_eq. by eexists.
Qed.

(** X15: the log is append-only.  [send_email] and [test_send_email] only
    add to what their log destination held when they were called, and a run
    of the script leaves the earlier log as it was and adds, first of all,
    its [====== INITIALIZING... ======] line; this holds also when the log
    file is the secrets file, an attachment or [test.txt] itself. *)
Theorem X15_log_is_append_only :
  (forall r s b sf ut pt lf h a w,
      exists added,
        log_text lf (snd (send_email r s b sf ut pt lf h a w))
        = log_text lf w +:+ added)
  /\ (forall args sf ut pt lf ia w,
        exists added,
          log_text lf (snd (test_send_email args sf ut pt lf ia w))
          = log_text lf w +:+ added)
  /\ (forall args w,
        exists rest,
          log_text (main_log_file args) (snd (main args w))
          = log_text (main_log_file args) w
            +:+ log_output (clock (host w) (ticks w)) "INFO"
                  match args with
                  | MessageArgs _ _ _ _ _ _ _ _ _ => "<module>"
                  | TestArgs _ _ _ _ _ => "test_send_email"
                  end
                  match args with
                  | MessageArgs _ _ _ _ _ _ _ _ _ => 352
                  | TestArgs _ _ _ _ _ => 192
                  end
                  "====== INITIALIZING... ======"
            +:+ rest).
Proof.
  split; [|split].
  - intros r s b sf ut pt lf h a w. apply grows_send_email.
  - intros args sf ut pt lf ia w.
    destruct (test_send_email_log args sf ut pt lf ia w) as [rest H].
    eexists. exact H.
  - intros [file rc s b a sf ut pt lfs|sf ut pt ia lfs] w.
    + unfold main. cbv zeta. set (lf := main_log_file _). unfold info.
      apply grows_after_log_call.
      apply grows_bind.
      * destruct file as [f|]; [apply grows_read_message_file|].
        destruct rc as [[|x l]|]; grows_auto.
      * intros [[r' s'] b'].
        apply grows_bind; [apply grows_send_email|intros _]. grows_auto.
    + unfold main. cbv zeta. apply test_send_email_log.
Qed.

(** ** One run, one session *)

(** X16: a run of the script, in either mode, leaves the earlier traffic as
    it was and adds to it nothing at all or exactly one SMTP session: it
    never opens a second connection, never retries a refused call and never
    sends a second message. *)
Theorem X16_at_most_one_session_per_run (args : Namespace) (w : World) :
  network (snd (main args w)) = network w
  \/ exists u p rc text,
       network (snd (main args w))
       = network w ++ session_trace (server (host w)) u p rc text.
Proof.
  destruct args as [file rc s b a sf ut pt lfs|sf ut pt ia lfs].
  - destruct (main_message_traffic file rc s b a sf ut pt lfs w)
      as [Hn|(rc' & s' & b' & w0 & Hh0 & Hn0 & _ & Hn)]; [by left|].
    rewrite Hn.
    destruct (send_email_network rc' s' b' sf "gmail_username" "gmail_password"
                (main_log_file (MessageArgs file rc s b a sf ut pt lfs))
                false a w0)
      as [Hs|(u0 & p0 & w1 & m & w2 & _ & _ & _ & Hs)]; rewrite Hs, Hn0;
      [by left|].
    right. rewrite Hh0. by eexists _, _, _, _.
  - unfold main. cbv zeta.
    destruct (test_send_email_traffic
                (Some (TestArgs sf ut pt ia lfs)) sf ut pt
                (main_log_file (TestArgs sf ut pt ia lfs)) ia w)
      as [Hn|(sf' & w0 & Hh0 & Hn0 & _ & Hn)]; [by left|].
    rewrite Hn.
    destruct (send_email_network ["DEBUG"] "Test Email" "This is a test." sf'
                ut pt (main_log_file (TestArgs sf ut pt ia lfs)) false
                (if ia then Some [test_txt] else None) w0)
      as [Hs|(u0 & p0 & w1 & m & w2 & _ & _ & _ & Hs)]; rewrite Hs, Hn0;
      [by left|].
    right. rewrite Hh0. by eexists _, _, _, _.
Qed.

(** ** The log of a successful send *)

Lemma log_call_ticks level lg f n msg w :
  ticks (snd (log_call level lg f n msg w)) = S (ticks w).
Proof. rewrite log_call_unfold. cbv zeta. cbn [snd]. by destruct (stdout lg). Qed.

Lemma get_secrets_returned_log sf ut pt lf w u p w1 :
  get_secrets sf ut pt lf w = (Returned (u, p), w1) ->
  log_text lf w1
  = log_text lf w
    +:+ log_output (clock (host w) (ticks w)) "INFO" "get_secrets" 53
          (loading_message ut sf)
    +:+ log_output (clock (host w) (S (ticks w))) "INFO" "get_secrets" 77
          "Secrets loaded successfully!"
  /\ ticks w1 = S (S (ticks w)) /\ host w1 = host w.
Proof.
  rewrite get_secrets_unfold. cbv zeta.
  destruct (files (at_check sf ut lf w) !! sf) as [text|]; [|done].
  destruct (String.eqb (tag_value ut text) EmptyString); [done|].
  destruct (String.eqb (tag_value pt text) EmptyString); [done|].
  intros [= _ _ <-]. unfold at_check, info.
  rewrite !log_text_log_call, !log_call_ticks, !log_call_host.
  by rewrite <- append_assoc.
Qed.

Lemma attach_files_log lf atts :
  forall m w m' w',
    attach_files (CustomLogger_init lf) atts m w = (Returned m', w') ->
    log_text lf w'
    = log_text lf w +:+ attach_lines (clock (host w)) (ticks w) atts
    /\ ticks w' = length atts + ticks w /\ host w' = host w.
Proof.
  induction atts as [|a atts IH]; intros m w m' w'.
  - intros [= _ <-]. cbn [attach_lines length]. by rewrite append_empty_r.
  - cbn [attach_files]. unfold bind at 1. rewrite attach_file_unfold. cbv zeta.
    unfold debug. set (w1 := snd (log_call _ _ _ _ _ w)).
    destruct (files w1 !! a) as [data|]; [|done].
    intros H. apply IH in H as (Hl & Ht & Hh). subst w1.
    rewrite log_text_log_call, log_call_ticks, log_call_host in Hl.
    rewrite log_call_ticks in Ht. rewrite log_call_host in Hh.
    split; [|split; [cbn [length]; lia|done]].
    rewrite Hl. cbn [attach_lines]. by rewrite <- append_assoc.
Qed.

Lemma compose_message_log lf u rc s b h atts w m w' :
  compose_message (CustomLogger_init lf) u rc s b h atts w = (Returned m, w') ->
  log_text lf w'
  = log_text lf w
    +:+ log_output (clock (host w) (ticks w)) "INFO" "send_email" 132
          ("Creating new email to recipient(s): " +:+ str_join ", " rc
           +:+ "...")
    +:+ attach_lines (clock (host w)) (S (ticks w)) (default [] atts)
  /\ ticks w' = length (default [] atts) + S (ticks w) /\ host w' = host w.
Proof.
  unfold compose_message, info. cbv zeta. unfold bind at 1.
  rewrite log_call_returns. set (w1 := snd (log_call _ _ _ _ _ w)).
  destruct atts as [l|]; cbn [default].
  - intros H. apply attach_files_log in H as (Hl & Ht & Hh). subst w1.
    rewrite log_text_log_call, log_call_ticks, log_call_host in Hl.
    rewrite log_call_ticks in Ht. rewrite log_call_host in Hh.
    split; [|done]. rewrite Hl. by rewrite <- append_assoc.
  - intros [= _ <-]. subst w1.
    rewrite log_text_log_call, log_call_ticks, log_call_host.
    cbn [attach_lines length]. by rewrite append_empty_r.
Qed.

(** X17: the log of a successful send.  When [send_email] returns, the
    credentials were resolved, and the call has added to its log exactly
    these lines, in this order, stamped by consecutive readings of the
    clock: the two lines of [get_secrets], the line that names the
    effective recipients, one DEBUG line per attachment, and the success
    line.  None of them depends on the password. *)
Theorem X17_log_of_a_successful_send (r : list string) (s b : string)
    (sf : Path) (ut pt : string) (lf : LogFile) (h : bool)
    (a : option (list Path)) (w w' : World) :
  send_email r s b sf ut pt lf h a w = (Returned tt, w') ->
  exists u p w1,
    get_secrets sf ut pt lf w = (Returned (u, p), w1)
    /\ log_text lf w'
       = log_text lf w
         +:+ log_output (clock (host w) (ticks w)) "INFO" "get_secrets" 53
               (loading_message ut sf)
         +:+ log_output (clock (host w) (1 + ticks w)) "INFO" "get_secrets" 77
               "Secrets loaded successfully!"
         +:+ log_output (clock (host w) (2 + ticks w)) "INFO" "send_email" 132
               ("Creating new email to recipient(s): "
                +:+ str_join ", " (effective_recipients r u) +:+ "...")
         +:+ attach_lines (clock (host w)) (3 + ticks w) (default [] a)
         +:+ log_output
               (clock (host w) (length (default [] a) + (3 + ticks w)))
               "INFO" "send_email" 162 "Email sent successfully!".
Proof.
  intros Hs.
  destruct (get_secrets sf ut pt lf w) as [[[u p]|e] w1] eqn:Hg.
  2: { by rewrite (send_email_secrets_raise _ _ _ _ _ _ _ _ _ _ _ _ Hg) in Hs. }
  exists u, p, w1. split; [done|].
  rewrite (send_email_unfold _ _ _ _ _ _ _ _ _ _ _ _ _ Hg) in Hs.
  destruct (compose_message (CustomLogger_init lf) u (effective_recipients r u)
              s b h a w1) as [[m|e] w2] eqn:Hc; [|done].
  destruct (as_string_raises (host w2) m) as [d|]; [done|].
  assert (Hk : log_text lf (snd (submit u p (effective_recipients r u)
                                   (as_string (host w2) m) w2)) = log_text lf w2
               /\ ticks (snd (submit u p (effective_recipients r u)
                                (as_string (host w2) m) w2)) = ticks w2
               /\ host (snd (submit u p (effective_recipients r u)
                               (as_string (host w2) m) w2)) = host w2).
  { split; [|split]; by apply keeps_submit. }
  destruct Hk as (Hlog & Htk & Hho).
  destruct (submit _ _ _ _ w2) as [[[]|e] w3]; [|done]. cbn [snd] in *.
  unfold info in Hs. rewrite log_call_returns in Hs. injection Hs as <-.
  apply get_secrets_returned_log in Hg as (Hl1 & Ht1 & Hh1).
  apply compose_message_log in Hc as (Hl2 & Ht2 & Hh2).
  rewrite log_text_log_call, Hlog, Htk, Hho, Hl2, Ht2, Hh2, Hl1, Ht1, Hh1.
  rewrite <- !append_assoc. reflexivity.
Qed.

Lemma X17_log_of_a_successful_send_witness :
  exists u p w1,
    get_secrets secrets_txt "gmail_username" "gmail_password" to_stdout
      report_world = (Returned (u, p), w1)
    /\ log_text to_stdout
         (snd (send_email ["bob@example.com"] "Hi" "Body" secrets_txt
                 "gmail_username" "gmail_password" to_stdout false
                 (Some [report_txt]) report_world))
       = log_text to_stdout report_world
         +:+ log_output (clock (host report_world) (ticks report_world)) "INFO"
               "get_secrets" 53 (loading_message "gmail_username" secrets_txt)
         +:+ log_output (clock (host report_world) (1 + ticks report_world))
               "INFO" "get_secrets" 77 "Secrets loaded successfully!"
         +:+ log_output (clock (host report_world) (2 + ticks report_world))
               "INFO" "send_email" 132
               ("Creating new email to recipient(s): "
                +:+ str_join ", " (effective_recipients ["bob@example.com"] u)
                +:+ "...")
         +:+ attach_lines (clock (host report_world)) (3 + ticks report_world)
               (default [] (Some [report_txt]))
         +:+ log_output
               (clock (host report_world)
                  (length (default [] (Some [report_txt]))
                   + (3 + ticks report_world)))
               "INFO" "send_email" 162 "Email sent successfully!".
Proof.
  refine (X17_log_of_a_successful_send ["bob@example.com"] "Hi" "Body"
            secrets_txt "gmail_username" "gmail_password" to_stdout false
            (Some [report_txt]) report_world _ _).
  vm_compute. reflexivity.
Defined.

(** ** When the logger prints *)

(** X18: the logger chooses the standard output by the type and the name of
    [log_file].  A string that is [stdout] in any capitalisation selects
    it: the line is printed, and no file is changed.  Every other string,
    and every [Path], even one named [stdout], is taken for a file: such a
    logger prints nothing. *)
Theorem X18_stdout_by_type_and_name (level f : string) (n : nat)
    (msg : string) (w : World) :
  (forall s,
      str_lower s = "stdout" ->
      files (snd (log_call level (CustomLogger_init (LogStr s)) f n msg w))
      = files w
      /\ console (snd (log_call level (CustomLogger_init (LogStr s)) f n msg w))
         = console w ++ [log_output (clock (host w) (ticks w)) level f n msg])
  /\ (forall s,
        str_lower s <> "stdout" ->
        console (snd (log_call level (CustomLogger_init (LogStr s)) f n msg w))
        = console w)
  /\ (forall p,
        console (snd (log_call level (CustomLogger_init (LogPath p)) f n msg w))
        = console w).
Proof.
  split; [|split].
  - intros s Hs. rewrite log_call_unfold. cbv zeta. cbn [snd].
    unfold CustomLogger_init. cbn [stdout]. by rewrite Hs.
  - intros s Hs. apply keeps_console_log_call.
    unfold CustomLogger_init. cbn [stdout].
    apply String.eqb_neq in Hs. by rewrite Hs.
  - intros p. by apply keeps_console_log_call.
Qed.

Lemma X18_stdout_by_type_and_name_witness :
  (files (snd (log_call "INFO" (CustomLogger_init (LogStr "StdOut")) "main" 1
                 "hello" alice_world))
   = files alice_world
   /\ console (snd (log_call "INFO" (CustomLogger_init (LogStr "StdOut")) "main"
                      1 "hello" alice_world))
      = console alice_world
        ++ [log_output (clock (host alice_world) (ticks alice_world)) "INFO"
              "main" 1 "hello"])
  /\ console (snd (log_call "INFO" (CustomLogger_init (LogStr "stdout.log"))
                     "main" 1 "hello" alice_world))
     = console alice_world.
Proof.
  split.
  - refine (proj1 (X18_stdout_by_type_and_name "INFO" "main" 1 "hello"
                     alice_world) "StdOut" _).
    vm_compute. reflexivity.
  - refine (proj1 (proj2 (X18_stdout_by_type_and_name "INFO" "main" 1 "hello"
                            alice_world)) "stdout.log" _).
    vm_compute. discriminate.
Defined.
